(** * ProxySQL Ansible modules: reconciliation and layer transfer

    A shallow embedding of the four modules
    [proxysql_global_variables], [proxysql_mysql_users],
    [proxysql_scheduler] and [proxysql_manage_config], together with a
    small model of the ProxySQL admin interface they talk to, and the
    properties of the reconciliation engine proved over it. *)

From Stdlib Require Import String Ascii List ZArith Bool Lia Permutation.
Import ListNotations.

Local Open Scope string_scope.
Local Open Scope list_scope.
Local Open Scope Z_scope.

(** String concatenation is written [+++]; [++] is kept for lists. *)
Notation "s +++ t" := (String.append s t) (at level 60, right associativity).

(** ** Python values *)

(** The scalar values a module parameter can hold. *)
Inductive pyval :=
| PyNone
| PyBool (b : bool)
| PyInt (n : Z)
| PyStr (s : string).

(** A stored row as the dict cursor returns it: column name to cell. *)
Inductive sqlval :=
| SqlNull
| SqlInt (n : Z)
| SqlText (s : string).

Definition row := list (string * sqlval).

(** The objects that end up in a result dict. *)
Inductive pyobj :=
| Val (v : pyval)
| Tuple (items : list pyval)
| Dict (r : row)
| Rows (rs : list row).

Definition is_nil {A} (l : list A) : bool :=
  match l with [] => true | _ => false end.

(** Python truthiness ([if x:] / [not x]). *)
Definition truthy (v : pyval) : bool :=
  match v with
  | PyNone => false
  | PyBool b => b
  | PyInt n => negb (n =? 0)
  | PyStr s => negb (String.eqb s "")
  end.

Definition truth (o : pyobj) : bool :=
  match o with
  | Val v => truthy v
  | Tuple items => negb (is_nil items)
  | Dict r => negb (is_nil r)
  | Rows rs => negb (is_nil rs)
  end.

Definition py_True : pyobj := Val (PyBool true).
Definition py_False : pyobj := Val (PyBool false).

(** A Python dict with string keys, as an association list; [d[k] = v]
    replaces the binding of [k] or adds one. *)
Definition dict := list (string * pyobj).

Fixpoint dict_get (k : string) (d : dict) : option pyobj :=
  match d with
  | [] => None
  | (k', v) :: d' => if String.eqb k k' then Some v else dict_get k d'
  end.

Fixpoint dict_set (k : string) (v : pyobj) (d : dict) : dict :=
  match d with
  | [] => [(k, v)]
  | (k', v') :: d' =>
      if String.eqb k k' then (k, v) :: d' else (k', v') :: dict_set k v d'
  end.

(** ** Strings *)

Definition nl : string := String "010"%char EmptyString.
Definition dq : string := String "034"%char EmptyString.

(** [s * n] on Python strings. *)
Fixpoint str_repeat (s : string) (n : nat) : string :=
  match n with
  | O => ""
  | S n' => s +++ str_repeat s n'
  end.

(** [s[:-n]]: the string without its last [n] characters. *)
Definition drop_last (n : nat) (s : string) : string :=
  String.substring 0 (String.length s - n) s.

(** ** The admin interface

    The store is an external collaborator.  It is modelled as three
    staging tables and the journal of everything sent over the
    connection.  A statement is the text and the parameter list handed to
    [cursor.execute]; the store tokenises the text, parses it, binds the
    parameters to the [%s] placeholders in order and runs it. *)

Definition is_space (c : ascii) : bool :=
  Ascii.eqb c " "%char || Ascii.eqb c "010"%char
  || Ascii.eqb c "009"%char || Ascii.eqb c "013"%char.

Definition is_punct (c : ascii) : bool :=
  Ascii.eqb c "("%char || Ascii.eqb c ")"%char
  || Ascii.eqb c ","%char || Ascii.eqb c "="%char.

Definition flush (cur : string) : list string :=
  match cur with
  | EmptyString => []
  | _ => [cur]
  end.

Fixpoint tokens_from (cur : string) (s : string) : list string :=
  match s with
  | EmptyString => flush cur
  | String c s' =>
      if is_space c then flush cur ++ tokens_from "" s'
      else if is_punct c then
             flush cur ++ String c "" :: tokens_from "" s'
           else tokens_from (cur +++ String c "") s'
  end.

Definition tokens (s : string) : list string := tokens_from "" s.

Definition tok_eq (t k : string) : bool := String.eqb t k.

Definition reserved : list string :=
  ["="; ","; "("; ")"; "*"; "%s"; "AND"; "and"; "WHERE"; "SET"; "FROM";
   "VALUES"; "INTO"; "AS"].

Definition is_name (t : string) : bool :=
  negb (tok_eq t "") && negb (existsb (tok_eq t) reserved).

Definition is_and (t : string) : bool := tok_eq t "AND" || tok_eq t "and".

(** The parsed shape of a statement; every value is a placeholder. *)
Inductive stmt :=
| SCount (alias table : string) (conds : list string)
| SSelect (table : string) (conds : list string)
| SInsert (table : string) (cols : list string)
| SUpdate (table : string) (sets conds : list string)
| SDelete (table : string) (conds : list string)
| SAdmin (verb : string) (family : list string) (direction layer : string).

(** [col = %s] conjuncts joined by [AND], up to the end of the text. *)
Fixpoint parse_conds (ts : list string) : option (list string) :=
  match ts with
  | c :: e :: ph :: rest =>
      if is_name c && tok_eq e "=" && tok_eq ph "%s" then
        match rest with
        | [] => Some [c]
        | kw :: rest' =>
            if is_and kw then option_map (cons c) (parse_conds rest')
            else None
        end
      else None
  | _ => None
  end.

Definition parse_where (ts : list string) : option (list string) :=
  match ts with
  | kw :: rest => if tok_eq kw "WHERE" then parse_conds rest else None
  | [] => None
  end.

(** [col = %s] assignments joined by commas, then the [WHERE] clause. *)
Fixpoint parse_sets (ts : list string)
  : option (list string * list string) :=
  match ts with
  | c :: e :: ph :: rest =>
      if is_name c && tok_eq e "=" && tok_eq ph "%s" then
        match rest with
        | kw :: rest' =>
            if tok_eq kw "," then
              match parse_sets rest' with
              | Some (sets, conds) => Some (c :: sets, conds)
              | None => None
              end
            else
              match parse_where rest with
              | Some conds => Some ([c], conds)
              | None => None
              end
        | [] => None
        end
      else None
  | _ => None
  end.

(** A comma separated list of names up to the closing parenthesis. *)
Fixpoint parse_names (ts : list string)
  : option (list string * list string) :=
  match ts with
  | c :: sep :: rest =>
      if is_name c then
        if tok_eq sep ")" then Some ([c], rest)
        else if tok_eq sep "," then
               match parse_names rest with
               | Some (cs, rest') => Some (c :: cs, rest')
               | None => None
               end
             else None
      else None
  | _ => None
  end.

(** A comma separated list of placeholders and the closing parenthesis;
    the number of placeholders. *)
Fixpoint parse_placeholders (ts : list string) : option nat :=
  match ts with
  | ph :: sep :: rest =>
      if tok_eq ph "%s" then
        if tok_eq sep ")" then
          match rest with [] => Some 1%nat | _ => None end
        else if tok_eq sep "," then
               option_map S (parse_placeholders rest)
             else None
      else None
  | _ => None
  end.

Definition unquote (t : string) : string :=
  match t with
  | String "`"%char body => drop_last 1 body
  | _ => t
  end.

Definition is_layer (t : string) : bool :=
  existsb (tok_eq t) ["MEMORY"; "DISK"; "RUNTIME"; "CONFIG"].

Definition parse_admin (verb : string) (ts : list string) : option stmt :=
  match rev ts with
  | layer :: direction :: ylimaf =>
      if (tok_eq direction "FROM" || tok_eq direction "TO")
         && is_layer layer && negb (is_nil ylimaf)
         && forallb is_name ylimaf
      then Some (SAdmin verb (rev ylimaf) direction layer)
      else None
  | _ => None
  end.

Definition expect (k : string) (ts : list string) : option (list string) :=
  match ts with
  | t :: rest => if tok_eq t k then Some rest else None
  | [] => None
  end.

Definition name (ts : list string) : option (string * list string) :=
  match ts with
  | t :: rest => if is_name t then Some (t, rest) else None
  | [] => None
  end.

Definition obind {A B} (o : option A) (f : A -> option B) : option B :=
  match o with
  | Some a => f a
  | None => None
  end.

Notation "x <-? o ; k" := (obind o (fun x => k))
  (at level 61, o at next level, right associativity).
Notation "' p <-? o ; k" := (obind o (fun x => match x with p => k end))
  (at level 61, p pattern, o at next level, right associativity).

Definition parse_select (ts : list string) : option stmt :=
  match ts with
  | t :: rest =>
      if tok_eq t "*" then
        r <-? expect "FROM" rest ;
        '(table, r) <-? name r ;
        conds <-? parse_where r ;
        Some (SSelect table conds)
      else if tok_eq t "count" then
        r <-? expect "(" rest ;
        r <-? expect "*" r ;
        r <-? expect ")" r ;
        r <-? expect "AS" r ;
        match r with
        | alias :: r =>
            r <-? expect "FROM" r ;
            '(table, r) <-? name r ;
            conds <-? parse_where r ;
            Some (SCount (unquote alias) table conds)
        | [] => None
        end
      else None
  | [] => None
  end.

Definition parse_insert (ts : list string) : option stmt :=
  r <-? expect "INTO" ts ;
  '(table, r) <-? name r ;
  r <-? expect "(" r ;
  '(cols, r) <-? parse_names r ;
  r <-? expect "VALUES" r ;
  r <-? expect "(" r ;
  n <-? parse_placeholders r ;
  if Nat.eqb n (length cols) then Some (SInsert table cols) else None.

Definition parse_update (ts : list string) : option stmt :=
  '(table, r) <-? name ts ;
  r <-? expect "SET" r ;
  '(sets, conds) <-? parse_sets r ;
  Some (SUpdate table sets conds).

Definition parse_delete (ts : list string) : option stmt :=
  r <-? expect "FROM" ts ;
  '(table, r) <-? name r ;
  conds <-? parse_where r ;
  Some (SDelete table conds).

Definition parse (ts : list string) : option stmt :=
  match ts with
  | [] => None
  | kw :: rest =>
      if tok_eq kw "SELECT" then parse_select rest
      else if tok_eq kw "INSERT" then parse_insert rest
      else if tok_eq kw "UPDATE" then parse_update rest
      else if tok_eq kw "DELETE" then parse_delete rest
      else if tok_eq kw "LOAD" || tok_eq kw "SAVE" then parse_admin kw rest
      else None
  end.

(** *** Values and rows *)

(** How the driver renders a Python parameter as an SQL literal. *)
Definition literal (v : pyval) : sqlval :=
  match v with
  | PyNone => SqlNull
  | PyBool b => SqlInt (if b then 1 else 0)
  | PyInt n => SqlInt n
  | PyStr s => SqlText s
  end.

(** SQL [=]: never true when either side is NULL. *)
Definition sql_eq (a b : sqlval) : bool :=
  match a, b with
  | SqlInt x, SqlInt y => x =? y
  | SqlText s, SqlText t => String.eqb s t
  | _, _ => false
  end.

Fixpoint cell (c : string) (r : row) : sqlval :=
  match r with
  | [] => SqlNull
  | (c', v) :: r' => if String.eqb c c' then v else cell c r'
  end.

Fixpoint set_cell (c : string) (v : sqlval) (r : row) : row :=
  match r with
  | [] => [(c, v)]
  | (c', v') :: r' =>
      if String.eqb c c' then (c, v) :: r' else (c', v') :: set_cell c v r'
  end.

(** A bound predicate or assignment list: columns with their literals. *)
Definition binding := list (string * sqlval).

Definition matches (conds : binding) (r : row) : bool :=
  forallb (fun cv => sql_eq (cell (fst cv) r) (snd cv)) conds.

Definition assign (sets : binding) (r : row) : row :=
  fold_left (fun r cv => set_cell (fst cv) (snd cv) r) sets r.

(** *** The store *)

(** The three tables the modules read and write, and what the store
    itself puts in the columns an [INSERT] does not name: the RETURN
    samples of the modules show a created record with [active],
    [max_connections], [schema_locked] or [id] filled in although the
    statement sent did not name them.  The modules do not say what these
    values are, so they are a field of the store: from the name of the
    table and the rows it holds, the cells given to a new row. *)
Record store := {
  global_variables : list row;
  mysql_users : list row;
  scheduler : list row;
  column_defaults : string -> list row -> row
}.

Inductive event :=
| Connect
| Execute (query_string : string) (query_data : list pyval).

Record world := {
  mysqldb_found : bool;      (* the driver could be imported *)
  admin_up : bool;           (* the admin interface accepts the login *)
  tables : store;
  journal : list event       (* oldest first *)
}.

Definition table_get (t : string) (s : store) : option (list row) :=
  if String.eqb t "global_variables" then Some (global_variables s)
  else if String.eqb t "mysql_users" then Some (mysql_users s)
  else if String.eqb t "scheduler" then Some (scheduler s)
  else None.

Definition table_put (t : string) (rs : list row) (s : store) : store :=
  if String.eqb t "global_variables" then
    {| global_variables := rs; mysql_users := mysql_users s;
       scheduler := scheduler s; column_defaults := column_defaults s |}
  else if String.eqb t "mysql_users" then
    {| global_variables := global_variables s; mysql_users := rs;
       scheduler := scheduler s; column_defaults := column_defaults s |}
  else if String.eqb t "scheduler" then
    {| global_variables := global_variables s; mysql_users := mysql_users s;
       scheduler := rs; column_defaults := column_defaults s |}
  else s.

(** What the cursor holds after [execute]. *)
Record cursor := {
  rowcount : Z;
  resultset : list row
}.

Definition count_of (rs : list row) : Z := Z.of_nat (length rs).

Definition bind_args (cols : list string) (args : list sqlval)
  : option binding :=
  if Nat.eqb (length cols) (length args) then Some (combine cols args)
  else None.

(** The row an [INSERT] stores: the cells it names, then the store's
    defaults for the columns it does not name. *)
Definition named (c : string) (b : binding) : bool :=
  existsb (fun cv => String.eqb (fst cv) c) b.

Definition inserted (b : binding) (defaults : row) : row :=
  b ++ filter (fun cv => negb (named (fst cv) b)) defaults.

(** Running a parsed statement against the tables.  [None] is a statement
    the store refuses (unknown table, wrong number of parameters).  The
    key constraints of the tables are a matter of the ProxySQL schema,
    which the modules do not carry: a new row is stored whatever rows
    there are.  The modules insert only after they have counted no row
    with the same key fields (user) or the same fields (schedule). *)
Definition run_stmt (st : stmt) (args : list sqlval) (s : store)
  : option (cursor * store) :=
  match st with
  | SCount alias t conds =>
      rs <-? table_get t s ;
      b <-? bind_args conds args ;
      Some ({| rowcount := 1;
               resultset :=
                 [[(alias, SqlInt (count_of (filter (matches b) rs)))]] |},
            s)
  | SSelect t conds =>
      rs <-? table_get t s ;
      b <-? bind_args conds args ;
      Some ({| rowcount := count_of (filter (matches b) rs);
               resultset := filter (matches b) rs |}, s)
  | SInsert t cols =>
      rs <-? table_get t s ;
      b <-? bind_args cols args ;
      Some ({| rowcount := 1; resultset := [] |},
            table_put t (rs ++ [inserted b (column_defaults s t rs)]) s)
  | SUpdate t sets conds =>
      rs <-? table_get t s ;
      b <-? bind_args (sets ++ conds) args ;
      let bs := firstn (length sets) b in
      let bc := skipn (length sets) b in
      Some ({| rowcount := count_of (filter (matches bc) rs);
               resultset := [] |},
            table_put t
              (map (fun r => if matches bc r then assign bs r else r) rs) s)
  | SDelete t conds =>
      rs <-? table_get t s ;
      b <-? bind_args conds args ;
      Some ({| rowcount := count_of (filter (matches b) rs);
               resultset := [] |},
            table_put t (filter (fun r => negb (matches b r)) rs) s)
  | SAdmin _ _ _ _ =>
      match args with
      | [] => Some ({| rowcount := 0; resultset := [] |}, s)
      | _ => None
      end
  end.

(** ** Exceptions and the cursor monad *)

Inductive exn :=
| MySQLdb_Error (e : string)    (* what the [except] clauses catch *)
| Fail_json (msg : string)      (* [module.fail_json] leaves the process *)
| Python_error (e : string).    (* any other exception: a traceback *)

Inductive res (A : Type) :=
| Ok (a : A)
| Raise (e : exn).
Arguments Ok {A} a.
Arguments Raise {A} e.

Definition M (A : Type) : Type := world -> res A * world.

Definition ret {A} (a : A) : M A := fun w => (Ok a, w).

Definition bind {A B} (m : M A) (f : A -> M B) : M B :=
  fun w =>
    match m w with
    | (Ok a, w') => f a w'
    | (Raise e, w') => (Raise e, w')
    end.

Definition raise {A} (e : exn) : M A := fun w => (Raise e, w).

(** [try: body except MySQLdb.Error: handler]. *)
Definition try_except {A} (body : M A) (handler : string -> M A) : M A :=
  fun w =>
    match body w with
    | (Raise (MySQLdb_Error e), w') => handler e w'
    | r => r
    end.

Notation "x <- m ;; k" := (bind m (fun x => k))
  (at level 61, m at next level, right associativity).
Notation "m ;; k" := (bind m (fun _ => k))
  (at level 61, right associativity).

Definition fail_json {A} (msg : string) : M A := raise (Fail_json msg).

Definition record (e : event) (w : world) : world :=
  {| mysqldb_found := mysqldb_found w; admin_up := admin_up w;
     tables := tables w; journal := journal w ++ [e] |}.

Definition with_tables (s : store) (w : world) : world :=
  {| mysqldb_found := mysqldb_found w; admin_up := admin_up w;
     tables := s; journal := journal w |}.

(** [mysql_connect]: the connection attempt is journalled either way. *)
Definition mysql_connect : M unit :=
  fun w =>
    if admin_up w then (Ok tt, record Connect w)
    else (Raise (MySQLdb_Error "Can't connect to MySQL server"),
          record Connect w).

(** [cursor.execute(query_string, query_data)]. *)
Definition execute (query_string : string) (query_data : list pyval)
  : M cursor :=
  fun w =>
    let w' := record (Execute query_string query_data) w in
    match parse (tokens query_string) with
    | None => (Raise (MySQLdb_Error "You have an error in your SQL syntax"),
               w')
    | Some st =>
        match run_stmt st (map literal query_data) (tables w') with
        | None => (Raise (MySQLdb_Error "statement refused"), w')
        | Some (cur, s') => (Ok cur, with_tables s' w')
        end
    end.

(** [cursor.fetchone()]: the first row, or [None]. *)
Definition fetchone (cur : cursor) : pyobj :=
  match resultset cur with
  | r :: _ => Dict r
  | [] => Val PyNone
  end.

(** [cursor.fetchall()]. *)
Definition fetchall (cur : cursor) : pyobj := Rows (resultset cur).

(** [int(row[key])] on a fetched row. *)
Definition int_field (key : string) (o : pyobj) : M Z :=
  match o with
  | Dict r =>
      match cell key r with
      | SqlInt n => ret n
      | _ => raise (Python_error "KeyError")
      end
  | _ => raise (Python_error "TypeError")
  end.

(** What a module run hands to the result sink. *)
Inductive outcome :=
| Exit_json (result : dict)
| Failed (msg : string)
| Traceback (e : string).

Definition finish (r : res dict * world) : outcome * world :=
  match r with
  | (Ok d, w) => (Exit_json d, w)
  | (Raise (Fail_json msg), w) => (Failed msg, w)
  | (Raise (MySQLdb_Error e), w) => (Traceback e, w)
  | (Raise (Python_error e), w) => (Traceback e, w)
  end.

Definition gets {A} (f : world -> A) : M A := fun w => (Ok (f w), w).

Definition when (b : bool) (m : M unit) : M unit :=
  if b then m else ret tt.

Definition is_not_None (v : pyval) : bool :=
  match v with
  | PyNone => false
  | _ => true
  end.

Definition opt_str (o : option string) : pyval :=
  match o with Some s => PyStr s | None => PyNone end.
Definition opt_bool (o : option bool) : pyval :=
  match o with Some b => PyBool b | None => PyNone end.
Definition opt_int (o : option Z) : pyval :=
  match o with Some n => PyInt n | None => PyNone end.

(** The [state] choice of the record modules. *)
Inductive state_choice := present | absent.

Definition state_str (s : state_choice) : string :=
  match s with present => "present" | absent => "absent" end.

(** ** proxysql_global_variables *)

Module GlobalVariables.

Record params := {
  login_port : Z;
  variable : string;
  value : pyval;              (* untyped in the argument spec *)
  save_to_disk : bool;
  load_to_runtime : bool;
  check_mode : bool
}.

Definition perform_checks (p : params) : M unit :=
  when ((login_port p <? 0) || (login_port p >? 65535))
    (fail_json "login_port must be a valid unix port number (0-65535)") ;;
  found <- gets mysqldb_found ;;
  when (negb found) (fail_json "the python mysqldb module is required").

Definition save_config_to_disk (variable : string) : M pyobj :=
  (if String.prefix "admin" variable
   then execute "SAVE ADMIN VARIABLES TO DISK" []
   else execute "SAVE MYSQL VARIABLES TO DISK" []) ;;
  ret py_True.

Definition load_config_to_runtime (variable : string) : M pyobj :=
  (if String.prefix "admin" variable
   then execute "LOAD ADMIN VARIABLES TO RUNTIME" []
   else execute "LOAD MYSQL VARIABLES TO RUNTIME" []) ;;
  ret py_True.

Definition check_config_query (variable : string) (value : pyval)
  : string * list pyval :=
  let query_string :=
    "SELECT count(*) AS `variable_count`" +++ nl +++
    "           FROM global_variables" +++ nl +++
    "           WHERE variable_name = %s and variable_value = %s" in
  let query_data := [PyStr variable; value] in
  (query_string, query_data).

Definition check_config (variable : string) (value : pyval) : M bool :=
  let '(query_string, query_data) := check_config_query variable value in
  cur <- execute query_string query_data ;;
  let check_count := fetchone cur in
  n <- int_field "variable_count" check_count ;;
  ret (n >? 0).

Definition get_config_query (variable : string)
  : string * list pyval :=
  let query_string :=
    "SELECT *" +++ nl +++
    "           FROM global_variables" +++ nl +++
    "           WHERE variable_name = %s" in
  let query_data := [PyStr variable] in
  (query_string, query_data).

Definition get_config (variable : string) : M pyobj :=
  let '(query_string, query_data) := get_config_query variable in
  cur <- execute query_string query_data ;;
  let row_count := rowcount cur in
  let resultset := fetchone cur in
  if row_count >? 0 then ret resultset else ret py_False.

Definition set_config_query (variable : string) (value : pyval)
  : string * list pyval :=
  let query_string :=
    "UPDATE global_variables" +++ nl +++
    "           SET variable_value = %s" +++ nl +++
    "           WHERE variable_name = %s" in
  let query_data := [value; PyStr variable] in
  (query_string, query_data).

Definition set_config (variable : string) (value : pyval) : M pyobj :=
  let '(query_string, query_data) := set_config_query variable value in
  execute query_string query_data ;;
  ret py_True.

Definition manage_config (variable : string)
    (save_to_disk load_to_runtime : bool) (state : pyobj) : M unit :=
  when (truth state)
    (when save_to_disk (save_config_to_disk variable ;; ret tt) ;;
     when load_to_runtime (load_config_to_runtime variable ;; ret tt)).

Definition not_found (variable : string) : string :=
  "The variable " +++ dq +++ variable +++ dq +++ " was not found".

Definition main (p : params) : M dict :=
  perform_checks p ;;
  let variable := variable p in
  let value := value p in
  let save_to_disk := save_to_disk p in
  let load_to_runtime := load_to_runtime p in
  try_except mysql_connect
    (fun e =>
       fail_json ("unable to connect to ProxySQL Admin Module.. " +++ e)) ;;
  let result : dict := [] in
  if negb (truthy value) then
    try_except
      (found <- get_config variable ;;
       if truth found then
         let result := dict_set "changed" py_False result in
         let result :=
           dict_set "msg"
             (Val (PyStr "Returned the variable and it's current value"))
             result in
         var <- get_config variable ;;
         ret (dict_set "var" var result)
       else fail_json (not_found variable))
      (fun e => fail_json ("unable to get config.. " +++ e))
  else
    try_except
      (found <- get_config variable ;;
       if truth found then
         same <- check_config variable value ;;
         if negb same then
           if negb (check_mode p) then
             changed <- set_config variable value ;;
             let result := dict_set "changed" changed result in
             let result :=
               dict_set "msg"
                 (Val (PyStr "Set the variable to the supplied value"))
                 result in
             var <- get_config variable ;;
             let result := dict_set "var" var result in
             manage_config variable save_to_disk load_to_runtime
               changed ;;
             ret result
           else
             let result := dict_set "changed" py_True result in
             ret (dict_set "msg"
                    (Val (PyStr ("Variable would have been set to" +++
                                 " the supplied value, however" +++
                                 " check_mode is enabled.")))
                    result)
         else
           let result := dict_set "changed" py_False result in
           let result :=
             dict_set "msg"
               (Val (PyStr ("The variable is already been set to" +++
                            " the supplied value")))
               result in
           var <- get_config variable ;;
           ret (dict_set "var" var result)
       else fail_json (not_found variable))
      (fun e => fail_json ("unable to set config.. " +++ e)).

Definition run (p : params) (w : world) : outcome * world :=
  finish (main p w).

End GlobalVariables.

(** ** proxysql_mysql_users *)

Module MysqlUsers.

Record params := {
  login_port : Z;
  param_username : string;
  password : option string;
  active : option bool;
  use_ssl : option bool;
  default_hostgroup : option Z;
  default_schema : option string;
  transaction_persistent : option bool;
  fast_forward : option bool;
  param_backend : bool;
  param_frontend : bool;
  max_connections : option Z;
  param_state : state_choice;
  param_save_to_disk : bool;
  param_load_to_runtime : bool;
  check_mode : bool
}.

(** [module.params[k]] for the attribute keys. *)
Definition param (p : params) (k : string) : pyval :=
  if String.eqb k "password" then opt_str (password p)
  else if String.eqb k "active" then opt_bool (active p)
  else if String.eqb k "use_ssl" then opt_bool (use_ssl p)
  else if String.eqb k "default_hostgroup"
  then opt_int (default_hostgroup p)
  else if String.eqb k "default_schema" then opt_str (default_schema p)
  else if String.eqb k "transaction_persistent"
  then opt_bool (transaction_persistent p)
  else if String.eqb k "fast_forward" then opt_bool (fast_forward p)
  else if String.eqb k "max_connections" then opt_int (max_connections p)
  else PyNone.

Definition perform_checks (p : params) : M unit :=
  when ((login_port p <? 0) || (login_port p >? 65535))
    (fail_json "login_port must be a valid unix port number (0-65535)") ;;
  found <- gets mysqldb_found ;;
  when (negb found) (fail_json "the python mysqldb module is required").

Definition save_config_to_disk : M pyobj :=
  execute "SAVE MYSQL USERS TO DISK" [] ;;
  ret py_True.

Definition load_config_to_runtime : M pyobj :=
  execute "LOAD MYSQL USERS TO RUNTIME" [] ;;
  ret py_True.

Record ProxySQLUser := {
  state : state_choice;
  save_to_disk : bool;
  load_to_runtime : bool;
  username : string;
  backend : bool;
  frontend : bool;
  config_data : list (string * pyval)
}.

Definition config_data_keys : list string :=
  ["password"; "active"; "use_ssl"; "default_hostgroup"; "default_schema";
   "transaction_persistent"; "fast_forward"; "max_connections"].

Definition init (p : params) : ProxySQLUser :=
  {| state := param_state p;
     save_to_disk := param_save_to_disk p;
     load_to_runtime := param_load_to_runtime p;
     username := param_username p;
     backend := param_backend p;
     frontend := param_frontend p;
     config_data := map (fun k => (k, param p k)) config_data_keys |}.

Section Interpreter.

(** The order in which [dict.iteritems()] yields the entries of a
    dict: some arrangement of them, fixed by the interpreter. *)
Variable iteritems : list (string * pyval) -> list (string * pyval).

Definition key_data (self : ProxySQLUser) : list pyval :=
  [PyStr (username self); PyBool (backend self); PyBool (frontend self)].

Definition check_user_config_exists_query (self : ProxySQLUser)
  : string * list pyval :=
  let query_string :=
    "SELECT count(*) AS `user_count`" +++ nl +++
    "               FROM mysql_users" +++ nl +++
    "               WHERE username = %s" +++ nl +++
    "                 AND backend = %s" +++ nl +++
    "                 AND frontend = %s" in
  let query_data := key_data self in
  (query_string, query_data).

Definition check_user_config_exists (self : ProxySQLUser) : M bool :=
  let '(query_string, query_data) := check_user_config_exists_query self in
  cur <- execute query_string query_data ;;
  let check_count := fetchone cur in
  n <- int_field "user_count" check_count ;;
  ret (n >? 0).

Definition check_user_privs_query (self : ProxySQLUser)
  : string * list pyval :=
  let query_string :=
    "SELECT count(*) AS `user_count`" +++ nl +++
    "               FROM mysql_users" +++ nl +++
    "               WHERE username = %s" +++ nl +++
    "                 AND backend = %s" +++ nl +++
    "                 AND frontend = %s" in
  let query_data := key_data self in
  fold_left
    (fun '(query_string, query_data) '(col, val) =>
       if is_not_None val then
         (query_string +++ nl +++ "  AND " +++ col +++ " = %s",
          query_data ++ [val])
       else (query_string, query_data))
    (iteritems (config_data self))
    (query_string, query_data).

Definition check_user_privs (self : ProxySQLUser) : M bool :=
  let '(query_string, query_data) := check_user_privs_query self in
  cur <- execute query_string query_data ;;
  let check_count := fetchone cur in
  n <- int_field "user_count" check_count ;;
  ret (n >? 0).

Definition get_user_config_query (self : ProxySQLUser)
  : string * list pyval :=
  let query_string :=
    "SELECT *" +++ nl +++
    "               FROM mysql_users" +++ nl +++
    "               WHERE username = %s" +++ nl +++
    "                 AND backend = %s" +++ nl +++
    "                 AND frontend = %s" in
  let query_data := key_data self in
  (query_string, query_data).

Definition get_user_config (self : ProxySQLUser) : M pyobj :=
  let '(query_string, query_data) := get_user_config_query self in
  cur <- execute query_string query_data ;;
  let user := fetchone cur in
  ret user.

Definition create_user_config_query (self : ProxySQLUser)
  : string * list pyval :=
  let query_string :=
    "INSERT INTO mysql_users (" +++ nl +++
    "               username," +++ nl +++
    "               backend," +++ nl +++
    "               frontend" in
  let cols := 3%nat in
  let query_data := key_data self in
  let '(cols, query_string, query_data) :=
    fold_left
      (fun '(cols, query_string, query_data) '(col, val) =>
         if is_not_None val then
           (S cols, query_string +++ "," +++ nl +++ col,
            query_data ++ [val])
         else (cols, query_string, query_data))
      (iteritems (config_data self))
      (cols, query_string, query_data) in
  let query_string :=
    query_string +++
    (")" +++ nl +++ "VALUES (" +++ str_repeat "%s ," cols) in
  let query_string := drop_last 2 query_string in
  let query_string := query_string +++ ")" in
  (query_string, query_data).

Definition create_user_config (self : ProxySQLUser) : M pyobj :=
  let '(query_string, query_data) := create_user_config_query self in
  execute query_string query_data ;;
  ret py_True.

Definition update_user_config_query (self : ProxySQLUser)
  : string * list pyval :=
  let query_string := "UPDATE mysql_users" in
  let cols := 0%nat in
  let query_data : list pyval := [] in
  let '(cols, query_string, query_data) :=
    fold_left
      (fun '(cols, query_string, query_data) '(col, val) =>
         if is_not_None val then
           let cols := S cols in
           let query_data := query_data ++ [val] in
           if Nat.eqb cols 1 then
             (cols, query_string +++ nl +++ "SET " +++ col +++ "= %s,",
              query_data)
           else
             (cols, query_string +++ nl +++ "    " +++ col +++ " = %s,",
              query_data)
         else (cols, query_string, query_data))
      (iteritems (config_data self))
      (cols, query_string, query_data) in
  let query_string := drop_last 1 query_string in
  let query_string :=
    query_string +++
    (nl +++ "WHERE username = %s" +++ nl +++ "  AND backend = %s" +++
     nl +++ "  AND frontend = %s") in
  let query_data := query_data ++ [PyStr (username self)] in
  let query_data := query_data ++ [PyBool (backend self)] in
  let query_data := query_data ++ [PyBool (frontend self)] in
  (query_string, query_data).

Definition update_user_config (self : ProxySQLUser) : M pyobj :=
  let '(query_string, query_data) := update_user_config_query self in
  execute query_string query_data ;;
  ret py_True.

Definition delete_user_config_query (self : ProxySQLUser)
  : string * list pyval :=
  let query_string :=
    "DELETE FROM mysql_users" +++ nl +++
    "               WHERE username = %s" +++ nl +++
    "                 AND backend = %s" +++ nl +++
    "                 AND frontend = %s" in
  let query_data := key_data self in
  (query_string, query_data).

Definition delete_user_config (self : ProxySQLUser) : M pyobj :=
  let '(query_string, query_data) := delete_user_config_query self in
  execute query_string query_data ;;
  ret py_True.

Definition manage_config (self : ProxySQLUser) (state : pyobj)
  : M unit :=
  when (truth state)
    (when (save_to_disk self) (save_config_to_disk ;; ret tt) ;;
     when (load_to_runtime self) (load_config_to_runtime ;; ret tt)).

Definition create_user (self : ProxySQLUser) (check_mode : bool)
    (result : dict) : M dict :=
  if negb check_mode then
    changed <- create_user_config self ;;
    let result := dict_set "changed" changed result in
    let result :=
      dict_set "msg" (Val (PyStr "Added user to mysql_users")) result in
    user <- get_user_config self ;;
    let result := dict_set "user" user result in
    manage_config self changed ;;
    ret result
  else
    let result := dict_set "changed" py_True result in
    ret (dict_set "msg"
           (Val (PyStr ("User would have been added to" +++
                        " mysql_users, however check_mode" +++
                        " is enabled.")))
           result).

Definition update_user (self : ProxySQLUser) (check_mode : bool)
    (result : dict) : M dict :=
  if negb check_mode then
    changed <- update_user_config self ;;
    let result := dict_set "changed" changed result in
    let result :=
      dict_set "msg" (Val (PyStr "Updated user in mysql_users"))
        result in
    user <- get_user_config self ;;
    let result := dict_set "user" user result in
    manage_config self changed ;;
    ret result
  else
    let result := dict_set "changed" py_True result in
    ret (dict_set "msg"
           (Val (PyStr ("User would have been updated in" +++
                        " mysql_users, however check_mode" +++
                        " is enabled.")))
           result).

Definition delete_user (self : ProxySQLUser) (check_mode : bool)
    (result : dict) : M dict :=
  if negb check_mode then
    user <- get_user_config self ;;
    let result := dict_set "user" user result in
    changed <- delete_user_config self ;;
    let result := dict_set "changed" changed result in
    let result :=
      dict_set "msg" (Val (PyStr "Deleted user from mysql_users"))
        result in
    manage_config self changed ;;
    ret result
  else
    let result := dict_set "changed" py_True result in
    ret (dict_set "msg"
           (Val (PyStr ("User would have been deleted from" +++
                        " mysql_users, however check_mode is" +++
                        " enabled.")))
           result).

Definition main (p : params) : M dict :=
  perform_checks p ;;
  try_except mysql_connect
    (fun e =>
       fail_json
         ("unable to connect to ProxySQL Admin Module.. " +++ e)) ;;
  let proxysql_user := init p in
  let result : dict := [] in
  let result :=
    dict_set "state" (Val (PyStr (state_str (state proxysql_user))))
      result in
  let result :=
    if truthy (PyStr (username proxysql_user))
    then dict_set "username" (Val (PyStr (username proxysql_user)))
           result
    else result in
  match state proxysql_user with
  | present =>
      try_except
        (privs <- check_user_privs proxysql_user ;;
         if negb privs then
           found <- check_user_config_exists proxysql_user ;;
           if negb found then
             create_user proxysql_user (check_mode p) result
           else
             update_user proxysql_user (check_mode p) result
         else
           let result := dict_set "changed" py_False result in
           let result :=
             dict_set "msg"
               (Val (PyStr ("The user already exists in mysql_users" +++
                            " and doesn't need to be updated.")))
               result in
           user <- get_user_config proxysql_user ;;
           ret (dict_set "user" user result))
        (fun e => fail_json ("unable to modify user.. " +++ e))
  | absent =>
      try_except
        (found <- check_user_config_exists proxysql_user ;;
         if found then
           delete_user proxysql_user (check_mode p) result
         else
           let result := dict_set "changed" py_False result in
           ret (dict_set "msg"
                  (Val (PyStr ("The user is already absent from the" +++
                               " mysql_users memory configuration")))
                  result))
        (fun e => fail_json ("unable to remove user.. " +++ e))
  end.

Definition run (p : params) (w : world) : outcome * world :=
  finish (main p w).

End Interpreter.

End MysqlUsers.

(** ** proxysql_scheduler *)

Module Scheduler.

Record params := {
  login_port : Z;
  param_active : bool;
  param_interval_ms : Z;
  param_filename : string;
  arg1 : option string;
  arg2 : option string;
  arg3 : option string;
  arg4 : option string;
  arg5 : option string;
  comment : option string;
  param_state : state_choice;
  param_force_delete : bool;
  param_save_to_disk : bool;
  param_load_to_runtime : bool;
  check_mode : bool
}.

(** [module.params[k]] for the attribute keys. *)
Definition param (p : params) (k : string) : pyval :=
  if String.eqb k "arg1" then opt_str (arg1 p)
  else if String.eqb k "arg2" then opt_str (arg2 p)
  else if String.eqb k "arg3" then opt_str (arg3 p)
  else if String.eqb k "arg4" then opt_str (arg4 p)
  else if String.eqb k "arg5" then opt_str (arg5 p)
  else if String.eqb k "comment" then opt_str (comment p)
  else PyNone.

Definition perform_checks (p : params) : M unit :=
  when ((login_port p <? 0) || (login_port p >? 65535))
    (fail_json "login_port must be a valid unix port number (0-65535)") ;;
  when ((param_interval_ms p <? 100) || (param_interval_ms p >? 100000000))
    (fail_json "interval_ms must between 100ms & 100000000ms") ;;
  found <- gets mysqldb_found ;;
  when (negb found) (fail_json "the python mysqldb module is required").

Definition save_config_to_disk : M pyobj :=
  execute "SAVE SCHEDULER TO DISK" [] ;;
  ret py_True.

Definition load_config_to_runtime : M pyobj :=
  execute "LOAD SCHEDULER TO RUNTIME" [] ;;
  ret py_True.

Record ProxySQLSchedule := {
  state : state_choice;
  force_delete : bool;
  save_to_disk : bool;
  load_to_runtime : bool;
  active : bool;
  interval_ms : Z;
  filename : string;
  config_data : list (string * pyval)
}.

Definition config_data_keys : list string :=
  ["arg1"; "arg2"; "arg3"; "arg4"; "arg5"; "comment"].

Definition init (p : params) : ProxySQLSchedule :=
  {| state := param_state p;
     force_delete := param_force_delete p;
     save_to_disk := param_save_to_disk p;
     load_to_runtime := param_load_to_runtime p;
     active := param_active p;
     interval_ms := param_interval_ms p;
     filename := param_filename p;
     config_data := map (fun k => (k, param p k)) config_data_keys |}.

Section Interpreter.

(** The order in which [dict.iteritems()] yields the entries of a
    dict: some arrangement of them, fixed by the interpreter. *)
Variable iteritems : list (string * pyval) -> list (string * pyval).

Definition key_data (self : ProxySQLSchedule) : list pyval :=
  [PyBool (active self); PyInt (interval_ms self);
   PyStr (filename self)].

(** The loop shared by the three predicate builders: one conjunct and
    one parameter for every attribute that is not [None]. *)
Definition add_conjuncts (self : ProxySQLSchedule)
    (query_string : string) (query_data : list pyval)
  : string * list pyval :=
  fold_left
    (fun '(query_string, query_data) '(col, val) =>
       if is_not_None val then
         (query_string +++ nl +++ "  AND " +++ col +++ " = %s",
          query_data ++ [val])
       else (query_string, query_data))
    (iteritems (config_data self))
    (query_string, query_data).

Definition check_schedule_config_query (self : ProxySQLSchedule)
  : string * list pyval :=
  let query_string :=
    "SELECT count(*) AS `schedule_count`" +++ nl +++
    "               FROM scheduler" +++ nl +++
    "               WHERE active = %s" +++ nl +++
    "                 AND interval_ms = %s" +++ nl +++
    "                 AND filename = %s" in
  let query_data := key_data self in
  add_conjuncts self query_string query_data.

Definition check_schedule_config (self : ProxySQLSchedule) : M Z :=
  let '(query_string, query_data) := check_schedule_config_query self in
  cur <- execute query_string query_data ;;
  let check_count := fetchone cur in
  int_field "schedule_count" check_count.

Definition get_schedule_config_query (self : ProxySQLSchedule)
  : string * list pyval :=
  let query_string :=
    "SELECT *" +++ nl +++
    "               FROM scheduler" +++ nl +++
    "               WHERE active = %s" +++ nl +++
    "                 AND interval_ms = %s" +++ nl +++
    "                 AND filename = %s" in
  let query_data := key_data self in
  add_conjuncts self query_string query_data.

Definition get_schedule_config (self : ProxySQLSchedule) : M pyobj :=
  let '(query_string, query_data) := get_schedule_config_query self in
  cur <- execute query_string query_data ;;
  let schedule := fetchall cur in
  ret schedule.

Definition create_schedule_config_query (self : ProxySQLSchedule)
  : string * list pyval :=
  let query_string :=
    "INSERT INTO scheduler (" +++ nl +++
    "               active," +++ nl +++
    "               interval_ms," +++ nl +++
    "               filename" in
  let cols := 0%nat in
  let query_data := key_data self in
  let '(cols, query_string, query_data) :=
    fold_left
      (fun '(cols, query_string, query_data) '(col, val) =>
         if is_not_None val then
           (S cols, query_string +++ "," +++ nl +++ col,
            query_data ++ [val])
         else (cols, query_string, query_data))
      (iteritems (config_data self))
      (cols, query_string, query_data) in
  let query_string :=
    query_string +++
    (")" +++ nl +++ "VALUES (%s, %s, %s" +++ str_repeat ", %s" cols +++
     ")") in
  (query_string, query_data).

Definition create_schedule_config (self : ProxySQLSchedule) : M pyobj :=
  let '(query_string, query_data) := create_schedule_config_query self in
  execute query_string query_data ;;
  ret py_True.

Definition delete_schedule_config_query (self : ProxySQLSchedule)
  : string * list pyval :=
  let query_string :=
    "DELETE FROM scheduler" +++ nl +++
    "               WHERE active = %s" +++ nl +++
    "                 AND interval_ms = %s" +++ nl +++
    "                 AND filename = %s" in
  let query_data := key_data self in
  add_conjuncts self query_string query_data.

Definition delete_schedule_config (self : ProxySQLSchedule) : M pyobj :=
  let '(query_string, query_data) := delete_schedule_config_query self in
  cur <- execute query_string query_data ;;
  let check_count := rowcount cur in
  ret (Tuple [PyBool true; PyInt check_count]).

Definition manage_config (self : ProxySQLSchedule) (state : pyobj)
  : M unit :=
  when (truth state)
    (when (save_to_disk self) (save_config_to_disk ;; ret tt) ;;
     when (load_to_runtime self) (load_config_to_runtime ;; ret tt)).

Definition create_schedule (self : ProxySQLSchedule) (check_mode : bool)
    (result : dict) : M dict :=
  if negb check_mode then
    changed <- create_schedule_config self ;;
    let result := dict_set "changed" changed result in
    let result :=
      dict_set "msg" (Val (PyStr "Added schedule to scheduler"))
        result in
    schedules <- get_schedule_config self ;;
    let result := dict_set "schedules" schedules result in
    manage_config self changed ;;
    ret result
  else
    let result := dict_set "changed" py_True result in
    ret (dict_set "msg"
           (Val (PyStr ("Schedule would have been added to" +++
                        " scheduler, however check_mode" +++
                        " is enabled.")))
           result).

Definition delete_schedule (self : ProxySQLSchedule) (check_mode : bool)
    (result : dict) : M dict :=
  if negb check_mode then
    schedules <- get_schedule_config self ;;
    let result := dict_set "schedules" schedules result in
    changed <- delete_schedule_config self ;;
    let result := dict_set "changed" changed result in
    let result :=
      dict_set "msg" (Val (PyStr "Deleted schedule from scheduler"))
        result in
    manage_config self changed ;;
    ret result
  else
    let result := dict_set "changed" py_True result in
    ret (dict_set "msg"
           (Val (PyStr ("Schedule would have been deleted from" +++
                        " scheduler, however check_mode is" +++
                        " enabled.")))
           result).

Definition main (p : params) : M dict :=
  perform_checks p ;;
  try_except mysql_connect
    (fun e =>
       fail_json
         ("unable to connect to ProxySQL Admin Module.. " +++ e)) ;;
  let proxysql_schedule := init p in
  let result : dict := [] in
  let result :=
    dict_set "state"
      (Val (PyStr (state_str (state proxysql_schedule)))) result in
  let result :=
    dict_set "filename" (Val (PyStr (filename proxysql_schedule)))
      result in
  match state proxysql_schedule with
  | present =>
      try_except
        (n <- check_schedule_config proxysql_schedule ;;
         if negb (n >? 0) then
           create_schedule proxysql_schedule (check_mode p) result
         else
           let result := dict_set "changed" py_False result in
           let result :=
             dict_set "msg"
               (Val (PyStr ("The schedule already exists and doesn't" +++
                            " need to be updated.")))
               result in
           schedules <- get_schedule_config proxysql_schedule ;;
           ret (dict_set "schedules" schedules result))
        (fun e => fail_json ("unable to modify schedule.. " +++ e))
  | absent =>
      try_except
        (existing_schedules <-
           check_schedule_config proxysql_schedule ;;
         if existing_schedules >? 0 then
           if (existing_schedules =? 1)
              || force_delete proxysql_schedule
           then
             delete_schedule proxysql_schedule (check_mode p) result
           else
             fail_json ("Operation would delete multiple records" +++
                        " use force_delete to override this")
         else
           let result := dict_set "changed" py_False result in
           ret (dict_set "msg"
                  (Val (PyStr ("The schedule is already absent from the"
                               +++ " memory configuration")))
                  result))
        (fun e => fail_json ("unable to remove schedule.. " +++ e))
  end.

Definition run (p : params) (w : world) : outcome * world :=
  finish (main p w).

End Interpreter.

End Scheduler.

(** ** proxysql_manage_config *)

Module ManageConfig.

Inductive action_choice := LOAD | SAVE.
Inductive direction_choice := FROM | TO.
Inductive settings_choice :=
| MYSQL_USERS | MYSQL_SERVERS | MYSQL_QUERY_RULES
| MYSQL_VARIABLES | ADMIN_VARIABLES | SCHEDULER.
Inductive layer_choice := MEMORY | DISK | RUNTIME | CONFIG.

Definition action_str (a : action_choice) : string :=
  match a with LOAD => "LOAD" | SAVE => "SAVE" end.

Definition direction_str (d : direction_choice) : string :=
  match d with FROM => "FROM" | TO => "TO" end.

Definition settings_str (s : settings_choice) : string :=
  match s with
  | MYSQL_USERS => "MYSQL USERS"
  | MYSQL_SERVERS => "MYSQL SERVERS"
  | MYSQL_QUERY_RULES => "MYSQL QUERY RULES"
  | MYSQL_VARIABLES => "MYSQL VARIABLES"
  | ADMIN_VARIABLES => "ADMIN VARIABLES"
  | SCHEDULER => "SCHEDULER"
  end.

Definition layer_str (l : layer_choice) : string :=
  match l with
  | MEMORY => "MEMORY"
  | DISK => "DISK"
  | RUNTIME => "RUNTIME"
  | CONFIG => "CONFIG"
  end.

(** [action] and [direction] are required; [config_settings] and
    [config_layer] are not (their [required] key is misspelt in the
    argument spec), so they may be [None]. *)
Record params := {
  login_port : Z;
  param_action : action_choice;
  param_config_settings : option settings_choice;
  param_direction : direction_choice;
  param_config_layer : option layer_choice
}.

(** [module.params[...]]: a string, or [None]. *)
Definition action (p : params) : option string :=
  Some (action_str (param_action p)).
Definition direction (p : params) : option string :=
  Some (direction_str (param_direction p)).
Definition config_settings (p : params) : option string :=
  option_map settings_str (param_config_settings p).
Definition config_layer (p : params) : option string :=
  option_map layer_str (param_config_layer p).

(** Python [v == s] and [v != s] against a string constant. *)
Definition py_eq (v : option string) (s : string) : bool :=
  match v with
  | Some t => String.eqb t s
  | None => false
  end.
Definition py_ne (v : option string) (s : string) : bool :=
  negb (py_eq v s).

(** [fmt % v]. *)
Definition py_str (v : option string) : string :=
  match v with
  | Some s => s
  | None => "None"
  end.

Definition perform_checks (p : params) : M unit :=
  when ((login_port p <? 0) || (login_port p >? 65535))
    (fail_json "login_port must be a valid unix port number (0-65535)") ;;
  when (py_eq (config_layer p) "CONFIG"
        && (py_ne (action p) "LOAD" || py_ne (direction p) "FROM"))
    (if py_ne (action p) "LOAD" && py_ne (direction p) "FROM" then
       fail_json
         ("Neither the action " +++ dq +++ py_str (action p) +++ dq +++
          " nor the direction" +++
          " " +++ dq +++ py_str (direction p) +++ dq +++
          " are valid combination with the CONFIG" +++
          " config_layer")
     else if py_ne (action p) "LOAD" then
       fail_json
         ("The action " +++ dq +++ py_str (action p) +++ dq +++
          " is not a valid combination" +++
          " with the CONFIG config_layer")
     else
       fail_json
         ("The direction " +++ dq +++ py_str (direction p) +++ dq +++
          " is not a valid combination" +++
          " with the CONFIG config_layer")) ;;
  found <- gets mysqldb_found ;;
  when (negb found) (fail_json "the python mysqldb module is required").

(** [sep.join(items)]: [None] stands for the [TypeError] raised on an
    item that is not a string. *)
Fixpoint str_join (sep : string) (items : list (option string))
  : option string :=
  match items with
  | [] => Some ""
  | [Some s] => Some s
  | Some s :: rest =>
      match str_join sep rest with
      | Some t => Some (s +++ sep +++ t)
      | None => None
      end
  | None :: _ => None
  end.

Definition manage_config (manage_config_settings : list (option string))
  : M pyobj :=
  match str_join " " manage_config_settings with
  | None => raise (Python_error "TypeError")
  | Some query_string =>
      execute query_string [] ;;
      ret py_True
  end.

Definition main (p : params) : M dict :=
  perform_checks p ;;
  let action := action p in
  let config_settings := config_settings p in
  let direction := direction p in
  let config_layer := config_layer p in
  try_except mysql_connect
    (fun e =>
       fail_json ("unable to connect to ProxySQL Admin Module.. " +++ e)) ;;
  let result : dict := [] in
  let manage_config_settings :=
    [action; config_settings; direction; config_layer] in
  try_except
    (changed <- manage_config manage_config_settings ;;
     ret (dict_set "changed" changed result))
    (fun e => fail_json ("unable to manage config.. " +++ e)).

Definition run (p : params) (w : world) : outcome * world :=
  finish (main p w).

End ManageConfig.

Definition empty_store : store :=
  {| global_variables := []; mysql_users := []; scheduler := [];
     column_defaults := fun _ _ => [] |}.

Definition fresh (s : store) : world :=
  {| mysqldb_found := true; admin_up := true; tables := s; journal := [] |}.


(** * Auxiliary definitions *)

(** A word: a non-empty string without blanks or punctuation; it always
    makes one token. *)
Fixpoint word_chars (s : string) : bool :=
  match s with
  | EmptyString => true
  | String c s' => negb (is_space c) && negb (is_punct c) && word_chars s'
  end.

Definition is_word (s : string) : bool :=
  negb (String.eqb s "") && word_chars s.

(** A column name the tokenizer and the parser both take as one name. *)
Definition is_column (s : string) : bool := is_word s && is_name s.

(** The entries of a dict that a loop does not skip. *)
Definition present_items (items : list (string * pyval))
  : list (string * pyval) :=
  filter (fun kv => is_not_None (snd kv)) items.

(** The text a loop adds: one piece per column, in order. *)
Fixpoint pieces (piece : string -> string) (cols : list string) : string :=
  match cols with
  | [] => ""
  | c :: cols' => piece c +++ pieces piece cols'
  end.

Definition conj_piece (c : string) : string :=
  nl +++ "  AND " +++ c +++ " = %s".

Definition conj_tokens (cols : list string) : list string :=
  flat_map (fun c => ["AND"; c; "="; "%s"]) cols.

Definition name_piece (c : string) : string := "," +++ nl +++ c.

Definition name_tokens (cols : list string) : list string :=
  flat_map (fun c => [","; c]) cols.

(** [n + 1] placeholders and the closing parenthesis. *)
Fixpoint ph_tokens (n : nat) : list string :=
  match n with
  | O => ["%s"; ")"]
  | S n' => "%s" :: "," :: ph_tokens n'
  end.

Definition set_piece (c : string) : string :=
  "," +++ nl +++ "    " +++ c +++ " = %s".

Definition set_tokens (cols : list string) : list string :=
  flat_map (fun c => [","; c; "="; "%s"]) cols.

Definition columns (cols : list string) : Prop :=
  Forall (fun c => is_column c = true) cols.

Definition present_cols (items : list (string * pyval)) : list string :=
  map fst (present_items items).

Definition present_vals (items : list (string * pyval)) : list pyval :=
  map snd (present_items items).

(** The predicate a list of columns and parameters stands for. *)
Definition attr_binding (items : list (string * pyval)) : binding :=
  combine (present_cols items) (map literal (present_vals items)).

(** The world after a statement was sent and left the tables as [s]. *)
Definition sent (q : string * list pyval) (s : store) (w : world) : world :=
  with_tables s (record (Execute (fst q) (snd q)) w).

Definition matching (b : binding) (rs : list row) : list row :=
  filter (matches b) rs.

Definition update_piece (c : string) : string :=
  nl +++ "    " +++ c +++ " = %s,".

(** ** The predicates of the user family *)

Definition user_keys : list string := ["username"; "backend"; "frontend"].

Definition user_key_binding (self : MysqlUsers.ProxySQLUser) : binding :=
  combine user_keys (map literal (MysqlUsers.key_data self)).

Definition user_attrs (it : list (string * pyval) -> list (string * pyval))
    (self : MysqlUsers.ProxySQLUser) : list (string * pyval) :=
  it (MysqlUsers.config_data self).

Definition user_full_binding
    (it : list (string * pyval) -> list (string * pyval))
    (self : MysqlUsers.ProxySQLUser) : binding :=
  user_key_binding self ++ attr_binding (user_attrs it self).

(** The row a create stores: the bound cells, then the store's defaults. *)
Definition user_stored
    (it : list (string * pyval) -> list (string * pyval))
    (self : MysqlUsers.ProxySQLUser) (s : store) : row :=
  inserted (user_full_binding it self)
    (column_defaults s "mysql_users" (mysql_users s)).

(** The count the two checks compare with zero. *)
Definition user_key_count (self : MysqlUsers.ProxySQLUser) (s : store) : Z :=
  count_of (matching (user_key_binding self) (mysql_users s)).

Definition user_full_count
    (it : list (string * pyval) -> list (string * pyval))
    (self : MysqlUsers.ProxySQLUser) (s : store) : Z :=
  count_of (matching (user_full_binding it self) (mysql_users s)).

(** [dict.iteritems()] yields every entry once, in some order. *)
Definition arrangement
    (it : list (string * pyval) -> list (string * pyval)) : Prop :=
  forall d, Permutation (it d) d.

(** A read-only statement: sent, tables untouched. *)
Definition asked (q : string * list pyval) (w : world) : world :=
  sent q (tables w) w.

(** The two propagation commands, each under its own toggle. *)
Definition propagate (save load : bool) (save_cmd load_cmd : string)
    (w : world) : world :=
  let w := if save then asked (save_cmd, []) w else w in
  if load then asked (load_cmd, []) w else w.

Definition port_ok (port : Z) : bool := negb ((port <? 0) || (port >? 65535)).

Definition connect_failure : string :=
  "unable to connect to ProxySQL Admin Module.. " +++
  "Can't connect to MySQL server".

(** What a run of the user module amounts to, in terms of the tables. *)
Definition users_sem (it : list (string * pyval) -> list (string * pyval))
    (p : MysqlUsers.params) (w : world) : outcome * world :=
  let self := MysqlUsers.init p in
  let result : dict :=
    [("state", Val (PyStr (state_str (MysqlUsers.state self))))] in
  let result :=
    if truthy (PyStr (MysqlUsers.username self))
    then dict_set "username" (Val (PyStr (MysqlUsers.username self))) result
    else result in
  let key_rows := matching (user_key_binding self) (mysql_users (tables w)) in
  let fetched rows :=
    fetchone {| rowcount := count_of rows; resultset := rows |} in
  let pushed :=
    propagate (MysqlUsers.save_to_disk self) (MysqlUsers.load_to_runtime self)
      "SAVE MYSQL USERS TO DISK" "LOAD MYSQL USERS TO RUNTIME" in
  if negb (port_ok (MysqlUsers.login_port p)) then
    (Failed "login_port must be a valid unix port number (0-65535)", w)
  else if negb (mysqldb_found w) then
    (Failed "the python mysqldb module is required", w)
  else
    let w := record Connect w in
    if negb (admin_up w) then (Failed connect_failure, w)
    else
      match MysqlUsers.state self with
      | present =>
          let w := asked (MysqlUsers.check_user_privs_query it self) w in
          if user_full_count it self (tables w) >? 0 then
            (Exit_json
               (dict_set "user" (fetched key_rows)
                  (dict_set "msg"
                     (Val (PyStr ("The user already exists in mysql_users"
                                  +++ " and doesn't need to be updated.")))
                     (dict_set "changed" py_False result))),
             asked (MysqlUsers.get_user_config_query self) w)
          else
            let w := asked (MysqlUsers.check_user_config_exists_query self) w in
            if user_key_count self (tables w) >? 0 then
              if MysqlUsers.check_mode p then
                (Exit_json
                   (dict_set "msg"
                      (Val (PyStr ("User would have been updated in" +++
                                   " mysql_users, however check_mode" +++
                                   " is enabled.")))
                      (dict_set "changed" py_True result)), w)
              else
                let rows :=
                  map (fun r =>
                         if matches (user_key_binding self) r
                         then assign (attr_binding (user_attrs it self)) r
                         else r)
                    (mysql_users (tables w)) in
                let w :=
                  sent (MysqlUsers.update_user_config_query it self)
                    (table_put "mysql_users" rows (tables w)) w in
                let w := asked (MysqlUsers.get_user_config_query self) w in
                (Exit_json
                   (dict_set "user"
                      (fetched (matching (user_key_binding self) rows))
                      (dict_set "msg"
                         (Val (PyStr "Updated user in mysql_users"))
                         (dict_set "changed" py_True result))),
                 pushed w)
            else
              if MysqlUsers.check_mode p then
                (Exit_json
                   (dict_set "msg"
                      (Val (PyStr ("User would have been added to" +++
                                   " mysql_users, however check_mode" +++
                                   " is enabled.")))
                      (dict_set "changed" py_True result)), w)
              else
                let rows :=
                  mysql_users (tables w) ++ [user_stored it self (tables w)] in
                let w :=
                  sent (MysqlUsers.create_user_config_query it self)
                    (table_put "mysql_users" rows (tables w)) w in
                let w := asked (MysqlUsers.get_user_config_query self) w in
                (Exit_json
                   (dict_set "user"
                      (fetched (matching (user_key_binding self) rows))
                      (dict_set "msg"
                         (Val (PyStr "Added user to mysql_users"))
                         (dict_set "changed" py_True result))),
                 pushed w)
      | absent =>
          let w := asked (MysqlUsers.check_user_config_exists_query self) w in
          if user_key_count self (tables w) >? 0 then
            if MysqlUsers.check_mode p then
              (Exit_json
                 (dict_set "msg"
                    (Val (PyStr ("User would have been deleted from" +++
                                 " mysql_users, however check_mode is" +++
                                 " enabled.")))
                    (dict_set "changed" py_True result)), w)
            else
              let w := asked (MysqlUsers.get_user_config_query self) w in
              let rows :=
                filter (fun r => negb (matches (user_key_binding self) r))
                  (mysql_users (tables w)) in
              let w :=
                sent (MysqlUsers.delete_user_config_query self)
                  (table_put "mysql_users" rows (tables w)) w in
              (Exit_json
                 (dict_set "msg"
                    (Val (PyStr "Deleted user from mysql_users"))
                    (dict_set "changed" py_True
                       (dict_set "user" (fetched key_rows) result))),
               pushed w)
          else
            (Exit_json
               (dict_set "msg"
                  (Val (PyStr ("The user is already absent from the" +++
                               " mysql_users memory configuration")))
                  (dict_set "changed" py_False result)), w)
      end.

(** ** The predicates of the schedule family *)

Definition sched_keys : list string := ["active"; "interval_ms"; "filename"].

Definition sched_key_binding (self : Scheduler.ProxySQLSchedule) : binding :=
  combine sched_keys (map literal (Scheduler.key_data self)).

Definition sched_attrs (it : list (string * pyval) -> list (string * pyval))
    (self : Scheduler.ProxySQLSchedule) : list (string * pyval) :=
  it (Scheduler.config_data self).

Definition sched_full_binding
    (it : list (string * pyval) -> list (string * pyval))
    (self : Scheduler.ProxySQLSchedule) : binding :=
  sched_key_binding self ++ attr_binding (sched_attrs it self).

Definition sched_stored
    (it : list (string * pyval) -> list (string * pyval))
    (self : Scheduler.ProxySQLSchedule) (s : store) : row :=
  inserted (sched_full_binding it self)
    (column_defaults s "scheduler" (scheduler s)).

Definition sched_full_count
    (it : list (string * pyval) -> list (string * pyval))
    (self : Scheduler.ProxySQLSchedule) (s : store) : Z :=
  count_of (matching (sched_full_binding it self) (scheduler s)).

Definition cardinality_error : string :=
  "Operation would delete multiple records" +++
  " use force_delete to override this".

(** What a run of the scheduler module amounts to. *)
Definition sched_sem (it : list (string * pyval) -> list (string * pyval))
    (p : Scheduler.params) (w : world) : outcome * world :=
  let self := Scheduler.init p in
  let result : dict :=
    [("state", Val (PyStr (state_str (Scheduler.state self))));
     ("filename", Val (PyStr (Scheduler.filename self)))] in
  let full := sched_full_binding it self in
  let pushed :=
    propagate (Scheduler.save_to_disk self) (Scheduler.load_to_runtime self)
      "SAVE SCHEDULER TO DISK" "LOAD SCHEDULER TO RUNTIME" in
  if negb (port_ok (Scheduler.login_port p)) then
    (Failed "login_port must be a valid unix port number (0-65535)", w)
  else if (Scheduler.param_interval_ms p <? 100)
          || (Scheduler.param_interval_ms p >? 100000000) then
    (Failed "interval_ms must between 100ms & 100000000ms", w)
  else if negb (mysqldb_found w) then
    (Failed "the python mysqldb module is required", w)
  else
    let w := record Connect w in
    if negb (admin_up w) then (Failed connect_failure, w)
    else
      let n := sched_full_count it self (tables w) in
      let w := asked (Scheduler.check_schedule_config_query it self) w in
      match Scheduler.state self with
      | present =>
          if negb (n >? 0) then
            if Scheduler.check_mode p then
              (Exit_json
                 (dict_set "msg"
                    (Val (PyStr ("Schedule would have been added to" +++
                                 " scheduler, however check_mode" +++
                                 " is enabled.")))
                    (dict_set "changed" py_True result)), w)
            else
              let rows :=
                scheduler (tables w) ++ [sched_stored it self (tables w)] in
              let w :=
                sent (Scheduler.create_schedule_config_query it self)
                  (table_put "scheduler" rows (tables w)) w in
              let w := asked (Scheduler.get_schedule_config_query it self) w in
              (Exit_json
                 (dict_set "schedules" (Rows (matching full rows))
                    (dict_set "msg"
                       (Val (PyStr "Added schedule to scheduler"))
                       (dict_set "changed" py_True result))),
               pushed w)
          else
            (Exit_json
               (dict_set "schedules"
                  (Rows (matching full (scheduler (tables w))))
                  (dict_set "msg"
                     (Val (PyStr ("The schedule already exists and doesn't"
                                  +++ " need to be updated.")))
                     (dict_set "changed" py_False result))),
             asked (Scheduler.get_schedule_config_query it self) w)
      | absent =>
          if n >? 0 then
            if (n =? 1) || Scheduler.force_delete self then
              if Scheduler.check_mode p then
                (Exit_json
                   (dict_set "msg"
                      (Val (PyStr ("Schedule would have been deleted from"
                                   +++ " scheduler, however check_mode is"
                                   +++ " enabled.")))
                      (dict_set "changed" py_True result)), w)
              else
                let found := matching full (scheduler (tables w)) in
                let w :=
                  asked (Scheduler.get_schedule_config_query it self) w in
                let rows :=
                  filter (fun r => negb (matches full r))
                    (scheduler (tables w)) in
                let w :=
                  sent (Scheduler.delete_schedule_config_query it self)
                    (table_put "scheduler" rows (tables w)) w in
                (Exit_json
                   (dict_set "msg"
                      (Val (PyStr "Deleted schedule from scheduler"))
                      (dict_set "changed" (Tuple [PyBool true; PyInt n])
                         (dict_set "schedules" (Rows found) result))),
                 pushed w)
            else (Failed cardinality_error, w)
          else
            (Exit_json
               (dict_set "msg"
                  (Val (PyStr ("The schedule is already absent from the" +++
                               " memory configuration")))
                  (dict_set "changed" py_False result)), w)
      end.

(** ** The predicates of the global variable family *)

Definition gv_key_binding (variable : string) : binding :=
  [("variable_name", SqlText variable)].

Definition gv_full_binding (variable : string) (value : pyval) : binding :=
  [("variable_name", SqlText variable); ("variable_value", literal value)].

(** What [get_config] returns: the first row of the variable, or [False]. *)
Definition gv_found (variable : string) (s : store) : pyobj :=
  match matching (gv_key_binding variable) (global_variables s) with
  | r :: _ => Dict r
  | [] => py_False
  end.

Definition gv_save_cmd (variable : string) : string :=
  if String.prefix "admin" variable then "SAVE ADMIN VARIABLES TO DISK"
  else "SAVE MYSQL VARIABLES TO DISK".

Definition gv_load_cmd (variable : string) : string :=
  if String.prefix "admin" variable then "LOAD ADMIN VARIABLES TO RUNTIME"
  else "LOAD MYSQL VARIABLES TO RUNTIME".

(** What a run of the global variables module amounts to. *)
Definition gv_sem (p : GlobalVariables.params) (w : world) : outcome * world :=
  let variable := GlobalVariables.variable p in
  let value := GlobalVariables.value p in
  let pushed :=
    propagate (GlobalVariables.save_to_disk p)
      (GlobalVariables.load_to_runtime p)
      (gv_save_cmd variable) (gv_load_cmd variable) in
  if negb (port_ok (GlobalVariables.login_port p)) then
    (Failed "login_port must be a valid unix port number (0-65535)", w)
  else if negb (mysqldb_found w) then
    (Failed "the python mysqldb module is required", w)
  else
    let w := record Connect w in
    if negb (admin_up w) then (Failed connect_failure, w)
    else
      let found := gv_found variable (tables w) in
      let w := asked (GlobalVariables.get_config_query variable) w in
      if negb (truthy value) then
        if truth found then
          (Exit_json
             (dict_set "var" found
                (dict_set "msg"
                   (Val (PyStr "Returned the variable and it's current value"))
                   (dict_set "changed" py_False []))),
           asked (GlobalVariables.get_config_query variable) w)
        else (Failed (GlobalVariables.not_found variable), w)
      else
        if truth found then
          let same :=
            count_of (matching (gv_full_binding variable value)
                        (global_variables (tables w))) >? 0 in
          let w := asked (GlobalVariables.check_config_query variable value) w in
          if negb same then
            if negb (GlobalVariables.check_mode p) then
              let rows :=
                map (fun r =>
                       if matches (gv_key_binding variable) r
                       then assign [("variable_value", literal value)] r
                       else r)
                  (global_variables (tables w)) in
              let w :=
                sent (GlobalVariables.set_config_query variable value)
                  (table_put "global_variables" rows (tables w)) w in
              let var := gv_found variable (tables w) in
              let w := asked (GlobalVariables.get_config_query variable) w in
              (Exit_json
                 (dict_set "var" var
                    (dict_set "msg"
                       (Val (PyStr "Set the variable to the supplied value"))
                       (dict_set "changed" py_True []))),
               pushed w)
            else
              (Exit_json
                 (dict_set "msg"
                    (Val (PyStr ("Variable would have been set to" +++
                                 " the supplied value, however" +++
                                 " check_mode is enabled.")))
                    (dict_set "changed" py_True [])), w)
          else
            (Exit_json
               (dict_set "var" found
                  (dict_set "msg"
                     (Val (PyStr ("The variable is already been set to" +++
                                  " the supplied value")))
                     (dict_set "changed" py_False []))),
             asked (GlobalVariables.get_config_query variable) w)
        else (Failed (GlobalVariables.not_found variable), w).

(** ** Observing a run *)

Definition changed_of (o : outcome) : option pyobj :=
  match o with
  | Exit_json d => dict_get "changed" d
  | _ => None
  end.

Definition field_of (k : string) (o : outcome) : option pyobj :=
  match o with
  | Exit_json d => dict_get k d
  | _ => None
  end.

(** The four actions of the reconciliation engine. *)
Inductive action := noop | create | update | delete.

(** How the store reads what was sent. *)
Inductive kind :=
| Connected
| Read
| Written (a : action)
| Propagated
| Refused.

Definition kind_of (e : event) : kind :=
  match e with
  | Connect => Connected
  | Execute q _ =>
      match parse (tokens q) with
      | Some (SCount _ _ _) | Some (SSelect _ _) => Read
      | Some (SInsert _ _) => Written create
      | Some (SUpdate _ _ _) => Written update
      | Some (SDelete _ _) => Written delete
      | Some (SAdmin _ _ _ _) => Propagated
      | None => Refused
      end
  end.

Definition is_mutation (e : event) : bool :=
  match kind_of e with
  | Written _ => true
  | _ => false
  end.

Definition is_propagation (e : event) : bool :=
  match kind_of e with
  | Propagated => true
  | _ => false
  end.

(** Connection attempts and reads only. *)
Definition is_quiet (e : event) : bool :=
  negb (is_mutation e) && negb (is_propagation e).

(** The mutating actions among the events, in the order sent. *)
Fixpoint written (evs : list event) : list action :=
  match evs with
  | [] => []
  | e :: evs' =>
      match kind_of e with
      | Written a => a :: written evs'
      | _ => written evs'
      end
  end.

(** [evs] is what was sent between [w] and [w']. *)
Definition since (w w' : world) (evs : list event) : Prop :=
  journal w' = journal w ++ evs.

(** The propagation commands the two toggles ask for, in the order sent. *)
Definition propagation (save load : bool) (save_cmd load_cmd : string)
  : list event :=
  (if save then [Execute save_cmd []] else [])
  ++ (if load then [Execute load_cmd []] else []).

(** ** The layer legality rule *)

(** The message for an illegal use of the CONFIG layer. *)
Definition config_layer_message (a : ManageConfig.action_choice)
    (d : ManageConfig.direction_choice) : string :=
  match a, d with
  | ManageConfig.SAVE, ManageConfig.TO =>
      "Neither the action " +++ dq +++ "SAVE" +++ dq +++
      " nor the direction " +++ dq +++ "TO" +++ dq +++
      " are valid combination with the CONFIG config_layer"
  | ManageConfig.SAVE, ManageConfig.FROM =>
      "The action " +++ dq +++ "SAVE" +++ dq +++
      " is not a valid combination with the CONFIG config_layer"
  | ManageConfig.LOAD, ManageConfig.TO =>
      "The direction " +++ dq +++ "TO" +++ dq +++
      " is not a valid combination with the CONFIG config_layer"
  | ManageConfig.LOAD, ManageConfig.FROM => ""
  end.

Definition legal (a : ManageConfig.action_choice)
    (d : ManageConfig.direction_choice) (l : ManageConfig.layer_choice)
  : bool :=
  match l, a, d with
  | ManageConfig.CONFIG, ManageConfig.LOAD, ManageConfig.FROM => true
  | ManageConfig.CONFIG, _, _ => false
  | _, _, _ => true
  end.

(** The bulk transfer command: the four words joined by blanks. *)
Definition transfer_command (a : ManageConfig.action_choice)
    (s : ManageConfig.settings_choice) (d : ManageConfig.direction_choice)
    (l : ManageConfig.layer_choice) : string :=
  ManageConfig.action_str a +++ " " +++ ManageConfig.settings_str s +++ " "
  +++ ManageConfig.direction_str d +++ " " +++ ManageConfig.layer_str l.


(** ** Concrete stores and requests used in the examples *)

Definition old_script : string := "/opt/old_script.py".

(** A request of the scheduler module for [old_script], defaults
    elsewhere. *)
Definition schedule_request (state : state_choice) (comment : option string)
    (force_delete check_mode : bool) : Scheduler.params :=
  {| Scheduler.login_port := 6032;
     Scheduler.param_active := true;
     Scheduler.param_interval_ms := 10000;
     Scheduler.param_filename := old_script;
     Scheduler.arg1 := None; Scheduler.arg2 := None;
     Scheduler.arg3 := None; Scheduler.arg4 := None;
     Scheduler.arg5 := None; Scheduler.comment := comment;
     Scheduler.param_state := state;
     Scheduler.param_force_delete := force_delete;
     Scheduler.param_save_to_disk := true;
     Scheduler.param_load_to_runtime := true;
     Scheduler.check_mode := check_mode |}.

Definition schedule_row (comment : string) : row :=
  [("active", SqlInt 1); ("interval_ms", SqlInt 10000);
   ("filename", SqlText old_script); ("comment", SqlText comment)].

Definition schedules (rows : list row) : store :=
  {| global_variables := []; mysql_users := []; scheduler := rows;
     column_defaults := fun _ _ => [] |}.

(** A request of the user module for user [bob]. *)
Definition user_request (state : state_choice) (password : option string)
    (active : option bool) (check_mode : bool) : MysqlUsers.params :=
  {| MysqlUsers.login_port := 6032;
     MysqlUsers.param_username := "bob";
     MysqlUsers.password := password;
     MysqlUsers.active := active;
     MysqlUsers.use_ssl := None;
     MysqlUsers.default_hostgroup := None;
     MysqlUsers.default_schema := None;
     MysqlUsers.transaction_persistent := None;
     MysqlUsers.fast_forward := None;
     MysqlUsers.param_backend := true;
     MysqlUsers.param_frontend := true;
     MysqlUsers.max_connections := None;
     MysqlUsers.param_state := state;
     MysqlUsers.param_save_to_disk := true;
     MysqlUsers.param_load_to_runtime := true;
     MysqlUsers.check_mode := check_mode |}.

Definition user_row (password : string) : row :=
  [("username", SqlText "bob"); ("backend", SqlInt 1);
   ("frontend", SqlInt 1); ("password", SqlText password)].

Definition users (rows : list row) : store :=
  {| global_variables := []; mysql_users := rows; scheduler := [];
     column_defaults := fun _ _ => [] |}.

(** A request of the global variables module. *)
Definition variable_request (variable : string) (value : pyval)
    (check_mode : bool) : GlobalVariables.params :=
  {| GlobalVariables.login_port := 6032;
     GlobalVariables.variable := variable;
     GlobalVariables.value := value;
     GlobalVariables.save_to_disk := true;
     GlobalVariables.load_to_runtime := true;
     GlobalVariables.check_mode := check_mode |}.

Definition variable_row (variable value : string) : row :=
  [("variable_name", SqlText variable); ("variable_value", SqlText value)].

Definition variables (rows : list row) : store :=
  {| global_variables := rows; mysql_users := []; scheduler := [];
     column_defaults := fun _ _ => [] |}.

(** The two simplest arrangements of a dict. *)
Definition in_order (d : list (string * pyval)) : list (string * pyval) := d.
Definition reversed (d : list (string * pyval)) : list (string * pyval) :=
  rev d.

(** ** Readiness and reported actions *)

(** The checks pass and the admin interface takes the connection. *)
Definition users_ready (p : MysqlUsers.params) (w : world) : bool :=
  port_ok (MysqlUsers.login_port p) && mysqldb_found w && admin_up w.

Definition sched_ready (p : Scheduler.params) (w : world) : bool :=
  port_ok (Scheduler.login_port p)
  && negb ((Scheduler.param_interval_ms p <? 100)
           || (Scheduler.param_interval_ms p >? 100000000))
  && mysqldb_found w && admin_up w.

Definition gv_ready (p : GlobalVariables.params) (w : world) : bool :=
  port_ok (GlobalVariables.login_port p) && mysqldb_found w && admin_up w.

(** The action each message of the three record modules reports. *)
Definition messages : list (string * action) :=
  [("Added user to mysql_users", create);
   ("User would have been added to mysql_users, however check_mode is enabled.",
    create);
   ("Updated user in mysql_users", update);
   ("User would have been updated in mysql_users, however check_mode is enabled.",
    update);
   ("Deleted user from mysql_users", delete);
   ("User would have been deleted from mysql_users, however check_mode is enabled.",
    delete);
   ("The user already exists in mysql_users and doesn't need to be updated.",
    noop);
   ("The user is already absent from the mysql_users memory configuration",
    noop);
   ("Added schedule to scheduler", create);
   ("Schedule would have been added to scheduler, however check_mode is enabled.",
    create);
   ("Deleted schedule from scheduler", delete);
   ("Schedule would have been deleted from scheduler, however check_mode is enabled.",
    delete);
   ("The schedule already exists and doesn't need to be updated.", noop);
   ("The schedule is already absent from the memory configuration", noop);
   ("Set the variable to the supplied value", update);
   ("Variable would have been set to the supplied value, however check_mode is enabled.",
    update);
   ("The variable is already been set to the supplied value", noop);
   ("Returned the variable and it's current value", noop)].

Fixpoint message_action (m : string) (l : list (string * action))
  : option action :=
  match l with
  | [] => None
  | (m', a) :: l' => if String.eqb m m' then Some a else message_action m l'
  end.

Definition reported_action (o : outcome) : option action :=
  match field_of "msg" o with
  | Some (Val (PyStr m)) => message_action m messages
  | _ => None
  end.

(** The mutating statements a live run sends for an action. *)
Definition statements_for (check_mode : bool) (a : action) : list action :=
  if check_mode then []
  else match a with
       | noop => []
       | _ => [a]
       end.

(** The decision for "ensure present" in the words of the specification:
    create when no row has the key, noop when a row matches the whole
    descriptor, update otherwise. *)
Definition spec_present_action (key_exists matches_desired : bool) : action :=
  if negb key_exists then create
  else if matches_desired then noop
  else update.

(** A binding whose values are not NULL. *)
Definition defined (b : binding) : Prop :=
  Forall (fun cv => snd cv <> SqlNull) b.

(** The stores and requests of the examples. *)

Definition one_schedule : world := fresh (schedules [schedule_row ""]).
Definition old_schedule : world := fresh (schedules [schedule_row "old"]).
Definition two_schedules : world :=
  fresh (schedules [schedule_row "a"; schedule_row "b"]).

Definition remove_schedule (check_mode : bool) : Scheduler.params :=
  schedule_request absent None false check_mode.
Definition force_remove_schedules (check_mode : bool) : Scheduler.params :=
  schedule_request absent None true check_mode.
Definition add_new_schedule : Scheduler.params :=
  schedule_request present (Some "new") false false.

Definition bob_old : world := fresh (users [user_row "old"]).

Definition remove_bob : MysqlUsers.params :=
  user_request absent None None false.
Definition remove_bob_new : MysqlUsers.params :=
  user_request absent (Some "new") None false.
Definition set_bob_new : MysqlUsers.params :=
  user_request present (Some "new") None false.
Definition bob_with_password_and_flag : MysqlUsers.params :=
  user_request present (Some "pw") (Some true) false.

Definition max_connections : string := "mysql-max_connections".

Definition no_variables : world := fresh (variables []).
Definition max_connections_2000 : world :=
  fresh (variables [variable_row max_connections "2000"]).

Definition set_max_connections : GlobalVariables.params :=
  variable_request max_connections (PyStr "4096") false.
Definition get_max_connections : GlobalVariables.params :=
  variable_request max_connections PyNone false.

Definition save_users_to_disk : ManageConfig.params :=
  {| ManageConfig.login_port := 6032;
     ManageConfig.param_action := ManageConfig.SAVE;
     ManageConfig.param_config_settings := Some ManageConfig.MYSQL_USERS;
     ManageConfig.param_direction := ManageConfig.TO;
     ManageConfig.param_config_layer := Some ManageConfig.DISK |}.

Definition config_request (a : ManageConfig.action_choice)
    (d : ManageConfig.direction_choice) : ManageConfig.params :=
  {| ManageConfig.login_port := 6032;
     ManageConfig.param_action := a;
     ManageConfig.param_config_settings := Some ManageConfig.MYSQL_USERS;
     ManageConfig.param_direction := d;
     ManageConfig.param_config_layer := Some ManageConfig.CONFIG |}.

(** The body of the loop of [update_user_config]. *)
Definition update_body :=
  fun '(cols, query_string, query_data) '((col, val) : string * pyval) =>
    if is_not_None val then
      let cols := S cols in
      let query_data : list pyval := query_data ++ [val] in
      if Nat.eqb cols 1 then
        (cols, query_string +++ nl +++ "SET " +++ col +++ "= %s,",
         query_data)
      else
        (cols, query_string +++ nl +++ "    " +++ col +++ " = %s,",
         query_data)
    else (cols, query_string, query_data).


(** ** Further auxiliary definitions *)

(** The messages of the checks every module runs first. *)
Definition port_message : string :=
  "login_port must be a valid unix port number (0-65535)".

Definition driver_message : string := "the python mysqldb module is required".

Definition interval_message : string :=
  "interval_ms must between 100ms & 100000000ms".

(** The number of [%s] placeholders of a statement text. *)
Definition is_placeholder (t : string) : bool := String.eqb t "%s".

Definition placeholders (q : string) : nat :=
  length (filter is_placeholder (tokens q)).

(** A statement whose parameters fill its placeholders one for one. *)
Definition well_bound (q : string * list pyval) : Prop :=
  placeholders (fst q) = length (snd q).

(** The same request of the user module with another [state] and
    another check mode. *)
Definition users_request_with (state : state_choice) (check_mode : bool)
    (p : MysqlUsers.params) : MysqlUsers.params :=
  {| MysqlUsers.login_port := MysqlUsers.login_port p;
     MysqlUsers.param_username := MysqlUsers.param_username p;
     MysqlUsers.password := MysqlUsers.password p;
     MysqlUsers.active := MysqlUsers.active p;
     MysqlUsers.use_ssl := MysqlUsers.use_ssl p;
     MysqlUsers.default_hostgroup := MysqlUsers.default_hostgroup p;
     MysqlUsers.default_schema := MysqlUsers.default_schema p;
     MysqlUsers.transaction_persistent := MysqlUsers.transaction_persistent p;
     MysqlUsers.fast_forward := MysqlUsers.fast_forward p;
     MysqlUsers.param_backend := MysqlUsers.param_backend p;
     MysqlUsers.param_frontend := MysqlUsers.param_frontend p;
     MysqlUsers.max_connections := MysqlUsers.max_connections p;
     MysqlUsers.param_state := state;
     MysqlUsers.param_save_to_disk := MysqlUsers.param_save_to_disk p;
     MysqlUsers.param_load_to_runtime := MysqlUsers.param_load_to_runtime p;
     MysqlUsers.check_mode := check_mode |}.

(** The same request with other propagation toggles. *)
Definition users_request_pushing (save load : bool)
    (p : MysqlUsers.params) : MysqlUsers.params :=
  {| MysqlUsers.login_port := MysqlUsers.login_port p;
     MysqlUsers.param_username := MysqlUsers.param_username p;
     MysqlUsers.password := MysqlUsers.password p;
     MysqlUsers.active := MysqlUsers.active p;
     MysqlUsers.use_ssl := MysqlUsers.use_ssl p;
     MysqlUsers.default_hostgroup := MysqlUsers.default_hostgroup p;
     MysqlUsers.default_schema := MysqlUsers.default_schema p;
     MysqlUsers.transaction_persistent := MysqlUsers.transaction_persistent p;
     MysqlUsers.fast_forward := MysqlUsers.fast_forward p;
     MysqlUsers.param_backend := MysqlUsers.param_backend p;
     MysqlUsers.param_frontend := MysqlUsers.param_frontend p;
     MysqlUsers.max_connections := MysqlUsers.max_connections p;
     MysqlUsers.param_state := MysqlUsers.param_state p;
     MysqlUsers.param_save_to_disk := save;
     MysqlUsers.param_load_to_runtime := load;
     MysqlUsers.check_mode := MysqlUsers.check_mode p |}.

(** The same request of the scheduler module with another [state],
    another [force_delete] and another check mode. *)
Definition sched_request_with (state : state_choice)
    (force_delete check_mode : bool) (p : Scheduler.params)
  : Scheduler.params :=
  {| Scheduler.login_port := Scheduler.login_port p;
     Scheduler.param_active := Scheduler.param_active p;
     Scheduler.param_interval_ms := Scheduler.param_interval_ms p;
     Scheduler.param_filename := Scheduler.param_filename p;
     Scheduler.arg1 := Scheduler.arg1 p;
     Scheduler.arg2 := Scheduler.arg2 p;
     Scheduler.arg3 := Scheduler.arg3 p;
     Scheduler.arg4 := Scheduler.arg4 p;
     Scheduler.arg5 := Scheduler.arg5 p;
     Scheduler.comment := Scheduler.comment p;
     Scheduler.param_state := state;
     Scheduler.param_force_delete := force_delete;
     Scheduler.param_save_to_disk := Scheduler.param_save_to_disk p;
     Scheduler.param_load_to_runtime := Scheduler.param_load_to_runtime p;
     Scheduler.check_mode := check_mode |}.

Definition sched_request_pushing (save load : bool) (p : Scheduler.params)
  : Scheduler.params :=
  {| Scheduler.login_port := Scheduler.login_port p;
     Scheduler.param_active := Scheduler.param_active p;
     Scheduler.param_interval_ms := Scheduler.param_interval_ms p;
     Scheduler.param_filename := Scheduler.param_filename p;
     Scheduler.arg1 := Scheduler.arg1 p;
     Scheduler.arg2 := Scheduler.arg2 p;
     Scheduler.arg3 := Scheduler.arg3 p;
     Scheduler.arg4 := Scheduler.arg4 p;
     Scheduler.arg5 := Scheduler.arg5 p;
     Scheduler.comment := Scheduler.comment p;
     Scheduler.param_state := Scheduler.param_state p;
     Scheduler.param_force_delete := Scheduler.param_force_delete p;
     Scheduler.param_save_to_disk := save;
     Scheduler.param_load_to_runtime := load;
     Scheduler.check_mode := Scheduler.check_mode p |}.

(** The same request of the global variables module in another check
    mode, and with other propagation toggles. *)
Definition gv_request_with (check_mode : bool) (p : GlobalVariables.params)
  : GlobalVariables.params :=
  {| GlobalVariables.login_port := GlobalVariables.login_port p;
     GlobalVariables.variable := GlobalVariables.variable p;
     GlobalVariables.value := GlobalVariables.value p;
     GlobalVariables.save_to_disk := GlobalVariables.save_to_disk p;
     GlobalVariables.load_to_runtime := GlobalVariables.load_to_runtime p;
     GlobalVariables.check_mode := check_mode |}.

Definition gv_request_pushing (save load : bool)
    (p : GlobalVariables.params) : GlobalVariables.params :=
  {| GlobalVariables.login_port := GlobalVariables.login_port p;
     GlobalVariables.variable := GlobalVariables.variable p;
     GlobalVariables.value := GlobalVariables.value p;
     GlobalVariables.save_to_disk := save;
     GlobalVariables.load_to_runtime := load;
     GlobalVariables.check_mode := GlobalVariables.check_mode p |}.

(** What an update leaves of a row: the rows the key does not select are
    what they were; in the rows it selects, the assigned columns hold the
    new values and every other cell is what it was. *)
Definition rewritten (key attrs : binding) (r r' : row) : Prop :=
  (matches key r = false -> r' = r)
  /\ (matches key r = true ->
      (forall c v, In (c, v) attrs -> cell c r' = v)
      /\ (forall c, ~ In c (map fst attrs) -> cell c r' = cell c r)).

(** The [changed] entry read as a condition. *)
Definition changed_truth (o : outcome) : option bool :=
  option_map truth (changed_of o).

(** A world in which the driver could not be imported, and one in which
    the admin interface refuses the login. *)
Definition without_driver (s : store) : world :=
  {| mysqldb_found := false; admin_up := true; tables := s; journal := [] |}.

Definition admin_down (s : store) : world :=
  {| mysqldb_found := true; admin_up := false; tables := s; journal := [] |}.

(** Requests of the examples. *)
Definition bad_port_schedule : Scheduler.params :=
  {| Scheduler.login_port := 70000;
     Scheduler.param_active := true;
     Scheduler.param_interval_ms := 10000;
     Scheduler.param_filename := old_script;
     Scheduler.arg1 := None; Scheduler.arg2 := None;
     Scheduler.arg3 := None; Scheduler.arg4 := None;
     Scheduler.arg5 := None; Scheduler.comment := None;
     Scheduler.param_state := present;
     Scheduler.param_force_delete := false;
     Scheduler.param_save_to_disk := true;
     Scheduler.param_load_to_runtime := true;
     Scheduler.check_mode := false |}.

Definition schedule_every (interval_ms : Z) : Scheduler.params :=
  {| Scheduler.login_port := 6032;
     Scheduler.param_active := true;
     Scheduler.param_interval_ms := interval_ms;
     Scheduler.param_filename := old_script;
     Scheduler.arg1 := None; Scheduler.arg2 := None;
     Scheduler.arg3 := None; Scheduler.arg4 := None;
     Scheduler.arg5 := None; Scheduler.comment := None;
     Scheduler.param_state := present;
     Scheduler.param_force_delete := false;
     Scheduler.param_save_to_disk := true;
     Scheduler.param_load_to_runtime := true;
     Scheduler.check_mode := false |}.

Definition transfer_without_layer : ManageConfig.params :=
  {| ManageConfig.login_port := 6032;
     ManageConfig.param_action := ManageConfig.SAVE;
     ManageConfig.param_config_settings := Some ManageConfig.MYSQL_USERS;
     ManageConfig.param_direction := ManageConfig.TO;
     ManageConfig.param_config_layer := None |}.

(** A store that fills a new user in with the values the RETURN sample
    of the user module shows for the columns the request leaves out. *)
Definition sample_defaults (t : string) (rows : list row) : row :=
  if String.eqb t "mysql_users" then
    [("active", SqlInt 1); ("use_ssl", SqlInt 0);
     ("schema_locked", SqlInt 0); ("transaction_persistent", SqlInt 0);
     ("fast_forward", SqlInt 0); ("max_connections", SqlInt 10000)]
  else [].

Definition sample_store : world :=
  fresh {| global_variables := []; mysql_users := []; scheduler := [];
           column_defaults := sample_defaults |}.

(** What [fetchone] makes of the rows selected. *)
Definition first_of (rs : list row) : pyobj :=
  match rs with
  | r :: _ => Dict r
  | [] => Val PyNone
  end.
(** * Properties *)

(** ** Strings and tokens *)

Lemma append_assoc (s t u : string) : (s +++ t) +++ u = s +++ t +++ u.
Proof. induction s; simpl; congruence. Qed.

Lemma append_nil_r (s : string) : s +++ "" = s.
Proof. induction s; simpl; congruence. Qed.

Lemma length_append (s t : string) :
  String.length (s +++ t) = (String.length s + String.length t)%nat.
Proof. induction s; simpl; congruence. Qed.

Lemma substring_prefix (s t : string) :
  String.substring 0 (String.length s) (s +++ t) = s.
Proof.
  induction s; simpl.
  - destruct t; reflexivity.
  - now rewrite IHs.
Qed.

Lemma drop_last_app (s t : string) : drop_last (String.length t) (s +++ t) = s.
Proof.
  unfold drop_last. rewrite length_append.
  replace (String.length s + String.length t - String.length t)%nat
    with (String.length s) by lia.
  apply substring_prefix.
Qed.

Lemma tokens_from_word (c cur rest : string) :
  word_chars c = true ->
  tokens_from cur (c +++ rest) = tokens_from (cur +++ c) rest.
Proof.
  revert cur. induction c as [|a c IH]; intros cur H; simpl in *.
  - now rewrite append_nil_r.
  - apply andb_prop in H as [H Hc]. apply andb_prop in H as [Hs Hp].
    apply negb_true_iff in Hs, Hp. rewrite Hs, Hp.
    rewrite IH by assumption. now rewrite append_assoc.
Qed.

Lemma flush_word (c : string) : is_word c = true -> flush c = [c].
Proof. destruct c; [discriminate | reflexivity]. Qed.

Lemma is_word_chars (c : string) : is_word c = true -> word_chars c = true.
Proof. unfold is_word. intros H. now apply andb_prop in H. Qed.

Lemma column_word (c : string) : is_column c = true -> is_word c = true.
Proof. unfold is_column. intros H. now apply andb_prop in H. Qed.

Lemma column_name (c : string) : is_column c = true -> is_name c = true.
Proof. unfold is_column. intros H. now apply andb_prop in H. Qed.

(** Reading a column name that starts a token. *)
Lemma tokens_from_column (c cur rest : string) :
  is_column c = true ->
  tokens_from "" (c +++ rest) = tokens_from c rest.
Proof.
  intros H. apply column_word, is_word_chars in H.
  now rewrite tokens_from_word.
Qed.

Lemma flush_column (c : string) : is_column c = true -> flush c = [c].
Proof. intros H. now apply flush_word, column_word. Qed.

Lemma tokens_conj (cols : list string) :
  columns cols ->
  tokens_from "%s" (pieces conj_piece cols) = "%s" :: conj_tokens cols.
Proof.
  induction 1 as [|c cols Hc _ IH]; [reflexivity|].
  cbn [pieces conj_tokens flat_map app]. fold (conj_tokens cols).
  rewrite <- IH. set (rest := pieces conj_piece cols).
  unfold conj_piece, nl. rewrite !append_assoc. cbn.
  rewrite tokens_from_column by assumption.
  cbn. now rewrite flush_column.
Qed.

Lemma tokens_names (cols : list string) (cur rest : string) :
  is_column cur = true ->
  columns cols ->
  tokens_from cur (pieces name_piece cols +++ String ")" rest)
  = cur :: name_tokens cols ++ ")" :: tokens_from "" rest.
Proof.
  intros Hcur H. revert cur Hcur.
  induction H as [|c cols Hc _ IH]; intros cur Hcur.
  - cbn. now rewrite flush_column.
  - cbn [pieces name_tokens flat_map app]. fold (name_tokens cols).
    rewrite <- IH by assumption. set (tail := pieces name_piece cols).
    unfold name_piece, nl. rewrite !append_assoc. cbn.
    rewrite flush_column by assumption. cbn.
    now rewrite tokens_from_column.
Qed.

Lemma tokens_placeholders_users (n : nat) :
  tokens_from "" (str_repeat "%s ," n +++ "%s" +++ ")") = ph_tokens n.
Proof.
  induction n as [|n IH]; [reflexivity|].
  cbn [str_repeat ph_tokens]. rewrite <- IH.
  rewrite append_assoc.
  set (tail := str_repeat "%s ," n +++ "%s" +++ ")"). reflexivity.
Qed.

Lemma tokens_placeholders_scheduler (n : nat) :
  tokens_from "%s" (str_repeat ", %s" n +++ ")") = ph_tokens n.
Proof.
  induction n as [|n IH]; [reflexivity|].
  cbn [str_repeat ph_tokens]. rewrite <- IH.
  rewrite append_assoc.
  set (tail := str_repeat ", %s" n +++ ")"). reflexivity.
Qed.

Lemma tokens_sets (cols : list string) (rest : string) :
  columns cols ->
  tokens_from "%s" (pieces set_piece cols +++ String "010" rest)
  = "%s" :: set_tokens cols ++ tokens_from "" rest.
Proof.
  induction 1 as [|c cols Hc _ IH]; [reflexivity|].
  cbn [pieces set_tokens flat_map app]. fold (set_tokens cols).
  rewrite <- IH. set (tail := pieces set_piece cols +++ String "010" rest).
  unfold set_piece. rewrite !append_assoc. fold tail.
  unfold nl at 1. cbn.
  rewrite tokens_from_column by assumption.
  cbn. now rewrite flush_column.
Qed.

(** ** Parsing the token lists *)

Lemma columns_names (cols : list string) :
  columns cols -> Forall (fun c => is_name c = true) cols.
Proof. apply Forall_impl. intros c. apply column_name. Qed.

Lemma parse_conds_step (k : string) (rest : list string) :
  is_name k = true ->
  parse_conds (k :: "=" :: "%s" :: "AND" :: rest)
  = option_map (cons k) (parse_conds rest).
Proof. intros Hk. simpl. now rewrite Hk. Qed.

Lemma parse_conds_conj (k : string) (cols : list string) :
  is_name k = true ->
  columns cols ->
  parse_conds (k :: "=" :: "%s" :: conj_tokens cols) = Some (k :: cols).
Proof.
  intros Hk H. revert k Hk.
  induction H as [|c cols Hc _ IH]; intros k Hk.
  - cbn. now rewrite Hk.
  - cbn [conj_tokens flat_map app]. fold (conj_tokens cols).
    rewrite parse_conds_step by assumption.
    now rewrite IH by now apply column_name.
Qed.

Lemma parse_names_step (k : string) (rest : list string) :
  is_name k = true ->
  parse_names (k :: "," :: rest)
  = match parse_names rest with
    | Some (cs, rest') => Some (k :: cs, rest')
    | None => None
    end.
Proof. intros Hk. simpl. now rewrite Hk. Qed.

Lemma parse_names_tokens (k : string) (cols rest : list string) :
  is_name k = true ->
  columns cols ->
  parse_names (k :: name_tokens cols ++ ")" :: rest) = Some (k :: cols, rest).
Proof.
  intros Hk H. revert k Hk.
  induction H as [|c cols Hc _ IH]; intros k Hk.
  - cbn. now rewrite Hk.
  - cbn [name_tokens flat_map app]. fold (name_tokens cols).
    rewrite parse_names_step by assumption.
    now rewrite IH by now apply column_name.
Qed.

Lemma parse_placeholders_step (rest : list string) :
  parse_placeholders ("%s" :: "," :: rest)
  = option_map S (parse_placeholders rest).
Proof. reflexivity. Qed.

Lemma parse_placeholders_tokens (n : nat) :
  parse_placeholders (ph_tokens n) = Some (S n).
Proof.
  induction n as [|n IH]; [reflexivity|].
  cbn [ph_tokens]. rewrite parse_placeholders_step. now rewrite IH.
Qed.

Lemma parse_sets_step (c : string) (rest : list string) :
  is_name c = true ->
  parse_sets (c :: "=" :: "%s" :: "," :: rest)
  = match parse_sets rest with
    | Some (sets, conds) => Some (c :: sets, conds)
    | None => None
    end.
Proof. intros Hc. simpl. now rewrite Hc. Qed.

Lemma parse_sets_last (c : string) (rest : list string) :
  is_name c = true ->
  parse_sets (c :: "=" :: "%s" :: "WHERE" :: rest)
  = match parse_conds rest with
    | Some conds => Some ([c], conds)
    | None => None
    end.
Proof. intros Hc. simpl. now rewrite Hc. Qed.

Lemma parse_sets_tokens (c k : string) (cols ks : list string) :
  is_name c = true ->
  columns cols ->
  is_name k = true ->
  columns ks ->
  parse_sets
    (c :: "=" :: "%s" ::
     set_tokens cols ++ "WHERE" :: k :: "=" :: "%s" :: conj_tokens ks)
  = Some (c :: cols, k :: ks).
Proof.
  intros Hc H Hk Hks. revert c Hc.
  induction H as [|c' cols Hc' _ IH]; intros c Hc.
  - cbn [set_tokens flat_map app]. rewrite parse_sets_last by assumption.
    now rewrite parse_conds_conj.
  - cbn [set_tokens flat_map app]. fold (set_tokens cols).
    rewrite parse_sets_step by assumption.
    now rewrite IH by now apply column_name.
Qed.

Lemma columns_cons (c : string) (cols : list string) :
  is_column c = true -> columns cols -> columns (c :: cols).
Proof. intros; now constructor. Qed.

Section WholeStatements.

Local Opaque parse_conds parse_names parse_sets parse_placeholders is_name.

Variables (t k : string) (ks : list string).
Hypothesis Ht : is_name t = true.
Hypothesis Hk : is_name k = true.
Hypothesis Hks : columns ks.

Lemma parse_count_tokens (alias : string) :
  parse ("SELECT" :: "count" :: "(" :: "*" :: ")" :: "AS" :: alias ::
         "FROM" :: t :: "WHERE" :: k :: "=" :: "%s" :: conj_tokens ks)
  = Some (SCount (unquote alias) t (k :: ks)).
Proof.
  cbn. rewrite Ht. cbn. now rewrite parse_conds_conj.
Qed.

Lemma parse_select_tokens :
  parse ("SELECT" :: "*" :: "FROM" :: t ::
         "WHERE" :: k :: "=" :: "%s" :: conj_tokens ks)
  = Some (SSelect t (k :: ks)).
Proof.
  cbn. rewrite Ht. cbn. now rewrite parse_conds_conj.
Qed.

Lemma parse_delete_tokens :
  parse ("DELETE" :: "FROM" :: t ::
         "WHERE" :: k :: "=" :: "%s" :: conj_tokens ks)
  = Some (SDelete t (k :: ks)).
Proof.
  cbn. rewrite Ht. cbn. now rewrite parse_conds_conj.
Qed.

Lemma parse_insert_tokens (n : nat) :
  n = length ks ->
  parse ("INSERT" :: "INTO" :: t :: "(" :: k ::
         name_tokens ks ++ ")" :: "VALUES" :: "(" :: ph_tokens n)
  = Some (SInsert t (k :: ks)).
Proof.
  intros ->. cbn. rewrite Ht. cbn.
  rewrite parse_names_tokens by assumption. cbn.
  rewrite parse_placeholders_tokens. cbn.
  now rewrite Nat.eqb_refl.
Qed.

Lemma parse_update_tokens (c : string) (cols : list string) :
  is_name c = true ->
  columns cols ->
  parse ("UPDATE" :: t :: "SET" :: c :: "=" :: "%s" ::
         set_tokens cols ++
         "WHERE" :: k :: "=" :: "%s" :: conj_tokens ks)
  = Some (SUpdate t (c :: cols) (k :: ks)).
Proof.
  intros Hc Hcols. cbn. unfold parse_update, name. rewrite Ht. cbn.
  now rewrite parse_sets_tokens.
Qed.

End WholeStatements.

(** ** The loops over the attribute dict *)

Lemma fold_pieces (piece : string -> string)
    (items : list (string * pyval)) (q : string) (d : list pyval) :
  fold_left
    (fun '(q, d) '(col, val) =>
       if is_not_None val then (q +++ piece col, d ++ [val]) else (q, d))
    items (q, d)
  = (q +++ pieces piece (present_cols items), d ++ present_vals items).
Proof.
  revert q d. induction items as [|[col val] items IH]; intros q d.
  - cbn. now rewrite append_nil_r, app_nil_r.
  - cbn [fold_left]. unfold present_cols, present_vals, present_items.
    cbn [filter snd]. destruct (is_not_None val).
    + rewrite IH. cbn [map fst snd pieces].
      now rewrite append_assoc, <- app_assoc.
    + now rewrite IH.
Qed.

Lemma fold_counted (piece : string -> string)
    (items : list (string * pyval)) (n : nat) (q : string)
    (d : list pyval) :
  fold_left
    (fun '(n, q, d) '(col, val) =>
       if is_not_None val then (S n, q +++ piece col, d ++ [val])
       else (n, q, d))
    items (n, q, d)
  = ((n + length (present_cols items))%nat,
     q +++ pieces piece (present_cols items), d ++ present_vals items).
Proof.
  revert n q d. induction items as [|[col val] items IH]; intros n q d.
  - cbn. now rewrite append_nil_r, app_nil_r, Nat.add_0_r.
  - cbn [fold_left]. unfold present_cols, present_vals, present_items.
    cbn [filter snd]. destruct (is_not_None val).
    + rewrite IH. cbn [map fst snd pieces length].
      rewrite append_assoc, <- app_assoc. f_equal. f_equal.
      unfold present_cols, present_items. lia.
    + now rewrite IH.
Qed.

(** ** Running statements *)

Lemma execute_ok (q : string) (d : list pyval) (st : stmt) (cur : cursor)
    (s' : store) (w : world) :
  parse (tokens q) = Some st ->
  run_stmt st (map literal d) (tables w) = Some (cur, s') ->
  execute q d w = (Ok cur, sent (q, d) s' w).
Proof.
  intros Hp Hr. unfold execute. rewrite Hp.
  change (tables (record (Execute q d) w)) with (tables w).
  now rewrite Hr.
Qed.

Lemma bind_args_ok (cols : list string) (args : list sqlval) :
  length cols = length args ->
  bind_args cols args = Some (combine cols args).
Proof. intros H. unfold bind_args. now rewrite H, Nat.eqb_refl. Qed.

Lemma execute_count (q : string) (d : list pyval) (alias t : string)
    (conds : list string) (rows : list row) (w : world) :
  parse (tokens q) = Some (SCount alias t conds) ->
  table_get t (tables w) = Some rows ->
  length conds = length d ->
  execute q d w
  = (Ok {| rowcount := 1;
           resultset :=
             [[(alias,
                SqlInt (count_of
                          (matching (combine conds (map literal d)) rows)))]]
        |},
     sent (q, d) (tables w) w).
Proof.
  intros Hp Ht Hl. apply execute_ok with (1 := Hp).
  cbn [run_stmt]. rewrite Ht. cbn [obind].
  rewrite bind_args_ok by now rewrite length_map. reflexivity.
Qed.

Lemma execute_select (q : string) (d : list pyval) (t : string)
    (conds : list string) (rows : list row) (w : world) :
  parse (tokens q) = Some (SSelect t conds) ->
  table_get t (tables w) = Some rows ->
  length conds = length d ->
  execute q d w
  = (Ok {| rowcount :=
             count_of (matching (combine conds (map literal d)) rows);
           resultset := matching (combine conds (map literal d)) rows |},
     sent (q, d) (tables w) w).
Proof.
  intros Hp Ht Hl. apply execute_ok with (1 := Hp).
  cbn [run_stmt]. rewrite Ht. cbn [obind].
  rewrite bind_args_ok by now rewrite length_map. reflexivity.
Qed.

Lemma execute_insert (q : string) (d : list pyval) (t : string)
    (cols : list string) (rows : list row) (w : world) :
  parse (tokens q) = Some (SInsert t cols) ->
  table_get t (tables w) = Some rows ->
  length cols = length d ->
  execute q d w
  = (Ok {| rowcount := 1; resultset := [] |},
     sent (q, d)
       (table_put t
          (rows ++ [inserted (combine cols (map literal d))
                      (column_defaults (tables w) t rows)])
          (tables w)) w).
Proof.
  intros Hp Ht Hl. apply execute_ok with (1 := Hp).
  cbn [run_stmt]. rewrite Ht. cbn [obind].
  rewrite bind_args_ok by now rewrite length_map. reflexivity.
Qed.

Lemma execute_delete (q : string) (d : list pyval) (t : string)
    (conds : list string) (rows : list row) (w : world) :
  parse (tokens q) = Some (SDelete t conds) ->
  table_get t (tables w) = Some rows ->
  length conds = length d ->
  execute q d w
  = (Ok {| rowcount :=
             count_of (matching (combine conds (map literal d)) rows);
           resultset := [] |},
     sent (q, d)
       (table_put t
          (filter
             (fun r => negb (matches (combine conds (map literal d)) r))
             rows)
          (tables w)) w).
Proof.
  intros Hp Ht Hl. apply execute_ok with (1 := Hp).
  cbn [run_stmt]. rewrite Ht. cbn [obind].
  rewrite bind_args_ok by now rewrite length_map. reflexivity.
Qed.

Lemma combine_app_eq {A B} (l1 l2 : list A) (m1 m2 : list B) :
  length l1 = length m1 ->
  combine (l1 ++ l2) (m1 ++ m2) = combine l1 m1 ++ combine l2 m2.
Proof.
  revert m1. induction l1 as [|a l1 IH]; intros [|b m1] H;
    try discriminate; cbn in *; [reflexivity|].
  f_equal. apply IH. lia.
Qed.

Lemma firstn_combine_app {A B} (l1 l2 : list A) (m1 m2 : list B) :
  length l1 = length m1 ->
  firstn (length l1) (combine (l1 ++ l2) (m1 ++ m2)) = combine l1 m1.
Proof.
  intros H. rewrite combine_app_eq by assumption.
  rewrite firstn_app.
  rewrite firstn_all2 by (rewrite length_combine; lia).
  replace (length l1 - length (combine l1 m1))%nat with 0%nat
    by (rewrite length_combine; lia).
  cbn. apply app_nil_r.
Qed.

Lemma skipn_combine_app {A B} (l1 l2 : list A) (m1 m2 : list B) :
  length l1 = length m1 ->
  skipn (length l1) (combine (l1 ++ l2) (m1 ++ m2)) = combine l2 m2.
Proof.
  intros H. rewrite combine_app_eq by assumption.
  rewrite skipn_app.
  rewrite skipn_all2 by (rewrite length_combine; lia).
  replace (length l1 - length (combine l1 m1))%nat with 0%nat
    by (rewrite length_combine; lia).
  reflexivity.
Qed.

Lemma execute_update (q : string) (d1 d2 : list pyval) (t : string)
    (sets conds : list string) (rows : list row) (w : world) :
  parse (tokens q) = Some (SUpdate t sets conds) ->
  table_get t (tables w) = Some rows ->
  length sets = length d1 ->
  length conds = length d2 ->
  execute q (d1 ++ d2) w
  = (Ok {| rowcount :=
             count_of (matching (combine conds (map literal d2)) rows);
           resultset := [] |},
     sent (q, d1 ++ d2)
       (table_put t
          (map (fun r =>
                  if matches (combine conds (map literal d2)) r
                  then assign (combine sets (map literal d1)) r else r)
             rows)
          (tables w)) w).
Proof.
  intros Hp Ht H1 H2. apply execute_ok with (1 := Hp).
  cbn [run_stmt]. rewrite Ht. cbn [obind].
  rewrite bind_args_ok
    by (rewrite length_map, !length_app; congruence).
  cbn [obind]. rewrite map_app.
  rewrite firstn_combine_app, skipn_combine_app
    by now rewrite length_map.
  reflexivity.
Qed.

Lemma execute_admin (q verb direction layer : string)
    (family : list string) (w : world) :
  parse (tokens q) = Some (SAdmin verb family direction layer) ->
  execute q [] w
  = (Ok {| rowcount := 0; resultset := [] |}, sent (q, []) (tables w) w).
Proof. intros Hp. now apply execute_ok with (1 := Hp). Qed.

(** ** The row an insert stores *)

Lemma named_in (c : string) (b : binding) :
  named c b = true <-> In c (map fst b).
Proof.
  unfold named. rewrite existsb_exists, in_map_iff. split.
  - intros (cv & Hin & He). apply String.eqb_eq in He. now exists cv.
  - intros (cv & He & Hin). exists cv. split; [assumption|].
    now apply String.eqb_eq.
Qed.

Lemma cell_absent (c : string) (b : binding) :
  ~ In c (map fst b) -> cell c b = SqlNull.
Proof.
  induction b as [|[c' v] b IH]; cbn; [reflexivity|]. intros H.
  destruct (String.eqb c c') eqn:E.
  - apply String.eqb_eq in E. subst c'. exfalso. apply H. now left.
  - apply IH. intros Hin. apply H. now right.
Qed.

Lemma cell_app_l (c : string) (a b : binding) :
  In c (map fst a) -> cell c (a ++ b) = cell c a.
Proof.
  induction a as [|[c' v] a IH]; cbn; [intros []|]. intros H.
  destruct (String.eqb c c') eqn:E; [reflexivity|].
  apply IH. destruct H as [H|H]; [|exact H].
  subst c'. now rewrite String.eqb_refl in E.
Qed.

Lemma cell_app_r (c : string) (a b : binding) :
  ~ In c (map fst a) -> cell c (a ++ b) = cell c b.
Proof.
  induction a as [|[c' v] a IH]; cbn; [reflexivity|]. intros H.
  destruct (String.eqb c c') eqn:E.
  - apply String.eqb_eq in E. subst c'. exfalso. apply H. now left.
  - apply IH. intros Hin. apply H. now right.
Qed.

Lemma cell_filter_unnamed (c : string) (b d : row) :
  ~ In c (map fst b) ->
  cell c (filter (fun cv => negb (named (fst cv) b)) d) = cell c d.
Proof.
  intros Hn. induction d as [|[c' v] d IH]; cbn [filter fst cell];
    [reflexivity|].
  destruct (named c' b) eqn:Hb; cbn [negb cell].
  - destruct (String.eqb_spec c c') as [->|_]; [|exact IH].
    apply named_in in Hb. tauto.
  - now rewrite IH.
Qed.

Lemma cell_inserted_named (c : string) (b d : row) :
  In c (map fst b) -> cell c (inserted b d) = cell c b.
Proof. apply cell_app_l. Qed.

Lemma cell_inserted_unnamed (c : string) (b d : row) :
  ~ In c (map fst b) -> cell c (inserted b d) = cell c d.
Proof.
  intros Hn. unfold inserted. rewrite cell_app_r by assumption.
  now apply cell_filter_unnamed.
Qed.

Lemma matches_stored (conds b d : row) :
  incl (map fst conds) (map fst b) ->
  matches conds (inserted b d) = matches conds b.
Proof.
  unfold matches. intros Hi.
  induction conds as [|cv conds IH]; cbn [forallb]; [reflexivity|].
  rewrite cell_inserted_named by (apply Hi; now left).
  rewrite IH; [reflexivity|].
  intros c Hc. apply Hi. now right.
Qed.

Lemma cell_defined (c : string) (b : binding) :
  defined b -> In c (map fst b) -> cell c b <> SqlNull.
Proof.
  unfold defined. induction b as [|[c' v] b IH]; cbn [map fst In cell];
    [tauto|].
  intros Hd Hin. inversion Hd as [|? ? Hv Hd']; subst. cbn [snd] in Hv.
  destruct (String.eqb_spec c c') as [->|Hne]; [exact Hv|].
  apply IH; [assumption|]. destruct Hin as [->|Hin]; [tauto|assumption].
Qed.

(** The cells of a stored row: what the statement binds where it binds
    something, the store's default elsewhere. *)
Lemma stored_cells (b d : row) (c : string) :
  defined b ->
  (cell c b <> SqlNull -> cell c (inserted b d) = cell c b)
  /\ (cell c b = SqlNull -> cell c (inserted b d) = cell c d).
Proof.
  intros Hd. destruct (in_dec string_dec c (map fst b)) as [Hin|Hn].
  - split; intros H.
    + now apply cell_inserted_named.
    + now apply cell_defined in Hin.
  - split; intros H.
    + now rewrite cell_absent in H.
    + now apply cell_inserted_unnamed.
Qed.

(** ** The statements of the user module *)

Lemma str_repeat_snoc (s : string) (n : nat) :
  str_repeat s (S n) = str_repeat s n +++ s.
Proof.
  induction n as [|n IH]; cbn [str_repeat] in *.
  - now rewrite append_nil_r.
  - now rewrite IH at 1; rewrite append_assoc.
Qed.

Lemma attr_binding_length (items : list (string * pyval)) :
  length (present_cols items) = length (present_vals items).
Proof. unfold present_cols, present_vals. now rewrite !length_map. Qed.

Section UserStatements.

Import MysqlUsers.

Variable it : list (string * pyval) -> list (string * pyval).
Variable self : ProxySQLUser.
Hypothesis Hcols : columns (present_cols (user_attrs it self)).

Lemma user_binding_eq :
  combine (user_keys ++ present_cols (user_attrs it self))
    (map literal (key_data self ++ present_vals (user_attrs it self)))
  = user_full_binding it self.
Proof.
  rewrite map_app. now rewrite combine_app_eq by reflexivity.
Qed.

Lemma check_user_privs_query_eq :
  check_user_privs_query it self
  = (fst (check_user_config_exists_query self)
     +++ pieces conj_piece (present_cols (user_attrs it self)),
     key_data self ++ present_vals (user_attrs it self)).
Proof. apply (fold_pieces conj_piece). Qed.

Lemma check_user_privs_parse :
  parse (tokens (fst (check_user_privs_query it self)))
  = Some (SCount "user_count" "mysql_users"
            (user_keys ++ present_cols (user_attrs it self))).
Proof.
  rewrite check_user_privs_query_eq. cbn [fst].
  set (cols := present_cols (user_attrs it self)) in *.
  unfold tokens. cbn -[parse]. rewrite tokens_conj by assumption.
  apply (parse_count_tokens "mysql_users" "username"
           ("backend" :: "frontend" :: cols));
    try reflexivity.
  repeat (apply columns_cons; [reflexivity|]). assumption.
Qed.

Lemma check_user_privs_spec (w : world) :
  check_user_privs it self w
  = (Ok (user_full_count it self (tables w) >? 0),
     sent (check_user_privs_query it self) (tables w) w).
Proof.
  unfold check_user_privs. pose proof check_user_privs_parse as Hp.
  pose proof check_user_privs_query_eq as Hq.
  destruct (check_user_privs_query it self) as [q d].
  injection Hq as _ Hd. cbn [fst] in Hp. subst d. unfold bind.
  rewrite (execute_count q _ _ _ _ (mysql_users (tables w)) w Hp);
    [|reflexivity|].
  - unfold user_full_count. rewrite <- user_binding_eq. reflexivity.
  - rewrite !length_app, attr_binding_length. reflexivity.
Qed.

Lemma check_user_config_exists_spec (w : world) :
  check_user_config_exists self w
  = (Ok (user_key_count self (tables w) >? 0),
     sent (check_user_config_exists_query self) (tables w) w).
Proof.
  unfold check_user_config_exists, bind.
  cbv beta iota zeta delta [check_user_config_exists_query].
  rewrite (execute_count _ _ "user_count" "mysql_users" user_keys
             (mysql_users (tables w)) w); reflexivity.
Qed.

Lemma get_user_config_spec (w : world) :
  get_user_config self w
  = (Ok (fetchone
           {| rowcount := user_key_count self (tables w);
              resultset :=
                matching (user_key_binding self) (mysql_users (tables w))
           |}),
     sent (get_user_config_query self) (tables w) w).
Proof.
  unfold get_user_config, bind.
  cbv beta iota zeta delta [get_user_config_query].
  rewrite (execute_select _ _ "mysql_users" user_keys
             (mysql_users (tables w)) w); reflexivity.
Qed.

Lemma delete_user_config_spec (w : world) :
  delete_user_config self w
  = (Ok py_True,
     sent (delete_user_config_query self)
       (table_put "mysql_users"
          (filter (fun r => negb (matches (user_key_binding self) r))
             (mysql_users (tables w)))
          (tables w)) w).
Proof.
  unfold delete_user_config, bind.
  cbv beta iota zeta delta [delete_user_config_query].
  rewrite (execute_delete _ _ "mysql_users" user_keys
             (mysql_users (tables w)) w); reflexivity.
Qed.

Lemma insert_text (hd : string) (m : nat) :
  drop_last 2
    (hd +++ (")" +++ nl +++ "VALUES (" +++ str_repeat "%s ," (S m)))
  +++ ")"
  = hd +++ ")" +++ nl +++ "VALUES (" +++ str_repeat "%s ," m
    +++ "%s" +++ ")".
Proof.
  rewrite str_repeat_snoc.
  change "%s ," with ("%s" +++ " ,").
  rewrite <- !append_assoc.
  change 2%nat with (String.length " ,").
  rewrite drop_last_app. reflexivity.
Qed.

Lemma create_user_config_query_eq :
  create_user_config_query it self
  = ("INSERT INTO mysql_users (" +++ nl +++
     "               username," +++ nl +++
     "               backend," +++ nl +++
     "               frontend" +++
     pieces name_piece (present_cols (user_attrs it self)) +++
     ")" +++ nl +++ "VALUES (" +++
     str_repeat "%s ," (2 + length (present_cols (user_attrs it self)))
     +++ "%s" +++ ")",
     key_data self ++ present_vals (user_attrs it self)).
Proof.
  unfold create_user_config_query.
  rewrite (fold_counted name_piece). cbv beta iota zeta.
  fold (user_attrs it self).
  change (3 + length (present_cols (user_attrs it self)))%nat
    with (S (2 + length (present_cols (user_attrs it self)))).
  rewrite insert_text. now rewrite !append_assoc.
Qed.

Lemma create_user_config_parse :
  parse (tokens (fst (create_user_config_query it self)))
  = Some (SInsert "mysql_users"
            (user_keys ++ present_cols (user_attrs it self))).
Proof.
  rewrite create_user_config_query_eq. cbn [fst].
  set (cols := present_cols (user_attrs it self)) in *.
  remember (str_repeat "%s ," (2 + length cols) +++ "%s" +++ ")")
    as ph eqn:Eph.
  unfold tokens. cbn -[parse].
  rewrite tokens_names by (reflexivity || assumption).
  cbn -[parse]. subst ph. rewrite tokens_placeholders_users.
  apply (parse_insert_tokens "mysql_users" "username"
           ("backend" :: "frontend" :: cols));
    try reflexivity.
  repeat (apply columns_cons; [reflexivity|]). assumption.
Qed.

Lemma create_user_config_spec (w : world) :
  create_user_config it self w
  = (Ok py_True,
     sent (create_user_config_query it self)
       (table_put "mysql_users"
          (mysql_users (tables w) ++ [user_stored it self (tables w)])
          (tables w)) w).
Proof.
  unfold create_user_config. pose proof create_user_config_parse as Hp.
  pose proof create_user_config_query_eq as Hq.
  destruct (create_user_config_query it self) as [q d].
  injection Hq as _ Hd. cbn [fst] in Hp. subst d. unfold bind.
  rewrite (execute_insert q _ _ _ (mysql_users (tables w)) w Hp);
    [|reflexivity|].
  - unfold user_stored. rewrite <- user_binding_eq. reflexivity.
  - rewrite !length_app, attr_binding_length. reflexivity.
Qed.

Lemma comma_pieces (cs : list string) :
  "," +++ pieces update_piece cs = pieces set_piece cs +++ ",".
Proof.
  induction cs as [|c cs IH]; [reflexivity|].
  cbn [pieces].
  remember (pieces update_piece cs) as P.
  remember (pieces set_piece cs) as Q.
  unfold update_piece, set_piece.
  change " = %s," with (" = %s" +++ ",").
  rewrite !append_assoc. now rewrite IH.
Qed.

Lemma update_text (hd c tailw : string) (cs : list string) :
  drop_last 1
    (hd +++ nl +++ "SET " +++ c +++ "= %s," +++ pieces update_piece cs)
  +++ tailw
  = hd +++ nl +++ "SET " +++ c +++ "= %s" +++ pieces set_piece cs
    +++ tailw.
Proof.
  change "= %s," with ("= %s" +++ ",").
  rewrite !append_assoc. rewrite comma_pieces.
  rewrite <- !append_assoc.
  change 1%nat with (String.length ",").
  now rewrite drop_last_app.
Qed.

Lemma fold_update_rest (items : list (string * pyval)) (n : nat)
    (q : string) (d : list pyval) :
  fold_left update_body items (S n, q, d)
  = ((S n + length (present_cols items))%nat,
     q +++ pieces update_piece (present_cols items),
     d ++ present_vals items).
Proof.
  revert n q d. induction items as [|[col val] items IH]; intros n q d.
  - cbn. now rewrite append_nil_r, app_nil_r, Nat.add_0_r.
  - cbn [fold_left]. unfold present_cols, present_vals, present_items.
    cbn [filter snd update_body]. destruct (is_not_None val).
    + cbn [Nat.eqb]. rewrite IH. cbn [map fst snd pieces length].
      rewrite append_assoc, <- app_assoc. f_equal. f_equal.
      unfold present_cols, present_items. lia.
    + now rewrite IH.
Qed.

Lemma fold_update_first (items : list (string * pyval))
    (q : string) (d : list pyval) :
  fold_left update_body items (0%nat, q, d)
  = (length (present_cols items),
     q +++ match present_cols items with
           | [] => ""
           | c :: cs =>
               nl +++ "SET " +++ c +++ "= %s," +++ pieces update_piece cs
           end,
     d ++ present_vals items).
Proof.
  revert q d. induction items as [|[col val] items IH]; intros q d.
  - cbn. now rewrite append_nil_r, app_nil_r.
  - cbn [fold_left]. unfold present_cols, present_vals, present_items.
    cbn [filter snd update_body]. destruct (is_not_None val).
    + cbn [Nat.eqb]. rewrite fold_update_rest.
      cbn [map fst snd length].
      rewrite !append_assoc, <- app_assoc. reflexivity.
    + now rewrite IH.
Qed.

Lemma update_user_config_query_eq (c : string) (cs : list string) :
  present_cols (user_attrs it self) = c :: cs ->
  update_user_config_query it self
  = ("UPDATE mysql_users" +++ nl +++ "SET " +++ c +++ "= %s" +++
     pieces set_piece cs +++
     nl +++ "WHERE username = %s" +++ nl +++ "  AND backend = %s" +++
     nl +++ "  AND frontend = %s",
     present_vals (user_attrs it self) ++ key_data self).
Proof.
  intros E. unfold update_user_config_query.
  change (fold_left _ ?a ?b) with (fold_left update_body a b).
  rewrite fold_update_first. cbv beta iota zeta.
  fold (user_attrs it self). rewrite E.
  rewrite update_text. f_equal.
  cbn [app]. now rewrite <- !app_assoc.
Qed.

Lemma update_user_config_parse (c : string) (cs : list string) :
  present_cols (user_attrs it self) = c :: cs ->
  parse (tokens (fst (update_user_config_query it self)))
  = Some (SUpdate "mysql_users" (c :: cs) user_keys).
Proof.
  intros E. rewrite (update_user_config_query_eq c cs E). cbn [fst].
  pose proof Hcols as Hall. rewrite E in Hall.
  inversion Hall as [|? ? Hc Hcs]; subst.
  unfold tokens. cbn -[parse].
  rewrite tokens_from_column by assumption.
  cbn -[parse]. rewrite flush_column by assumption.
  cbn -[parse]. rewrite tokens_sets by assumption.
  cbn -[parse].
  apply (parse_update_tokens "mysql_users" "username"
           ["backend"; "frontend"]);
    try reflexivity; try assumption.
  - repeat (apply columns_cons; [reflexivity|]). constructor.
  - now apply column_name.
Qed.

Lemma update_user_config_spec (w : world) :
  present_cols (user_attrs it self) <> [] ->
  update_user_config it self w
  = (Ok py_True,
     sent (update_user_config_query it self)
       (table_put "mysql_users"
          (map (fun r =>
                  if matches (user_key_binding self) r
                  then assign (attr_binding (user_attrs it self)) r
                  else r)
             (mysql_users (tables w)))
          (tables w)) w).
Proof.
  intros Hne.
  case_eq (present_cols (user_attrs it self)); [congruence|].
  intros c cs E. unfold update_user_config.
  pose proof (update_user_config_parse c cs E) as Hp.
  pose proof (update_user_config_query_eq c cs E) as Hq.
  destruct (update_user_config_query it self) as [q d].
  injection Hq as _ Hd. cbn [fst] in Hp. subst d. unfold bind.
  rewrite (execute_update q _ _ _ _ _ (mysql_users (tables w)) w Hp);
    [|reflexivity| |reflexivity].
  - unfold attr_binding. rewrite E. reflexivity.
  - rewrite <- E. apply attr_binding_length.
Qed.

End UserStatements.

(** ** What the arrangement of the dict guarantees *)

Lemma present_cols_subset (it : list (string * pyval) -> list (string * pyval))
    (d : list (string * pyval)) (c : string) :
  arrangement it ->
  In c (present_cols (it d)) -> In c (map fst d).
Proof.
  intros Hit Hin. unfold present_cols, present_items in Hin.
  apply in_map_iff in Hin as [[c' v] [<- Hin]].
  apply filter_In in Hin as [Hin _].
  apply (Permutation_in _ (Hit d)) in Hin.
  now apply (in_map fst) in Hin.
Qed.

Lemma NoDup_map_filter {A B} (f : A -> B) (g : A -> bool) (l : list A) :
  NoDup (map f l) -> NoDup (map f (filter g l)).
Proof.
  induction l as [|a l IH]; cbn; intros H; [constructor|].
  inversion H as [|? ? Hn Hd]; subst. destruct (g a); cbn; auto.
  constructor; auto. intros Hin. apply Hn.
  apply in_map_iff in Hin as [x [Hx Hin]]. apply filter_In in Hin as [Hin _].
  rewrite <- Hx. now apply in_map.
Qed.

Lemma present_cols_nodup (it : list (string * pyval) -> list (string * pyval))
    (d : list (string * pyval)) :
  arrangement it ->
  NoDup (map fst d) -> NoDup (present_cols (it d)).
Proof.
  intros Hit Hd. unfold present_cols, present_items.
  apply NoDup_map_filter.
  apply (Permutation_NoDup (l := map fst d)); [|assumption].
  apply Permutation_map, Permutation_sym, Hit.
Qed.

Lemma user_config_keys (p : MysqlUsers.params) :
  map fst (MysqlUsers.config_data (MysqlUsers.init p))
  = MysqlUsers.config_data_keys.
Proof. reflexivity. Qed.

Lemma user_columns (it : list (string * pyval) -> list (string * pyval))
    (p : MysqlUsers.params) :
  arrangement it ->
  columns (present_cols (user_attrs it (MysqlUsers.init p))).
Proof.
  intros Hit. apply Forall_forall. intros c Hc.
  apply (present_cols_subset it _ c Hit) in Hc.
  rewrite user_config_keys in Hc.
  cbn in Hc. intuition (subst; reflexivity).
Qed.

Lemma user_full_count_no_attrs
    (it : list (string * pyval) -> list (string * pyval))
    (self : MysqlUsers.ProxySQLUser) (s : store) :
  present_cols (user_attrs it self) = [] ->
  user_full_count it self s = user_key_count self s.
Proof.
  intros E. unfold user_full_count, user_full_binding, attr_binding.
  rewrite E. cbn [combine]. now rewrite app_nil_r.
Qed.

(** One step of a run: reduce the monad and the world projections. *)
Ltac mstep :=
  cbv beta iota zeta
    delta [bind when gets try_except ret fail_json raise finish];
  cbn [tables asked sent with_tables record mysqldb_found admin_up
       fst snd negb].

Lemma users_save_spec (w : world) :
  MysqlUsers.save_config_to_disk w
  = (Ok py_True, asked ("SAVE MYSQL USERS TO DISK", []) w).
Proof. reflexivity. Qed.

Lemma users_load_spec (w : world) :
  MysqlUsers.load_config_to_runtime w
  = (Ok py_True, asked ("LOAD MYSQL USERS TO RUNTIME", []) w).
Proof. reflexivity. Qed.

Lemma users_manage_config_spec (self : MysqlUsers.ProxySQLUser) (w : world) :
  MysqlUsers.manage_config self py_True w
  = (Ok tt,
     propagate (MysqlUsers.save_to_disk self)
       (MysqlUsers.load_to_runtime self)
       "SAVE MYSQL USERS TO DISK" "LOAD MYSQL USERS TO RUNTIME" w).
Proof.
  unfold MysqlUsers.manage_config, propagate.
  destruct (MysqlUsers.save_to_disk self), (MysqlUsers.load_to_runtime self);
    reflexivity.
Qed.

Lemma users_run_sem (it : list (string * pyval) -> list (string * pyval))
    (p : MysqlUsers.params) (w : world) :
  arrangement it ->
  MysqlUsers.run it p w = users_sem it p w.
Proof.
  intros Hit. pose proof (user_columns it p Hit) as Hcols.
  unfold MysqlUsers.run, users_sem, MysqlUsers.main,
    MysqlUsers.perform_checks, port_ok, mysql_connect.
  destruct ((MysqlUsers.login_port p <? 0) || (MysqlUsers.login_port p >? 65535));
    [reflexivity|].
  mstep.
  destruct (mysqldb_found w); [|reflexivity]. mstep.
  destruct (admin_up w); [|reflexivity]. mstep.
  remember (MysqlUsers.init p) as self eqn:Eself.
  destruct (MysqlUsers.state self) eqn:Est; mstep.
  - rewrite check_user_privs_spec by assumption. mstep.
    destruct (user_full_count it self (tables w) >? 0) eqn:Hfull; mstep.
    + rewrite get_user_config_spec. mstep. reflexivity.
    + rewrite check_user_config_exists_spec. mstep.
      destruct (user_key_count self (tables w) >? 0) eqn:Hkey; mstep.
      * unfold MysqlUsers.update_user.
        destruct (MysqlUsers.check_mode p); mstep; [reflexivity|].
        rewrite update_user_config_spec; [|assumption|].
        -- mstep. rewrite get_user_config_spec. mstep.
           rewrite users_manage_config_spec. reflexivity.
        -- intros E.
           rewrite (user_full_count_no_attrs it self _ E) in Hfull.
           congruence.
      * unfold MysqlUsers.create_user.
        destruct (MysqlUsers.check_mode p); mstep; [reflexivity|].
        rewrite create_user_config_spec by assumption.
        mstep. rewrite get_user_config_spec. mstep.
        rewrite users_manage_config_spec. reflexivity.
  - rewrite check_user_config_exists_spec. mstep.
    destruct (user_key_count self (tables w) >? 0) eqn:Hkey; mstep.
    + unfold MysqlUsers.delete_user.
      destruct (MysqlUsers.check_mode p); mstep; [reflexivity|].
      rewrite get_user_config_spec. mstep.
      rewrite delete_user_config_spec. mstep.
      rewrite users_manage_config_spec. reflexivity.
    + reflexivity.
Qed.

(** ** The statements of the scheduler module *)

Section ScheduleStatements.

Import Scheduler.

Variable it : list (string * pyval) -> list (string * pyval).
Variable self : ProxySQLSchedule.
Hypothesis Hcols : columns (present_cols (sched_attrs it self)).

Lemma sched_binding_eq :
  combine (sched_keys ++ present_cols (sched_attrs it self))
    (map literal (key_data self ++ present_vals (sched_attrs it self)))
  = sched_full_binding it self.
Proof.
  rewrite map_app. now rewrite combine_app_eq by reflexivity.
Qed.

Lemma sched_data_length :
  length (sched_keys ++ present_cols (sched_attrs it self))
  = length (key_data self ++ present_vals (sched_attrs it self)).
Proof. rewrite !length_app, attr_binding_length. reflexivity. Qed.

Lemma add_conjuncts_eq (q : string) (d : list pyval) :
  add_conjuncts it self q d
  = (q +++ pieces conj_piece (present_cols (sched_attrs it self)),
     d ++ present_vals (sched_attrs it self)).
Proof. apply (fold_pieces conj_piece). Qed.

Lemma check_schedule_config_parse :
  parse (tokens (fst (check_schedule_config_query it self)))
  = Some (SCount "schedule_count" "scheduler"
            (sched_keys ++ present_cols (sched_attrs it self))).
Proof.
  unfold check_schedule_config_query. rewrite add_conjuncts_eq. cbn [fst].
  set (cols := present_cols (sched_attrs it self)) in *.
  unfold tokens. cbn -[parse]. rewrite tokens_conj by assumption.
  apply (parse_count_tokens "scheduler" "active"
           ("interval_ms" :: "filename" :: cols));
    try reflexivity.
  repeat (apply columns_cons; [reflexivity|]). assumption.
Qed.

Lemma check_schedule_config_spec (w : world) :
  check_schedule_config it self w
  = (Ok (sched_full_count it self (tables w)),
     asked (check_schedule_config_query it self) w).
Proof.
  unfold check_schedule_config.
  pose proof check_schedule_config_parse as Hp.
  unfold check_schedule_config_query in *.
  rewrite add_conjuncts_eq in *. cbn [fst] in Hp. unfold bind.
  rewrite (execute_count _ _ _ _ _ (scheduler (tables w)) w Hp);
    [|reflexivity|apply sched_data_length].
  unfold sched_full_count. rewrite <- sched_binding_eq. reflexivity.
Qed.

Lemma get_schedule_config_parse :
  parse (tokens (fst (get_schedule_config_query it self)))
  = Some (SSelect "scheduler"
            (sched_keys ++ present_cols (sched_attrs it self))).
Proof.
  unfold get_schedule_config_query. rewrite add_conjuncts_eq. cbn [fst].
  set (cols := present_cols (sched_attrs it self)) in *.
  unfold tokens. cbn -[parse]. rewrite tokens_conj by assumption.
  apply (parse_select_tokens "scheduler" "active"
           ("interval_ms" :: "filename" :: cols));
    try reflexivity.
  repeat (apply columns_cons; [reflexivity|]). assumption.
Qed.

Lemma get_schedule_config_spec (w : world) :
  get_schedule_config it self w
  = (Ok (Rows (matching (sched_full_binding it self)
                 (scheduler (tables w)))),
     asked (get_schedule_config_query it self) w).
Proof.
  unfold get_schedule_config.
  pose proof get_schedule_config_parse as Hp.
  unfold get_schedule_config_query in *.
  rewrite add_conjuncts_eq in *. cbn [fst] in Hp. unfold bind.
  rewrite (execute_select _ _ _ _ (scheduler (tables w)) w Hp);
    [|reflexivity|apply sched_data_length].
  rewrite <- sched_binding_eq. reflexivity.
Qed.

Lemma delete_schedule_config_parse :
  parse (tokens (fst (delete_schedule_config_query it self)))
  = Some (SDelete "scheduler"
            (sched_keys ++ present_cols (sched_attrs it self))).
Proof.
  unfold delete_schedule_config_query. rewrite add_conjuncts_eq. cbn [fst].
  set (cols := present_cols (sched_attrs it self)) in *.
  unfold tokens. cbn -[parse]. rewrite tokens_conj by assumption.
  apply (parse_delete_tokens "scheduler" "active"
           ("interval_ms" :: "filename" :: cols));
    try reflexivity.
  repeat (apply columns_cons; [reflexivity|]). assumption.
Qed.

Lemma delete_schedule_config_spec (w : world) :
  delete_schedule_config it self w
  = (Ok (Tuple [PyBool true;
                PyInt (sched_full_count it self (tables w))]),
     sent (delete_schedule_config_query it self)
       (table_put "scheduler"
          (filter (fun r => negb (matches (sched_full_binding it self) r))
             (scheduler (tables w)))
          (tables w)) w).
Proof.
  unfold delete_schedule_config.
  pose proof delete_schedule_config_parse as Hp.
  unfold delete_schedule_config_query in *.
  rewrite add_conjuncts_eq in *. cbn [fst] in Hp. unfold bind.
  rewrite (execute_delete _ _ _ _ (scheduler (tables w)) w Hp);
    [|reflexivity|apply sched_data_length].
  unfold sched_full_count. rewrite <- sched_binding_eq. reflexivity.
Qed.

Lemma create_schedule_config_query_eq :
  create_schedule_config_query it self
  = ("INSERT INTO scheduler (" +++ nl +++
     "               active," +++ nl +++
     "               interval_ms," +++ nl +++
     "               filename" +++
     pieces name_piece (present_cols (sched_attrs it self)) +++
     ")" +++ nl +++ "VALUES (%s, %s, %s" +++
     str_repeat ", %s" (length (present_cols (sched_attrs it self)))
     +++ ")",
     key_data self ++ present_vals (sched_attrs it self)).
Proof.
  unfold create_schedule_config_query.
  rewrite (fold_counted name_piece). cbv beta iota zeta.
  fold (sched_attrs it self). cbn [Nat.add].
  now rewrite !append_assoc.
Qed.

Lemma create_schedule_config_parse :
  parse (tokens (fst (create_schedule_config_query it self)))
  = Some (SInsert "scheduler"
            (sched_keys ++ present_cols (sched_attrs it self))).
Proof.
  rewrite create_schedule_config_query_eq. cbn [fst].
  set (cols := present_cols (sched_attrs it self)) in *.
  remember (str_repeat ", %s" (length cols) +++ ")") as ph eqn:Eph.
  unfold tokens. cbn -[parse].
  rewrite tokens_names by (reflexivity || assumption).
  cbn -[parse]. subst ph. rewrite tokens_placeholders_scheduler.
  refine (parse_insert_tokens "scheduler" "active"
            ("interval_ms" :: "filename" :: cols) _ _ _
            (S (S (length cols))) _);
    try reflexivity.
  repeat (apply columns_cons; [reflexivity|]). assumption.
Qed.

Lemma create_schedule_config_spec (w : world) :
  create_schedule_config it self w
  = (Ok py_True,
     sent (create_schedule_config_query it self)
       (table_put "scheduler"
          (scheduler (tables w) ++ [sched_stored it self (tables w)])
          (tables w)) w).
Proof.
  unfold create_schedule_config.
  pose proof create_schedule_config_parse as Hp.
  pose proof create_schedule_config_query_eq as Hq.
  destruct (create_schedule_config_query it self) as [q d].
  injection Hq as _ Hd. cbn [fst] in Hp. subst d. unfold bind.
  rewrite (execute_insert q _ _ _ (scheduler (tables w)) w Hp);
    [|reflexivity|].
  - unfold sched_stored. rewrite <- sched_binding_eq. reflexivity.
  - apply sched_data_length.
Qed.

End ScheduleStatements.

Lemma sched_columns (it : list (string * pyval) -> list (string * pyval))
    (p : Scheduler.params) :
  arrangement it ->
  columns (present_cols (sched_attrs it (Scheduler.init p))).
Proof.
  intros Hit. apply Forall_forall. intros c Hc.
  apply (present_cols_subset it _ c Hit) in Hc.
  cbn in Hc. intuition (subst; reflexivity).
Qed.

Lemma sched_manage_config_spec (self : Scheduler.ProxySQLSchedule)
    (state : pyobj) (w : world) :
  truth state = true ->
  Scheduler.manage_config self state w
  = (Ok tt,
     propagate (Scheduler.save_to_disk self)
       (Scheduler.load_to_runtime self)
       "SAVE SCHEDULER TO DISK" "LOAD SCHEDULER TO RUNTIME" w).
Proof.
  intros Ht. unfold Scheduler.manage_config, propagate. rewrite Ht.
  destruct (Scheduler.save_to_disk self), (Scheduler.load_to_runtime self);
    reflexivity.
Qed.

Lemma sched_run_sem (it : list (string * pyval) -> list (string * pyval))
    (p : Scheduler.params) (w : world) :
  arrangement it ->
  Scheduler.run it p w = sched_sem it p w.
Proof.
  intros Hit. pose proof (sched_columns it p Hit) as Hcols.
  unfold Scheduler.run, sched_sem, Scheduler.main,
    Scheduler.perform_checks, port_ok, mysql_connect.
  destruct ((Scheduler.login_port p <? 0) || (Scheduler.login_port p >? 65535));
    [reflexivity|].
  mstep.
  destruct ((Scheduler.param_interval_ms p <? 100)
            || (Scheduler.param_interval_ms p >? 100000000));
    [reflexivity|].
  mstep.
  destruct (mysqldb_found w); [|reflexivity]. mstep.
  destruct (admin_up w); [|reflexivity]. mstep.
  remember (Scheduler.init p) as self eqn:Eself.
  destruct (Scheduler.state self) eqn:Est; mstep;
    rewrite check_schedule_config_spec by assumption; mstep.
  - destruct (sched_full_count it self (tables w) >? 0) eqn:Hfull; mstep.
    + rewrite get_schedule_config_spec by assumption. reflexivity.
    + unfold Scheduler.create_schedule.
      destruct (Scheduler.check_mode p); mstep; [reflexivity|].
      rewrite create_schedule_config_spec by assumption. mstep.
      rewrite get_schedule_config_spec by assumption. mstep.
      rewrite sched_manage_config_spec by reflexivity. reflexivity.
  - destruct (sched_full_count it self (tables w) >? 0) eqn:Hfull; mstep;
      [|reflexivity].
    destruct ((sched_full_count it self (tables w) =? 1)
              || Scheduler.force_delete self);
      mstep; [|reflexivity].
    unfold Scheduler.delete_schedule.
    destruct (Scheduler.check_mode p); mstep; [reflexivity|].
    rewrite get_schedule_config_spec by assumption. mstep.
    rewrite delete_schedule_config_spec by assumption. mstep.
    rewrite sched_manage_config_spec by reflexivity. reflexivity.
Qed.

(** ** The statements of the global variables module *)

Lemma gv_get_config_spec (variable : string) (w : world) :
  GlobalVariables.get_config variable w
  = (Ok (gv_found variable (tables w)),
     asked (GlobalVariables.get_config_query variable) w).
Proof.
  unfold GlobalVariables.get_config, bind.
  cbv beta iota zeta delta [GlobalVariables.get_config_query].
  rewrite (execute_select _ _ "global_variables" ["variable_name"]
             (global_variables (tables w)) w); try reflexivity.
  cbn [rowcount resultset combine map literal]. unfold gv_found, fetchone.
  fold (gv_key_binding variable). cbn [resultset].
  destruct (matching (gv_key_binding variable) (global_variables (tables w)))
    as [|r rows]; [reflexivity|].
  unfold count_of. cbn [length].
  replace (Z.of_nat (S (length rows)) >? 0) with true; [reflexivity|].
  symmetry. apply Z.gtb_lt. lia.
Qed.

Lemma gv_check_config_spec (variable : string) (value : pyval) (w : world) :
  GlobalVariables.check_config variable value w
  = (Ok (count_of (matching (gv_full_binding variable value)
                     (global_variables (tables w))) >? 0),
     asked (GlobalVariables.check_config_query variable value) w).
Proof.
  unfold GlobalVariables.check_config, bind.
  cbv beta iota zeta delta [GlobalVariables.check_config_query].
  rewrite (execute_count _ _ "variable_count" "global_variables"
             ["variable_name"; "variable_value"]
             (global_variables (tables w)) w); reflexivity.
Qed.

Lemma gv_set_config_spec (variable : string) (value : pyval) (w : world) :
  GlobalVariables.set_config variable value w
  = (Ok py_True,
     sent (GlobalVariables.set_config_query variable value)
       (table_put "global_variables"
          (map (fun r =>
                  if matches (gv_key_binding variable) r
                  then assign [("variable_value", literal value)] r
                  else r)
             (global_variables (tables w)))
          (tables w)) w).
Proof.
  unfold GlobalVariables.set_config, bind.
  cbv beta iota zeta delta [GlobalVariables.set_config_query].
  rewrite (execute_update _ [value] [PyStr variable] "global_variables"
             ["variable_value"] ["variable_name"]
             (global_variables (tables w)) w); reflexivity.
Qed.

Lemma gv_manage_config_spec (variable : string) (save load : bool)
    (w : world) :
  GlobalVariables.manage_config variable save load py_True w
  = (Ok tt,
     propagate save load (gv_save_cmd variable) (gv_load_cmd variable) w).
Proof.
  unfold GlobalVariables.manage_config, propagate,
    GlobalVariables.save_config_to_disk,
    GlobalVariables.load_config_to_runtime, gv_save_cmd, gv_load_cmd.
  destruct save, load, (String.prefix "admin" variable); reflexivity.
Qed.

Lemma gv_run_sem (p : GlobalVariables.params) (w : world) :
  GlobalVariables.run p w = gv_sem p w.
Proof.
  unfold GlobalVariables.run, gv_sem, GlobalVariables.main,
    GlobalVariables.perform_checks, port_ok, mysql_connect.
  destruct ((GlobalVariables.login_port p <? 0)
            || (GlobalVariables.login_port p >? 65535));
    [reflexivity|].
  mstep.
  destruct (mysqldb_found w); [|reflexivity]. mstep.
  destruct (admin_up w); [|reflexivity]. mstep.
  destruct (truthy (GlobalVariables.value p)); mstep;
    rewrite gv_get_config_spec; mstep;
    destruct (truth (gv_found (GlobalVariables.variable p) (tables w)));
    mstep; try reflexivity.
  - rewrite gv_check_config_spec. mstep.
    destruct (count_of
                (matching
                   (gv_full_binding (GlobalVariables.variable p)
                      (GlobalVariables.value p))
                   (global_variables (tables w))) >? 0); mstep.
    + rewrite gv_get_config_spec. reflexivity.
    + destruct (GlobalVariables.check_mode p); mstep; [reflexivity|].
      rewrite gv_set_config_spec. mstep.
      rewrite gv_get_config_spec. mstep.
      rewrite gv_manage_config_spec. reflexivity.
  - rewrite gv_get_config_spec. reflexivity.
Qed.

(** ** The journal *)

Lemma since_refl (w : world) : since w w [].
Proof. unfold since. now rewrite app_nil_r. Qed.

Lemma since_record (w w' : world) (evs : list event) (e : event) :
  since w w' evs -> since w (record e w') (evs ++ [e]).
Proof. unfold since. cbn. intros ->. now rewrite app_assoc. Qed.

Lemma since_sent (w w' : world) (evs : list event)
    (q : string * list pyval) (s : store) :
  since w w' evs ->
  since w (sent q s w') (evs ++ [Execute (fst q) (snd q)]).
Proof. unfold since. cbn. intros ->. now rewrite app_assoc. Qed.

Lemma since_asked (w w' : world) (evs : list event)
    (q : string * list pyval) :
  since w w' evs ->
  since w (asked q w') (evs ++ [Execute (fst q) (snd q)]).
Proof. apply since_sent. Qed.

Lemma since_propagate (w w' : world) (evs : list event)
    (save load : bool) (save_cmd load_cmd : string) :
  since w w' evs ->
  since w (propagate save load save_cmd load_cmd w')
    (evs ++ propagation save load save_cmd load_cmd).
Proof.
  unfold since, propagate, propagation. intros H.
  destruct save, load; cbn; rewrite H, <- ?app_assoc; cbn;
    now rewrite ?app_nil_r.
Qed.

Lemma tables_propagate (save load : bool) (save_cmd load_cmd : string)
    (w : world) :
  tables (propagate save load save_cmd load_cmd w) = tables w.
Proof. unfold propagate. destruct save, load; reflexivity. Qed.

(** Builds the list of events of a world written with [record], [asked],
    [sent] and [propagate]. *)
Ltac since_tac :=
  repeat first
    [ apply since_refl
    | eapply since_propagate
    | eapply since_asked
    | eapply since_sent
    | eapply since_record ].

Lemma propagation_kinds (save load : bool) (save_cmd load_cmd : string) :
  kind_of (Execute save_cmd []) = Propagated ->
  kind_of (Execute load_cmd []) = Propagated ->
  Forall (fun e => kind_of e = Propagated)
    (propagation save load save_cmd load_cmd).
Proof.
  intros Hs Hl. unfold propagation.
  destruct save, load; cbn; repeat constructor; assumption.
Qed.

(** ** The layer transfer engine *)

Section LayerTransfer.

Import ManageConfig.

(** C7.  With a valid port and the CONFIG layer: LOAD FROM passes the
    checks (and, with the driver present, the interface up and the
    settings named, the run sends its one command); SAVE FROM, LOAD TO
    and SAVE TO fail with the message naming the action, the direction
    or both, and the world is untouched: no connection, no statement. *)
Theorem config_layer_legality (port : Z)
    (settings : option settings_choice) (w : world) :
  port_ok port = true ->
  let p a d :=
    {| login_port := port; param_action := a;
       param_config_settings := settings; param_direction := d;
       param_config_layer := Some CONFIG |} in
  (perform_checks (p LOAD FROM) w
   = ((if mysqldb_found w then Ok tt
       else Raise (Fail_json "the python mysqldb module is required")),
      w))
  /\ (forall s,
        settings = Some s ->
        mysqldb_found w = true ->
        admin_up w = true ->
        run (p LOAD FROM) w
        = (Exit_json [("changed", py_True)],
           asked (transfer_command LOAD s FROM CONFIG, [])
             (record Connect w)))
  /\ run (p SAVE FROM) w = (Failed (config_layer_message SAVE FROM), w)
  /\ run (p LOAD TO) w = (Failed (config_layer_message LOAD TO), w)
  /\ run (p SAVE TO) w = (Failed (config_layer_message SAVE TO), w).
Proof.
  intros Hport p. unfold port_ok in Hport.
  apply negb_true_iff in Hport.
  repeat split.
  - unfold perform_checks, p. cbn. rewrite Hport. cbn.
    destruct w as [[|] up tbl jr]; reflexivity.
  - intros s -> Hm Hu. destruct w as [found up tbl jr].
    cbn in Hm, Hu. subst found up.
    unfold run, main, perform_checks, p. cbn [login_port].
    rewrite Hport. destruct s; reflexivity.
  - unfold run, main, perform_checks, p. cbn [login_port].
    rewrite Hport. reflexivity.
  - unfold run, main, perform_checks, p. cbn [login_port].
    rewrite Hport. reflexivity.
  - unfold run, main, perform_checks, p. cbn [login_port].
    rewrite Hport. reflexivity.
Qed.

(** C8.  On a legal combination with the four words supplied, the run
    connects, sends exactly one statement, the four words joined by
    blanks, and reports [changed = True]; the staging tables are what
    they were. *)
Theorem bulk_transfer_changed (p : params) (s : settings_choice)
    (l : layer_choice) (w : world) :
  port_ok (login_port p) = true ->
  mysqldb_found w = true ->
  admin_up w = true ->
  param_config_settings p = Some s ->
  param_config_layer p = Some l ->
  legal (param_action p) (param_direction p) l = true ->
  run p w
  = (Exit_json [("changed", py_True)],
     asked (transfer_command (param_action p) s (param_direction p) l, [])
       (record Connect w)).
Proof.
  intros Hport Hm Hu Hs Hl Hlegal. unfold port_ok in Hport.
  apply negb_true_iff in Hport.
  unfold run, main, perform_checks, mysql_connect,
    config_layer, config_settings, action, direction.
  rewrite Hport, Hs, Hl. destruct w as [found up tbl jr].
  cbn in Hm, Hu. subst found up.
  destruct (param_action p), (param_direction p), l;
    try discriminate Hlegal; destruct s; reflexivity.
Qed.

End LayerTransfer.

(** ** What each statement of the modules is to the store *)

Section UserKinds.

Import MysqlUsers.

Variable it : list (string * pyval) -> list (string * pyval).
Variable self : ProxySQLUser.
Hypothesis Hcols : columns (present_cols (user_attrs it self)).

Lemma kind_check_user_privs (d : list pyval) :
  kind_of (Execute (fst (check_user_privs_query it self)) d) = Read.
Proof.
  unfold kind_of. now rewrite check_user_privs_parse.
Qed.

Lemma kind_check_user_config_exists (d : list pyval) :
  kind_of (Execute (fst (check_user_config_exists_query self)) d) = Read.
Proof. reflexivity. Qed.

Lemma kind_get_user_config (d : list pyval) :
  kind_of (Execute (fst (get_user_config_query self)) d) = Read.
Proof. reflexivity. Qed.

Lemma kind_delete_user_config (d : list pyval) :
  kind_of (Execute (fst (delete_user_config_query self)) d)
  = Written delete.
Proof. reflexivity. Qed.

Lemma kind_create_user_config (d : list pyval) :
  kind_of (Execute (fst (create_user_config_query it self)) d)
  = Written create.
Proof.
  unfold kind_of. now rewrite create_user_config_parse.
Qed.

Lemma kind_update_user_config (d : list pyval) :
  present_cols (user_attrs it self) <> [] ->
  kind_of (Execute (fst (update_user_config_query it self)) d)
  = Written update.
Proof.
  intros Hne. case_eq (present_cols (user_attrs it self)); [congruence|].
  intros c cs E. unfold kind_of.
  now rewrite (update_user_config_parse it self Hcols c cs E).
Qed.

End UserKinds.

Lemma kind_users_save :
  kind_of (Execute "SAVE MYSQL USERS TO DISK" []) = Propagated.
Proof. reflexivity. Qed.

Lemma kind_users_load :
  kind_of (Execute "LOAD MYSQL USERS TO RUNTIME" []) = Propagated.
Proof. reflexivity. Qed.

Section ScheduleKinds.

Import Scheduler.

Variable it : list (string * pyval) -> list (string * pyval).
Variable self : ProxySQLSchedule.
Hypothesis Hcols : columns (present_cols (sched_attrs it self)).

Lemma kind_check_schedule_config (d : list pyval) :
  kind_of (Execute (fst (check_schedule_config_query it self)) d) = Read.
Proof.
  unfold kind_of. now rewrite check_schedule_config_parse.
Qed.

Lemma kind_get_schedule_config (d : list pyval) :
  kind_of (Execute (fst (get_schedule_config_query it self)) d) = Read.
Proof.
  unfold kind_of. now rewrite get_schedule_config_parse.
Qed.

Lemma kind_create_schedule_config (d : list pyval) :
  kind_of (Execute (fst (create_schedule_config_query it self)) d)
  = Written create.
Proof.
  unfold kind_of. now rewrite create_schedule_config_parse.
Qed.

Lemma kind_delete_schedule_config (d : list pyval) :
  kind_of (Execute (fst (delete_schedule_config_query it self)) d)
  = Written delete.
Proof.
  unfold kind_of. now rewrite delete_schedule_config_parse.
Qed.

End ScheduleKinds.

Lemma kind_sched_save :
  kind_of (Execute "SAVE SCHEDULER TO DISK" []) = Propagated.
Proof. reflexivity. Qed.

Lemma kind_sched_load :
  kind_of (Execute "LOAD SCHEDULER TO RUNTIME" []) = Propagated.
Proof. reflexivity. Qed.

Lemma kind_gv_get (variable : string) (d : list pyval) :
  kind_of (Execute (fst (GlobalVariables.get_config_query variable)) d)
  = Read.
Proof. reflexivity. Qed.

Lemma kind_gv_check (variable : string) (value : pyval) (d : list pyval) :
  kind_of (Execute (fst (GlobalVariables.check_config_query variable value))
             d)
  = Read.
Proof. reflexivity. Qed.

Lemma kind_gv_set (variable : string) (value : pyval) (d : list pyval) :
  kind_of (Execute (fst (GlobalVariables.set_config_query variable value)) d)
  = Written update.
Proof. reflexivity. Qed.

Lemma kind_gv_save (variable : string) :
  kind_of (Execute (gv_save_cmd variable) []) = Propagated.
Proof. unfold gv_save_cmd. destruct (String.prefix _ _); reflexivity. Qed.

Lemma kind_gv_load (variable : string) :
  kind_of (Execute (gv_load_cmd variable) []) = Propagated.
Proof. unfold gv_load_cmd. destruct (String.prefix _ _); reflexivity. Qed.

Lemma kind_connect : kind_of Connect = Connected.
Proof. reflexivity. Qed.

(** ** Rows and predicates *)

Lemma matching_head (b : binding) (rows : list row) (r : row)
    (rest : list row) :
  matching b rows = r :: rest -> matches b r = true.
Proof.
  intros H. assert (Hin : In r (matching b rows)) by (rewrite H; now left).
  unfold matching in Hin. now apply filter_In in Hin.
Qed.

Lemma matches_nonempty (c : string) (v : sqlval) (b : binding) (r : row) :
  matches ((c, v) :: b) r = true -> is_nil r = false.
Proof. destruct r; [discriminate | reflexivity]. Qed.

Lemma gv_found_truth (variable : string) (s : store) :
  truth (gv_found variable s)
  = negb (is_nil (matching (gv_key_binding variable) (global_variables s))).
Proof.
  unfold gv_found.
  destruct (matching (gv_key_binding variable) (global_variables s))
    as [|r rest] eqn:E; [reflexivity|].
  apply matching_head in E. unfold gv_key_binding in E.
  apply matches_nonempty in E. cbn. now rewrite E.
Qed.

(** Proves that the listed events are connection attempts and reads. *)
Ltac quiet_tac :=
  cbn [app]; repeat constructor; unfold is_quiet, is_mutation, is_propagation;
  rewrite ?kind_connect, ?kind_gv_get, ?kind_gv_check,
    ?kind_check_user_config_exists, ?kind_get_user_config;
  try reflexivity.

(** ** The read-only path of the global variables module *)

(** C10.  With a falsy [value] the run only reads: the tables are left as
    they were and nothing but the connection attempt and SELECTs is sent.
    When the checks pass and the interface is up, the outcome is the
    stored row with [changed = False] if the variable exists, and the
    not-found failure otherwise. *)
Theorem falsy_value_only_reads (p : GlobalVariables.params) (w : world) :
  truthy (GlobalVariables.value p) = false ->
  let '(o, w') := GlobalVariables.run p w in
  tables w' = tables w
  /\ (exists evs, since w w' evs /\ Forall (fun e => is_quiet e = true) evs)
  /\ (port_ok (GlobalVariables.login_port p) = true ->
      mysqldb_found w = true ->
      admin_up w = true ->
      match matching (gv_key_binding (GlobalVariables.variable p))
              (global_variables (tables w)) with
      | r :: _ =>
          o = Exit_json
                [("changed", py_False);
                 ("msg",
                  Val (PyStr "Returned the variable and it's current value"));
                 ("var", Dict r)]
      | [] => o = Failed (GlobalVariables.not_found (GlobalVariables.variable p))
      end).
Proof.
  intros Hv. rewrite gv_run_sem. unfold gv_sem. rewrite Hv. cbn [negb].
  destruct (port_ok (GlobalVariables.login_port p)); cbn [negb];
    [|repeat split; [exists []; split; [apply since_refl|constructor]
                    |discriminate]].
  destruct (mysqldb_found w) eqn:Hm; cbn [negb];
    [|repeat split; [exists []; split; [apply since_refl|constructor]
                    |discriminate]].
  cbn [admin_up record].
  destruct (admin_up w) eqn:Hu; cbn [negb].
  2:{ repeat split; [|discriminate].
      eexists; split; [since_tac|quiet_tac]. }
  cbn [tables record asked sent with_tables].
  rewrite gv_found_truth. unfold gv_found.
  destruct (matching (gv_key_binding (GlobalVariables.variable p))
              (global_variables (tables w))) as [|r rest];
    cbn [is_nil negb].
  - repeat split. eexists; split; [since_tac|quiet_tac].
  - repeat split. eexists; split; [since_tac|quiet_tac].
Qed.

(** ** Result dicts *)

Lemma dict_get_set_same (k : string) (v : pyobj) (d : dict) :
  dict_get k (dict_set k v d) = Some v.
Proof.
  induction d as [|[k' v'] d IH]; cbn.
  - now rewrite String.eqb_refl.
  - destruct (String.eqb k k') eqn:E; cbn.
    + now rewrite String.eqb_refl.
    + now rewrite E.
Qed.

Lemma dict_get_set_other (k k' : string) (v : pyobj) (d : dict) :
  String.eqb k k' = false ->
  dict_get k (dict_set k' v d) = dict_get k d.
Proof.
  intros Hk. induction d as [|[k'' v''] d IH]; cbn.
  - now rewrite Hk.
  - destruct (String.eqb k' k'') eqn:E; cbn.
    + apply String.eqb_eq in E. subst k''. now rewrite Hk.
    + now rewrite IH.
Qed.

(** Reads the [changed] entry of a result built with [dict_set]. *)
Ltac changed_tac :=
  cbn [changed_of field_of fst snd];
  repeat first
    [ rewrite dict_get_set_same
    | rewrite dict_get_set_other by reflexivity ].

(** ** Propagation *)



(** Rewrites the kind of every statement of the three modules. *)
Ltac kinds_tac :=
  cbn [app existsb written];
  unfold is_quiet, is_mutation, is_propagation;
  repeat first
    [ rewrite kind_connect
    | rewrite kind_gv_get | rewrite kind_gv_check | rewrite kind_gv_set
    | rewrite kind_gv_save | rewrite kind_gv_load
    | rewrite kind_check_user_config_exists | rewrite kind_get_user_config
    | rewrite kind_delete_user_config
    | rewrite kind_users_save | rewrite kind_users_load
    | rewrite kind_sched_save | rewrite kind_sched_load
    | rewrite kind_check_user_privs by assumption
    | rewrite kind_create_user_config by assumption
    | rewrite kind_update_user_config by assumption
    | rewrite kind_check_schedule_config by assumption
    | rewrite kind_get_schedule_config by assumption
    | rewrite kind_create_schedule_config by assumption
    | rewrite kind_delete_schedule_config by assumption ];
  cbn [orb andb negb].







(** ** Dry runs *)

Lemma in_order_arrangement : arrangement in_order.
Proof. intros d. apply Permutation_refl. Qed.

Lemma reversed_arrangement : arrangement reversed.
Proof. intros d. apply Permutation_sym, Permutation_rev. Qed.

(** In check mode a run leaves the tables alone and sends nothing but the
    connection attempt and reads, in each of the three record modules. *)
Lemma dry_run_sends_only_reads
    (it : list (string * pyval) -> list (string * pyval)) :
  arrangement it ->
  (forall p w,
      MysqlUsers.check_mode p = true ->
      tables (snd (MysqlUsers.run it p w)) = tables w
      /\ exists evs, since w (snd (MysqlUsers.run it p w)) evs
                     /\ Forall (fun e => is_quiet e = true) evs)
  /\ (forall p w,
         Scheduler.check_mode p = true ->
         tables (snd (Scheduler.run it p w)) = tables w
         /\ exists evs, since w (snd (Scheduler.run it p w)) evs
                        /\ Forall (fun e => is_quiet e = true) evs)
  /\ (forall p w,
         GlobalVariables.check_mode p = true ->
         tables (snd (GlobalVariables.run p w)) = tables w
         /\ exists evs, since w (snd (GlobalVariables.run p w)) evs
                        /\ Forall (fun e => is_quiet e = true) evs).
Proof.
  intros Hit. split; [|split]; intros p w Hdry.
  - pose proof (user_columns it p Hit) as Hcols.
    rewrite users_run_sem by assumption. unfold users_sem. rewrite Hdry.
    remember (MysqlUsers.init p) as self eqn:Eself.
    destruct (port_ok (MysqlUsers.login_port p)), (mysqldb_found w);
      cbn [negb admin_up record];
      try (split; [reflexivity|exists []; split; [apply since_refl|constructor]]).
    destruct (admin_up w); cbn [negb tables record asked sent with_tables];
      [|split; [reflexivity
               |eexists; split;
                [since_tac|cbn [app]; repeat constructor; kinds_tac;
                           reflexivity]]].
    destruct (MysqlUsers.state self);
      repeat match goal with
        | |- context [if ?c >? 0 then _ else _] => destruct (c >? 0)
        end;
      (split; [reflexivity
              |eexists; split;
               [since_tac|cbn [app]; repeat constructor; kinds_tac;
                          reflexivity]]).
  - pose proof (sched_columns it p Hit) as Hcols.
    rewrite sched_run_sem by assumption. unfold sched_sem. rewrite Hdry.
    remember (Scheduler.init p) as self eqn:Eself.
    destruct (port_ok (Scheduler.login_port p)),
      ((Scheduler.param_interval_ms p <? 100)
       || (Scheduler.param_interval_ms p >? 100000000)),
      (mysqldb_found w);
      cbn [negb admin_up record];
      try (split; [reflexivity|exists []; split; [apply since_refl|constructor]]).
    destruct (admin_up w); cbn [negb tables record asked sent with_tables];
      [|split; [reflexivity
               |eexists; split;
                [since_tac|cbn [app]; repeat constructor; kinds_tac;
                           reflexivity]]].
    destruct (Scheduler.state self);
      destruct (sched_full_count it self (tables w) >? 0); cbn [negb];
      try destruct ((sched_full_count it self (tables w) =? 1)
                    || Scheduler.force_delete self);
      (split; [reflexivity
              |eexists; split;
               [since_tac|cbn [app]; repeat constructor; kinds_tac;
                          reflexivity]]).
  - rewrite gv_run_sem. unfold gv_sem. rewrite Hdry.
    destruct (port_ok (GlobalVariables.login_port p)), (mysqldb_found w);
      cbn [negb admin_up record];
      try (split; [reflexivity|exists []; split; [apply since_refl|constructor]]).
    destruct (admin_up w); cbn [negb tables record asked sent with_tables];
      [|split; [reflexivity
               |eexists; split;
                [since_tac|cbn [app]; repeat constructor; kinds_tac;
                           reflexivity]]].
    destruct (truthy (GlobalVariables.value p)); cbn [negb];
      destruct (truth (gv_found (GlobalVariables.variable p) (tables w)));
      try destruct (count_of
                      (matching
                         (gv_full_binding (GlobalVariables.variable p)
                            (GlobalVariables.value p))
                         (global_variables (tables w))) >? 0);
      cbn [negb];
      (split; [reflexivity
              |eexists; split;
               [since_tac|cbn [app]; repeat constructor; kinds_tac;
                          reflexivity]]).
Qed.

(** C4.  Removing the one schedule that matches: the live run reports
    [changed] as the pair [(True, 1)], the dry run reports [True]; the two
    flags are not the same value. *)
Theorem schedule_delete_changed_differs :
  changed_of (fst (Scheduler.run in_order (remove_schedule false)
                     one_schedule))
  = Some (Tuple [PyBool true; PyInt 1])
  /\ changed_of (fst (Scheduler.run in_order (remove_schedule true)
                        one_schedule))
     = Some py_True
  /\ changed_of (fst (Scheduler.run in_order (remove_schedule false)
                        one_schedule))
     <> changed_of (fst (Scheduler.run in_order (remove_schedule true)
                           one_schedule)).
Proof.
  repeat split; try (vm_compute; reflexivity).
  vm_compute. discriminate.
Qed.

(** ** Lists, predicates and arrangements *)

Lemma Permutation_filter {A} (f : A -> bool) (l l' : list A) :
  Permutation l l' -> Permutation (filter f l) (filter f l').
Proof.
  induction 1 as [|x l l' _ IH|x y l|l l' l'' _ IH1 _ IH2]; cbn.
  - constructor.
  - destruct (f x); [now constructor | assumption].
  - destruct (f x), (f y); try apply Permutation_refl. apply perm_swap.
  - now transitivity (filter f l').
Qed.

Lemma attr_binding_map (items : list (string * pyval)) :
  attr_binding items
  = map (fun kv => (fst kv, literal (snd kv))) (present_items items).
Proof.
  unfold attr_binding, present_cols, present_vals.
  induction (present_items items) as [|[c v] l IH]; cbn; congruence.
Qed.

Lemma attr_binding_perm (l l' : list (string * pyval)) :
  Permutation l l' -> Permutation (attr_binding l) (attr_binding l').
Proof.
  intros H. rewrite !attr_binding_map.
  apply Permutation_map. now apply Permutation_filter.
Qed.

Lemma arrangements_agree
    (it1 it2 : list (string * pyval) -> list (string * pyval))
    (d : list (string * pyval)) :
  arrangement it1 -> arrangement it2 -> Permutation (it1 d) (it2 d).
Proof.
  intros H1 H2. transitivity d; [apply H1 | apply Permutation_sym, H2].
Qed.

Lemma matches_perm (b b' : binding) (r : row) :
  Permutation b b' -> matches b r = matches b' r.
Proof.
  unfold matches.
  induction 1 as [|x l l' _ IH|x y l|l l' l'' _ IH1 _ IH2]; cbn.
  - reflexivity.
  - now rewrite IH.
  - rewrite !andb_assoc. f_equal. apply andb_comm.
  - congruence.
Qed.

Lemma matches_app (b b' : binding) (r : row) :
  matches (b ++ b') r = matches b r && matches b' r.
Proof. apply forallb_app. Qed.

Lemma matching_ext (b b' : binding) (rows : list row) :
  (forall r, matches b r = matches b' r) ->
  matching b rows = matching b' rows.
Proof. intros H. apply filter_ext. exact H. Qed.

Lemma filter_split_length {A} (f : A -> bool) (l : list A) :
  (length (filter f l) + length (filter (fun x => negb (f x)) l))%nat
  = length l.
Proof.
  induction l as [|a l IH]; cbn; [reflexivity|].
  destruct (f a); cbn; lia.
Qed.

Lemma filter_none_left {A} (f : A -> bool) (l : list A) :
  filter f (filter (fun x => negb (f x)) l) = [].
Proof.
  induction l as [|a l IH]; cbn; [reflexivity|].
  destruct (f a) eqn:E; cbn; [assumption|]. now rewrite E.
Qed.

(** ** The delete statements *)

(** C6, as the code has it.  The scheduler's delete uses the columns and
    the parameters of its count, the key fields and every attribute that
    is not [None]; it removes exactly the rows that predicate matches and
    returns the pair of [True] and their number.  The user module's
    delete matches the three key fields only, whatever attributes are
    set, and returns [True]. *)
Theorem delete_predicates
    (it : list (string * pyval) -> list (string * pyval)) :
  arrangement it ->
  (forall p w,
      let self := Scheduler.init p in
      let full := sched_full_binding it self in
      let rows := scheduler (tables w) in
      Scheduler.delete_schedule_config it self w
      = (Ok (Tuple [PyBool true; PyInt (count_of (matching full rows))]),
         sent (Scheduler.delete_schedule_config_query it self)
           (table_put "scheduler"
              (filter (fun r => negb (matches full r)) rows) (tables w)) w)
      /\ Scheduler.check_schedule_config it self w
         = (Ok (count_of (matching full rows)),
            asked (Scheduler.check_schedule_config_query it self) w)
      /\ (exists conds,
             parse (tokens (fst (Scheduler.delete_schedule_config_query
                                   it self)))
             = Some (SDelete "scheduler" conds)
             /\ parse (tokens (fst (Scheduler.check_schedule_config_query
                                      it self)))
                = Some (SCount "schedule_count" "scheduler" conds)
             /\ combine conds
                  (map literal
                     (snd (Scheduler.delete_schedule_config_query it self)))
                = full)
      /\ snd (Scheduler.delete_schedule_config_query it self)
         = snd (Scheduler.check_schedule_config_query it self)
      /\ (length (matching full rows)
          + length (filter (fun r => negb (matches full r)) rows))%nat
         = length rows)
  /\ (forall self w,
         MysqlUsers.delete_user_config self w
         = (Ok py_True,
            sent (MysqlUsers.delete_user_config_query self)
              (table_put "mysql_users"
                 (filter (fun r => negb (matches (user_key_binding self) r))
                    (mysql_users (tables w)))
                 (tables w)) w)
         /\ parse (tokens (fst (MysqlUsers.delete_user_config_query self)))
            = Some (SDelete "mysql_users" user_keys)).
Proof.
  intros Hit. split.
  - intros p w self full rows.
    pose proof (sched_columns it p Hit) as Hcols. fold self in Hcols.
    repeat split.
    + now apply delete_schedule_config_spec.
    + now apply check_schedule_config_spec.
    + exists (sched_keys ++ present_cols (sched_attrs it self)).
      repeat split.
      * now apply delete_schedule_config_parse.
      * now apply check_schedule_config_parse.
      * unfold Scheduler.delete_schedule_config_query.
        rewrite add_conjuncts_eq. cbn [snd]. apply sched_binding_eq.
    + unfold Scheduler.delete_schedule_config_query,
        Scheduler.check_schedule_config_query.
      now rewrite !add_conjuncts_eq.
    + apply filter_split_length.
  - intros self w. split; [apply delete_user_config_spec | reflexivity].
Qed.

(** C6, counterexample.  A stored user whose password differs from the
    desired one does not satisfy the sparse predicate, yet the delete
    removes it, and what the delete returns is [True], not a number of
    rows. *)
Lemma user_delete_ignores_attributes :
  matching (user_full_binding in_order (MysqlUsers.init remove_bob_new))
    (mysql_users (tables bob_old)) = []
  /\ fst (MysqlUsers.delete_user_config (MysqlUsers.init remove_bob_new)
            bob_old)
     = Ok py_True
  /\ mysql_users
       (tables (snd (MysqlUsers.delete_user_config
                       (MysqlUsers.init remove_bob_new) bob_old)))
     = [].
Proof. repeat split; vm_compute; reflexivity. Qed.

(** ** The order of the conjuncts *)

Lemma user_full_count_order
    (it1 it2 : list (string * pyval) -> list (string * pyval))
    (self : MysqlUsers.ProxySQLUser) (s : store) :
  arrangement it1 -> arrangement it2 ->
  user_full_count it1 self s = user_full_count it2 self s.
Proof.
  intros H1 H2. unfold user_full_count. f_equal. apply matching_ext.
  intros r. apply matches_perm. unfold user_full_binding.
  apply Permutation_app_head, attr_binding_perm.
  now apply arrangements_agree.
Qed.

Lemma sched_full_count_order
    (it1 it2 : list (string * pyval) -> list (string * pyval))
    (self : Scheduler.ProxySQLSchedule) (s : store) :
  arrangement it1 -> arrangement it2 ->
  sched_full_count it1 self s = sched_full_count it2 self s.
Proof.
  intros H1 H2. unfold sched_full_count. f_equal. apply matching_ext.
  intros r. apply matches_perm. unfold sched_full_binding.
  apply Permutation_app_head, attr_binding_perm.
  now apply arrangements_agree.
Qed.

(** C9, as the code has it.  The predicates name the key fields first, in
    a fixed order, and then the attributes that are not [None] in the
    order the dict yields them, each column with its own parameter.  Two
    arrangements of the dict give conjuncts that are permutations of one
    another, so the statements count the same rows. *)
Theorem predicate_order
    (it1 it2 : list (string * pyval) -> list (string * pyval)) :
  arrangement it1 -> arrangement it2 ->
  (forall p,
      let self := MysqlUsers.init p in
      (forall it, arrangement it ->
         parse (tokens (fst (MysqlUsers.check_user_privs_query it self)))
         = Some (SCount "user_count" "mysql_users"
                   (user_keys ++ present_cols (user_attrs it self)))
         /\ snd (MysqlUsers.check_user_privs_query it self)
            = MysqlUsers.key_data self ++ present_vals (user_attrs it self)
         /\ length (present_cols (user_attrs it self))
            = length (present_vals (user_attrs it self)))
      /\ Permutation (attr_binding (user_attrs it1 self))
           (attr_binding (user_attrs it2 self))
      /\ forall s, user_full_count it1 self s = user_full_count it2 self s)
  /\ (forall p,
         let self := Scheduler.init p in
         (forall it, arrangement it ->
            parse (tokens (fst (Scheduler.check_schedule_config_query
                                  it self)))
            = Some (SCount "schedule_count" "scheduler"
                      (sched_keys ++ present_cols (sched_attrs it self)))
            /\ snd (Scheduler.check_schedule_config_query it self)
               = Scheduler.key_data self
                 ++ present_vals (sched_attrs it self)
            /\ length (present_cols (sched_attrs it self))
               = length (present_vals (sched_attrs it self)))
         /\ Permutation (attr_binding (sched_attrs it1 self))
              (attr_binding (sched_attrs it2 self))
         /\ forall s,
             sched_full_count it1 self s = sched_full_count it2 self s).
Proof.
  intros H1 H2. split; intros p self; repeat split.
  - apply check_user_privs_parse. now apply user_columns.
  - now rewrite check_user_privs_query_eq.
  - apply attr_binding_length.
  - apply attr_binding_perm. now apply arrangements_agree.
  - intros s. now apply user_full_count_order.
  - apply check_schedule_config_parse. now apply sched_columns.
  - unfold Scheduler.check_schedule_config_query.
    now rewrite add_conjuncts_eq.
  - apply attr_binding_length.
  - apply attr_binding_perm. now apply arrangements_agree.
  - intros s. now apply sched_full_count_order.
Qed.

(** C9, counterexample.  For a user with a password and the active flag
    set, the dict yielding its entries in the declared order and the dict
    yielding them in the opposite order give two different query texts. *)
Lemma query_text_follows_dict_order :
  arrangement in_order
  /\ arrangement reversed
  /\ fst (MysqlUsers.check_user_privs_query in_order
            (MysqlUsers.init bob_with_password_and_flag))
     <> fst (MysqlUsers.check_user_privs_query reversed
               (MysqlUsers.init bob_with_password_and_flag)).
Proof.
  repeat split.
  - apply in_order_arrangement.
  - apply reversed_arrangement.
  - vm_compute. discriminate.
Qed.

(** ** Deleting when several rows match *)

Lemma sched_ready_facts (p : Scheduler.params) (w : world) :
  sched_ready p w = true ->
  port_ok (Scheduler.login_port p) = true
  /\ (Scheduler.param_interval_ms p <? 100)
     || (Scheduler.param_interval_ms p >? 100000000) = false
  /\ mysqldb_found w = true
  /\ admin_up w = true.
Proof.
  unfold sched_ready. intros H.
  apply andb_prop in H as [H Hu]. apply andb_prop in H as [H Hm].
  apply andb_prop in H as [Hp Hi]. apply negb_true_iff in Hi. auto.
Qed.

Lemma users_ready_facts (p : MysqlUsers.params) (w : world) :
  users_ready p w = true ->
  port_ok (MysqlUsers.login_port p) = true
  /\ mysqldb_found w = true
  /\ admin_up w = true.
Proof.
  unfold users_ready. intros H.
  apply andb_prop in H as [H Hu]. apply andb_prop in H as [Hp Hm]. auto.
Qed.

Lemma gv_ready_facts (p : GlobalVariables.params) (w : world) :
  gv_ready p w = true ->
  port_ok (GlobalVariables.login_port p) = true
  /\ mysqldb_found w = true
  /\ admin_up w = true.
Proof.
  unfold gv_ready. intros H.
  apply andb_prop in H as [H Hu]. apply andb_prop in H as [Hp Hm]. auto.
Qed.

(** What the scheduler module does once the checks have passed. *)
Lemma sched_run_ready (it : list (string * pyval) -> list (string * pyval))
    (p : Scheduler.params) (w : world) :
  arrangement it ->
  sched_ready p w = true ->
  Scheduler.run it p w
  = let self := Scheduler.init p in
    let result : dict :=
      [("state", Val (PyStr (state_str (Scheduler.param_state p))));
       ("filename", Val (PyStr (Scheduler.param_filename p)))] in
    let full := sched_full_binding it self in
    let rows := scheduler (tables w) in
    let stored := sched_stored it self (tables w) in
    let n := count_of (matching full rows) in
    let pushed :=
      propagate (Scheduler.param_save_to_disk p)
        (Scheduler.param_load_to_runtime p)
        "SAVE SCHEDULER TO DISK" "LOAD SCHEDULER TO RUNTIME" in
    let w1 :=
      asked (Scheduler.check_schedule_config_query it self)
        (record Connect w) in
    match Scheduler.param_state p with
    | present =>
        if n >? 0 then
          (Exit_json
             (dict_set "schedules" (Rows (matching full rows))
                (dict_set "msg"
                   (Val (PyStr ("The schedule already exists and doesn't"
                                +++ " need to be updated.")))
                   (dict_set "changed" py_False result))),
           asked (Scheduler.get_schedule_config_query it self) w1)
        else if Scheduler.check_mode p then
          (Exit_json
             (dict_set "msg"
                (Val (PyStr ("Schedule would have been added to" +++
                             " scheduler, however check_mode" +++
                             " is enabled.")))
                (dict_set "changed" py_True result)), w1)
        else
          (Exit_json
             (dict_set "schedules" (Rows (matching full (rows ++ [stored])))
                (dict_set "msg" (Val (PyStr "Added schedule to scheduler"))
                   (dict_set "changed" py_True result))),
           pushed
             (asked (Scheduler.get_schedule_config_query it self)
                (sent (Scheduler.create_schedule_config_query it self)
                   (table_put "scheduler" (rows ++ [stored]) (tables w))
                   w1)))
    | absent =>
        if n >? 0 then
          if (n =? 1) || Scheduler.param_force_delete p then
            if Scheduler.check_mode p then
              (Exit_json
                 (dict_set "msg"
                    (Val (PyStr ("Schedule would have been deleted from"
                                 +++ " scheduler, however check_mode is"
                                 +++ " enabled.")))
                    (dict_set "changed" py_True result)), w1)
            else
              (Exit_json
                 (dict_set "msg"
                    (Val (PyStr "Deleted schedule from scheduler"))
                    (dict_set "changed" (Tuple [PyBool true; PyInt n])
                       (dict_set "schedules" (Rows (matching full rows))
                          result))),
               pushed
                 (sent (Scheduler.delete_schedule_config_query it self)
                    (table_put "scheduler"
                       (filter (fun r => negb (matches full r)) rows)
                       (tables w))
                    (asked (Scheduler.get_schedule_config_query it self)
                       w1)))
          else (Failed cardinality_error, w1)
        else
          (Exit_json
             (dict_set "msg"
                (Val (PyStr ("The schedule is already absent from the" +++
                             " memory configuration")))
                (dict_set "changed" py_False result)), w1)
    end.
Proof.
  intros Hit Hr. apply sched_ready_facts in Hr as (Hp & Hi & Hm & Hu).
  rewrite sched_run_sem by assumption. unfold sched_sem.
  rewrite Hp, Hi, Hm. cbn [negb admin_up record]. rewrite Hu.
  cbn [negb tables record asked sent with_tables].
  cbn [Scheduler.state Scheduler.init Scheduler.force_delete
       Scheduler.save_to_disk Scheduler.load_to_runtime Scheduler.filename].
  unfold sched_full_count.
  destruct (Scheduler.param_state p);
    destruct (count_of _ >? 0); cbn [negb]; try reflexivity.
  all: destruct (Scheduler.check_mode p); reflexivity.
Qed.

(** What the user module does once the checks have passed. *)
Lemma users_run_ready (it : list (string * pyval) -> list (string * pyval))
    (p : MysqlUsers.params) (w : world) :
  arrangement it ->
  users_ready p w = true ->
  MysqlUsers.run it p w
  = let self := MysqlUsers.init p in
    let result : dict :=
      [("state", Val (PyStr (state_str (MysqlUsers.param_state p))))] in
    let result :=
      if truthy (PyStr (MysqlUsers.param_username p))
      then dict_set "username" (Val (PyStr (MysqlUsers.param_username p)))
             result
      else result in
    let key := user_key_binding self in
    let full := user_full_binding it self in
    let rows := mysql_users (tables w) in
    let stored := user_stored it self (tables w) in
    let fetched rs :=
      fetchone {| rowcount := count_of rs; resultset := rs |} in
    let pushed :=
      propagate (MysqlUsers.param_save_to_disk p)
        (MysqlUsers.param_load_to_runtime p)
        "SAVE MYSQL USERS TO DISK" "LOAD MYSQL USERS TO RUNTIME" in
    let w0 := record Connect w in
    match MysqlUsers.param_state p with
    | present =>
        let w1 := asked (MysqlUsers.check_user_privs_query it self) w0 in
        if count_of (matching full rows) >? 0 then
          (Exit_json
             (dict_set "user" (fetched (matching key rows))
                (dict_set "msg"
                   (Val (PyStr ("The user already exists in mysql_users"
                                +++ " and doesn't need to be updated.")))
                   (dict_set "changed" py_False result))),
           asked (MysqlUsers.get_user_config_query self) w1)
        else
          let w2 :=
            asked (MysqlUsers.check_user_config_exists_query self) w1 in
          if count_of (matching key rows) >? 0 then
            if MysqlUsers.check_mode p then
              (Exit_json
                 (dict_set "msg"
                    (Val (PyStr ("User would have been updated in" +++
                                 " mysql_users, however check_mode" +++
                                 " is enabled.")))
                    (dict_set "changed" py_True result)), w2)
            else
              let rows' :=
                map (fun r =>
                       if matches key r
                       then assign (attr_binding (user_attrs it self)) r
                       else r) rows in
              (Exit_json
                 (dict_set "user" (fetched (matching key rows'))
                    (dict_set "msg"
                       (Val (PyStr "Updated user in mysql_users"))
                       (dict_set "changed" py_True result))),
               pushed
                 (asked (MysqlUsers.get_user_config_query self)
                    (sent (MysqlUsers.update_user_config_query it self)
                       (table_put "mysql_users" rows' (tables w)) w2)))
          else
            if MysqlUsers.check_mode p then
              (Exit_json
                 (dict_set "msg"
                    (Val (PyStr ("User would have been added to" +++
                                 " mysql_users, however check_mode" +++
                                 " is enabled.")))
                    (dict_set "changed" py_True result)), w2)
            else
              (Exit_json
                 (dict_set "user" (fetched (matching key (rows ++ [stored])))
                    (dict_set "msg" (Val (PyStr "Added user to mysql_users"))
                       (dict_set "changed" py_True result))),
               pushed
                 (asked (MysqlUsers.get_user_config_query self)
                    (sent (MysqlUsers.create_user_config_query it self)
                       (table_put "mysql_users" (rows ++ [stored])
                          (tables w))
                       w2)))
    | absent =>
        let w1 :=
          asked (MysqlUsers.check_user_config_exists_query self) w0 in
        if count_of (matching key rows) >? 0 then
          if MysqlUsers.check_mode p then
            (Exit_json
               (dict_set "msg"
                  (Val (PyStr ("User would have been deleted from" +++
                               " mysql_users, however check_mode is" +++
                               " enabled.")))
                  (dict_set "changed" py_True result)), w1)
          else
            (Exit_json
               (dict_set "msg" (Val (PyStr "Deleted user from mysql_users"))
                  (dict_set "changed" py_True
                     (dict_set "user" (fetched (matching key rows))
                        result))),
             pushed
               (sent (MysqlUsers.delete_user_config_query self)
                  (table_put "mysql_users"
                     (filter (fun r => negb (matches key r)) rows)
                     (tables w))
                  (asked (MysqlUsers.get_user_config_query self) w1)))
        else
          (Exit_json
             (dict_set "msg"
                (Val (PyStr ("The user is already absent from the" +++
                             " mysql_users memory configuration")))
                (dict_set "changed" py_False result)), w1)
    end.
Proof.
  intros Hit Hr. apply users_ready_facts in Hr as (Hp & Hm & Hu).
  rewrite users_run_sem by assumption. unfold users_sem.
  rewrite Hp, Hm. cbn [negb admin_up record]. rewrite Hu.
  cbn [negb tables record asked sent with_tables].
  cbn [MysqlUsers.state MysqlUsers.init MysqlUsers.username
       MysqlUsers.save_to_disk MysqlUsers.load_to_runtime].
  unfold user_full_count, user_key_count.
  destruct (MysqlUsers.param_state p);
    repeat match goal with
      | |- context [if ?c >? 0 then _ else _] => destruct (c >? 0)
      end;
    try reflexivity.
  all: destruct (MysqlUsers.check_mode p); reflexivity.
Qed.

(** What the global variables module does once the checks have passed. *)
Lemma gv_run_ready (p : GlobalVariables.params) (w : world) :
  gv_ready p w = true ->
  GlobalVariables.run p w
  = let variable := GlobalVariables.variable p in
    let value := GlobalVariables.value p in
    let rows := global_variables (tables w) in
    let found := gv_found variable (tables w) in
    let pushed :=
      propagate (GlobalVariables.save_to_disk p)
        (GlobalVariables.load_to_runtime p)
        (gv_save_cmd variable) (gv_load_cmd variable) in
    let w1 :=
      asked (GlobalVariables.get_config_query variable) (record Connect w) in
    if is_nil (matching (gv_key_binding variable) rows) then
      (Failed (GlobalVariables.not_found variable), w1)
    else if negb (truthy value) then
      (Exit_json
         (dict_set "var" found
            (dict_set "msg"
               (Val (PyStr "Returned the variable and it's current value"))
               (dict_set "changed" py_False []))),
       asked (GlobalVariables.get_config_query variable) w1)
    else
      let w2 :=
        asked (GlobalVariables.check_config_query variable value) w1 in
      if count_of (matching (gv_full_binding variable value) rows) >? 0 then
        (Exit_json
           (dict_set "var" found
              (dict_set "msg"
                 (Val (PyStr ("The variable is already been set to" +++
                              " the supplied value")))
                 (dict_set "changed" py_False []))),
         asked (GlobalVariables.get_config_query variable) w2)
      else if GlobalVariables.check_mode p then
        (Exit_json
           (dict_set "msg"
              (Val (PyStr ("Variable would have been set to" +++
                           " the supplied value, however" +++
                           " check_mode is enabled.")))
              (dict_set "changed" py_True [])), w2)
      else
        let rows' :=
          map (fun r =>
                 if matches (gv_key_binding variable) r
                 then assign [("variable_value", literal value)] r
                 else r) rows in
        let s' := table_put "global_variables" rows' (tables w) in
        (Exit_json
           (dict_set "var" (gv_found variable s')
              (dict_set "msg"
                 (Val (PyStr "Set the variable to the supplied value"))
                 (dict_set "changed" py_True []))),
         pushed
           (asked (GlobalVariables.get_config_query variable)
              (sent (GlobalVariables.set_config_query variable value) s'
                 w2))).
Proof.
  intros Hr. apply gv_ready_facts in Hr as (Hp & Hm & Hu).
  rewrite gv_run_sem. unfold gv_sem.
  rewrite Hp, Hm. cbn [negb admin_up record]. rewrite Hu.
  cbn [negb tables record asked sent with_tables].
  rewrite gv_found_truth.
  destruct (is_nil (matching (gv_key_binding (GlobalVariables.variable p))
                      (global_variables (tables w))));
    cbn [negb]; destruct (truthy (GlobalVariables.value p)); cbn [negb];
    try reflexivity.
  destruct (count_of _ >? 0); cbn [negb]; [reflexivity|].
  destruct (GlobalVariables.check_mode p); reflexivity.
Qed.

Lemma matching_narrows (b b' : binding) (rows : list row) :
  count_of (matching (b ++ b') rows) <= count_of (matching b rows).
Proof.
  unfold count_of, matching. apply Nat2Z.inj_le.
  induction rows as [|r rows IH]; cbn [filter]; [reflexivity|].
  rewrite matches_app.
  destruct (matches b r); cbn [andb length]; [|exact IH].
  destruct (matches b' r); cbn [length]; lia.
Qed.

(** C2.  Scheduler, "ensure absent", more than one row matching the
    whole predicate: without [force_delete] the run is rejected with the
    cardinality message having sent only the count (no delete, no
    propagation, tables untouched); with [force_delete] a live run
    removes every matching row, as the rule says, but what it reports
    under [changed] is the pair of [True] and the number of rows, not
    [True].  In the user module the predicate holds the key fields, so on
    a table that has at most one row for a key it never matches more than
    one row. *)
Theorem ambiguous_delete
    (it : list (string * pyval) -> list (string * pyval)) :
  arrangement it ->
  (forall p w,
      sched_ready p w = true ->
      Scheduler.param_state p = absent ->
      let self := Scheduler.init p in
      let full := sched_full_binding it self in
      let rows := scheduler (tables w) in
      let n := count_of (matching full rows) in
      1 < n ->
      (Scheduler.param_force_delete p = false ->
       Scheduler.run it p w
       = (Failed cardinality_error,
          asked (Scheduler.check_schedule_config_query it self)
            (record Connect w)))
      /\ (Scheduler.param_force_delete p = true ->
          Scheduler.check_mode p = false ->
          tables (snd (Scheduler.run it p w))
          = table_put "scheduler"
              (filter (fun r => negb (matches full r)) rows) (tables w)
          /\ matching full
               (scheduler (tables (snd (Scheduler.run it p w)))) = []
          /\ changed_of (fst (Scheduler.run it p w))
             = Some (Tuple [PyBool true; PyInt n])
          /\ changed_of (fst (Scheduler.run it p w)) <> Some py_True))
  /\ (forall p w,
         let self := MysqlUsers.init p in
         let rows := mysql_users (tables w) in
         count_of (matching (user_key_binding self) rows) <= 1 ->
         count_of (matching (user_full_binding it self) rows) <= 1).
Proof.
  intros Hit. split.
  - intros p w Hr Hst self full rows n Hn.
    rewrite (sched_run_ready it p w Hit Hr). cbv zeta.
    fold self. fold full. fold rows. fold n. rewrite Hst.
    assert (Hpos : (n >? 0) = true) by (apply Z.gtb_lt; lia).
    assert (Hone : (n =? 1) = false) by (apply Z.eqb_neq; lia).
    rewrite Hpos, Hone. cbn [orb].
    split.
    + intros ->. reflexivity.
    + intros -> ->. split; [|split; [|split]].
      * cbn [snd]. rewrite tables_propagate. reflexivity.
      * cbn [snd]. rewrite tables_propagate.
        cbn [tables sent with_tables].
        change (scheduler (table_put "scheduler" ?r ?s)) with r.
        apply filter_none_left.
      * changed_tac. reflexivity.
      * changed_tac. discriminate.
  - intros p w self rows Hkey.
    pose proof (matching_narrows (user_key_binding self)
                  (attr_binding (user_attrs it self)) rows) as Hle.
    unfold user_full_binding. lia.
Qed.

(** ** The decision for "ensure present" *)

Lemma count_pos_iff (rows : list row) :
  (count_of rows >? 0) = negb (is_nil rows).
Proof.
  unfold count_of. destruct rows; cbn [length is_nil negb]; [reflexivity|].
  apply Z.gtb_lt. lia.
Qed.

Lemma matching_weaken (b b' : binding) (rows : list row) :
  (count_of (matching (b ++ b') rows) >? 0) = true ->
  (count_of (matching b rows) >? 0) = true.
Proof.
  rewrite !count_pos_iff. unfold matching.
  induction rows as [|r rows IH]; cbn; [discriminate|].
  rewrite matches_app. destruct (matches b r); cbn; [reflexivity|].
  exact IH.
Qed.

(** Reads the action a result reports. *)
Ltac reported_tac :=
  unfold reported_action; cbn [field_of fst snd];
  repeat first
    [ rewrite dict_get_set_same
    | rewrite dict_get_set_other by reflexivity ];
  reflexivity.

(** Lists the mutating statements among the events sent. *)
Ltac written_tac :=
  repeat (cbn [app written];
          first
            [ rewrite kind_connect
            | rewrite kind_gv_get | rewrite kind_gv_check
            | rewrite kind_gv_set
            | rewrite kind_check_user_config_exists
            | rewrite kind_get_user_config
            | rewrite kind_delete_user_config
            | rewrite kind_check_user_privs by assumption
            | rewrite kind_create_user_config by assumption
            | rewrite kind_update_user_config by assumption
            | rewrite kind_check_schedule_config by assumption
            | rewrite kind_get_schedule_config by assumption
            | rewrite kind_create_schedule_config by assumption
            | rewrite kind_delete_schedule_config by assumption ]);
  cbn [app written].

Lemma written_app (evs evs' : list event) :
  written (evs ++ evs') = written evs ++ written evs'.
Proof.
  induction evs as [|e evs IH]; cbn; [reflexivity|].
  destruct (kind_of e); cbn; congruence.
Qed.

Lemma written_propagation (save load : bool) (save_cmd load_cmd : string) :
  kind_of (Execute save_cmd []) = Propagated ->
  kind_of (Execute load_cmd []) = Propagated ->
  written (propagation save load save_cmd load_cmd) = [].
Proof.
  intros Hs Hl. unfold propagation.
  destruct save, load; cbn [app written]; rewrite ?Hs, ?Hl;
    cbn [written]; rewrite ?Hs, ?Hl; reflexivity.
Qed.

(** Settles the two halves of a decision: the action reported and the
    mutating statements sent. *)
Ltac decided :=
  split;
  [ reported_tac
  | eexists; split;
    [ since_tac
    | rewrite ?written_app;
      rewrite ?written_propagation
        by first [ reflexivity | apply kind_gv_save | apply kind_gv_load ];
      written_tac; reflexivity ] ].

(** C1, as the code has it.  Once the checks have passed, with "ensure
    present": the user module creates when no row has the key, does
    nothing when a row matches the whole predicate, and updates
    otherwise; the scheduler does nothing when a row matches the whole
    predicate and creates otherwise, and never updates; the global
    variables module fails with the not-found message when no row has the
    name, does nothing when the value is the stored one, and updates
    otherwise, and never creates.  A live run sends the one mutating
    statement of the action, a check-mode run none. *)
Theorem present_decision
    (it : list (string * pyval) -> list (string * pyval)) :
  arrangement it ->
  (forall p w,
      users_ready p w = true ->
      MysqlUsers.param_state p = present ->
      let self := MysqlUsers.init p in
      let rows := mysql_users (tables w) in
      let key_exists := count_of (matching (user_key_binding self) rows) >? 0 in
      let matches_desired :=
        count_of (matching (user_full_binding it self) rows) >? 0 in
      let a := spec_present_action key_exists matches_desired in
      reported_action (fst (MysqlUsers.run it p w)) = Some a
      /\ exists evs,
          since w (snd (MysqlUsers.run it p w)) evs
          /\ written evs = statements_for (MysqlUsers.check_mode p) a)
  /\ (forall p w,
         sched_ready p w = true ->
         Scheduler.param_state p = present ->
         let self := Scheduler.init p in
         let rows := scheduler (tables w) in
         let matches_desired :=
           count_of (matching (sched_full_binding it self) rows) >? 0 in
         let a := if matches_desired then noop else create in
         reported_action (fst (Scheduler.run it p w)) = Some a
         /\ exists evs,
             since w (snd (Scheduler.run it p w)) evs
             /\ written evs = statements_for (Scheduler.check_mode p) a)
  /\ (forall p w,
         gv_ready p w = true ->
         truthy (GlobalVariables.value p) = true ->
         let variable := GlobalVariables.variable p in
         let value := GlobalVariables.value p in
         let rows := global_variables (tables w) in
         let key_exists :=
           count_of (matching (gv_key_binding variable) rows) >? 0 in
         let matches_desired :=
           count_of (matching (gv_full_binding variable value) rows) >? 0 in
         if key_exists then
           let a := if matches_desired then noop else update in
           reported_action (fst (GlobalVariables.run p w)) = Some a
           /\ exists evs,
               since w (snd (GlobalVariables.run p w)) evs
               /\ written evs
                  = statements_for (GlobalVariables.check_mode p) a
         else
           fst (GlobalVariables.run p w)
           = Failed (GlobalVariables.not_found variable)
           /\ tables (snd (GlobalVariables.run p w)) = tables w).
Proof.
  intros Hit. split; [|split].
  - intros p w Hr Hst self rows key_exists matches_desired a.
    pose proof (user_columns it p Hit) as Hcols. fold self in Hcols.
    rewrite (users_run_ready it p w Hit Hr). cbv zeta.
    fold self. fold rows. rewrite Hst.
    subst a. unfold spec_present_action.
    destruct matches_desired eqn:Hfull; subst matches_desired;
      unfold user_full_binding in *; rewrite Hfull.
    + apply matching_weaken in Hfull. subst key_exists. rewrite Hfull.
      cbn [negb]. destruct (MysqlUsers.check_mode p); decided.
    + destruct key_exists eqn:Hkey; subst key_exists; rewrite Hkey;
        cbn [negb].
      * assert (Hne : present_cols (user_attrs it self) <> []).
        { intros E. unfold attr_binding in Hfull. rewrite E in Hfull.
          cbn [combine] in Hfull. rewrite app_nil_r in Hfull.
          fold rows in Hkey. congruence. }
        destruct (MysqlUsers.check_mode p); decided.
      * destruct (MysqlUsers.check_mode p); decided.
  - intros p w Hr Hst self rows matches_desired a.
    pose proof (sched_columns it p Hit) as Hcols. fold self in Hcols.
    rewrite (sched_run_ready it p w Hit Hr). cbv zeta.
    fold self. fold rows. rewrite Hst. subst a.
    destruct matches_desired eqn:Hfull; subst matches_desired;
      rewrite Hfull; destruct (Scheduler.check_mode p); decided.
  - intros p w Hr Hv variable value rows key_exists matches_desired.
    rewrite (gv_run_ready p w Hr). cbv zeta. rewrite Hv.
    fold variable. fold value. fold rows. cbn [negb].
    subst key_exists. rewrite count_pos_iff.
    destruct (is_nil (matching (gv_key_binding variable) rows));
      cbn [negb]; [split; reflexivity|].
    destruct matches_desired eqn:Hfull; subst matches_desired;
      rewrite Hfull; destruct (GlobalVariables.check_mode p); decided.
Qed.

(** C1, counterexample.  A stored schedule with the key of the desired
    one and another comment: the specification's rule says update, the
    scheduler creates a second row.  A variable that is not stored: the
    rule says create, the module fails with the not-found message. *)
Lemma present_differs_by_family :
  (spec_present_action
     (count_of (matching (sched_key_binding (Scheduler.init add_new_schedule))
                  (scheduler (tables old_schedule))) >? 0)
     (count_of (matching
                  (sched_full_binding in_order
                     (Scheduler.init add_new_schedule))
                  (scheduler (tables old_schedule))) >? 0)
   = update
   /\ reported_action (fst (Scheduler.run in_order add_new_schedule
                              old_schedule))
      = Some create
   /\ scheduler (tables (snd (Scheduler.run in_order add_new_schedule
                                old_schedule)))
      = [schedule_row "old"; schedule_row "new"])
  /\ (spec_present_action
        (count_of (matching (gv_key_binding max_connections)
                     (global_variables (tables no_variables))) >? 0)
        false
      = create
      /\ fst (GlobalVariables.run set_max_connections no_variables)
         = Failed (GlobalVariables.not_found max_connections)
      /\ global_variables
           (tables (snd (GlobalVariables.run set_max_connections
                           no_variables)))
         = []).
Proof. repeat split; vm_compute; reflexivity. Qed.

(** ** Cells after a write *)

Lemma sql_eq_refl (v : sqlval) : v <> SqlNull -> sql_eq v v = true.
Proof.
  destruct v; cbn; intros H; [congruence| |].
  - apply Z.eqb_refl.
  - apply String.eqb_refl.
Qed.

Lemma literal_not_null (v : pyval) :
  is_not_None v = true -> literal v <> SqlNull.
Proof. destruct v; cbn; intros H; discriminate. Qed.

Lemma cell_set_same (c : string) (v : sqlval) (r : row) :
  cell c (set_cell c v r) = v.
Proof.
  induction r as [|[c' v'] r IH]; cbn.
  - now rewrite String.eqb_refl.
  - destruct (String.eqb c c') eqn:E; cbn.
    + now rewrite String.eqb_refl.
    + now rewrite E.
Qed.

Lemma cell_set_other (c c' : string) (v : sqlval) (r : row) :
  c <> c' -> cell c (set_cell c' v r) = cell c r.
Proof.
  intros Hne. apply String.eqb_neq in Hne.
  induction r as [|[c'' v''] r IH]; cbn.
  - now rewrite Hne.
  - destruct (String.eqb c' c'') eqn:E; cbn.
    + apply String.eqb_eq in E. subst c''. now rewrite Hne.
    + now rewrite IH.
Qed.

Lemma cell_assign_other (c : string) (b : binding) (r : row) :
  ~ In c (map fst b) -> cell c (assign b r) = cell c r.
Proof.
  unfold assign. revert r. induction b as [|[c' v'] b IH]; intros r Hn.
  - reflexivity.
  - cbn [fold_left fst snd]. rewrite IH.
    + apply cell_set_other. intros ->. apply Hn. now left.
    + intros Hin. apply Hn. now right.
Qed.

Lemma cell_assign_in (c : string) (v : sqlval) (b : binding) (r : row) :
  NoDup (map fst b) -> In (c, v) b -> cell c (assign b r) = v.
Proof.
  unfold assign. revert r. induction b as [|[c' v'] b IH]; intros r Hd Hin.
  - destruct Hin.
  - cbn [map fst] in Hd. inversion Hd as [|? ? Hn Hd']; subst.
    cbn [fold_left fst snd]. destruct Hin as [E|Hin].
    + injection E as -> ->.
      change (fold_left (fun r0 cv => set_cell (fst cv) (snd cv) r0) b
                (set_cell c v r))
        with (assign b (set_cell c v r)).
      rewrite cell_assign_other by assumption. apply cell_set_same.
    + now apply IH.
Qed.

Lemma cell_in (c : string) (v : sqlval) (b : binding) :
  NoDup (map fst b) -> In (c, v) b -> cell c b = v.
Proof.
  induction b as [|[c' v'] b IH]; intros Hd Hin; [destruct Hin|].
  cbn [map fst] in Hd. inversion Hd as [|? ? Hn Hd']; subst.
  cbn [cell]. destruct Hin as [E|Hin].
  - injection E as -> ->. now rewrite String.eqb_refl.
  - destruct (String.eqb c c') eqn:E; [|now apply IH].
    apply String.eqb_eq in E. subst c'. elim Hn.
    now apply (in_map fst) in Hin.
Qed.

Lemma matches_cells (b : binding) (r : row) :
  defined b ->
  (forall c v, In (c, v) b -> cell c r = v) ->
  matches b r = true.
Proof.
  intros Hd Hc. unfold matches. apply forallb_forall. intros [c v] Hin.
  cbn [fst snd]. rewrite (Hc c v Hin). apply sql_eq_refl.
  unfold defined in Hd. rewrite Forall_forall in Hd. exact (Hd _ Hin).
Qed.

Lemma matches_same_cells (b : binding) (r r' : row) :
  (forall c, In c (map fst b) -> cell c r' = cell c r) ->
  matches b r' = matches b r.
Proof.
  intros H. unfold matches. induction b as [|[c v] b IH]; [reflexivity|].
  cbn [forallb fst snd]. rewrite H by now left. f_equal.
  apply IH. intros c' Hin. apply H. now right.
Qed.

Lemma attr_binding_defined (items : list (string * pyval)) :
  defined (attr_binding items).
Proof.
  rewrite attr_binding_map. unfold defined, present_items.
  apply Forall_forall. intros [c v] Hin.
  apply in_map_iff in Hin as [[c' v'] [E Hin]]. injection E as <- <-.
  apply filter_In in Hin as [_ Hv]. now apply literal_not_null.
Qed.

Lemma attr_binding_cols (items : list (string * pyval)) :
  map fst (attr_binding items) = present_cols items.
Proof.
  rewrite attr_binding_map. unfold present_cols. rewrite map_map.
  reflexivity.
Qed.

(** A row written from a binding satisfies it. *)
Lemma matches_inserted (b : binding) :
  NoDup (map fst b) -> defined b -> matches b b = true.
Proof.
  intros Hn Hd. apply matches_cells; [assumption|].
  intros c v. now apply cell_in.
Qed.

(** A row of the key, once the attributes are assigned, satisfies the
    key and the attributes. *)
Lemma matches_assigned (key attrs : binding) (r : row) :
  NoDup (map fst attrs) ->
  defined attrs ->
  (forall c, In c (map fst key) -> ~ In c (map fst attrs)) ->
  matches key r = true ->
  matches (key ++ attrs) (assign attrs r) = true.
Proof.
  intros Hn Hd Hdis Hk. rewrite matches_app. apply andb_true_intro. split.
  - rewrite <- Hk. apply matches_same_cells. intros c Hin.
    apply cell_assign_other. now apply Hdis.
  - apply matches_cells; [assumption|].
    intros c v Hin. now apply cell_assign_in.
Qed.

Lemma matching_snoc (b : binding) (rows : list row) (r : row) :
  matches b r = true ->
  (count_of (matching b (rows ++ [r])) >? 0) = true.
Proof.
  intros H. rewrite count_pos_iff. unfold matching. rewrite filter_app.
  cbn [filter]. rewrite H. now destruct (filter (matches b) rows).
Qed.

Lemma matching_updated (key attrs : binding) (rows : list row) :
  NoDup (map fst attrs) ->
  defined attrs ->
  (forall c, In c (map fst key) -> ~ In c (map fst attrs)) ->
  (count_of (matching key rows) >? 0) = true ->
  (count_of
     (matching (key ++ attrs)
        (map (fun r => if matches key r then assign attrs r else r) rows))
   >? 0) = true.
Proof.
  intros Hn Hd Hdis. rewrite !count_pos_iff. unfold matching.
  induction rows as [|r rows IH]; cbn [filter map]; [discriminate|].
  destruct (matches key r) eqn:Hk.
  - intros _. now rewrite matches_assigned.
  - intros H. destruct (matches (key ++ attrs) r); [reflexivity|].
    now apply IH.
Qed.

(** ** Running the same request twice *)

Lemma propagate_env (save load : bool) (save_cmd load_cmd : string)
    (w : world) :
  mysqldb_found (propagate save load save_cmd load_cmd w) = mysqldb_found w
  /\ admin_up (propagate save load save_cmd load_cmd w) = admin_up w.
Proof. unfold propagate. destruct save, load; split; reflexivity. Qed.

Lemma user_keys_fresh (it : list (string * pyval) -> list (string * pyval))
    (p : MysqlUsers.params) (c : string) :
  arrangement it ->
  In c (map fst (user_key_binding (MysqlUsers.init p))) ->
  ~ In c (map fst (attr_binding (user_attrs it (MysqlUsers.init p)))).
Proof.
  intros Hit Hin Hc. rewrite attr_binding_cols in Hc.
  apply (present_cols_subset it _ c Hit) in Hc.
  cbn in Hin, Hc.
  repeat match goal with
    | H : _ \/ _ |- _ => destruct H as [H|H]
    | H : False |- _ => destruct H
    end; subst; discriminate.
Qed.

Lemma user_attrs_nodup (it : list (string * pyval) -> list (string * pyval))
    (p : MysqlUsers.params) :
  arrangement it ->
  NoDup (map fst (attr_binding (user_attrs it (MysqlUsers.init p)))).
Proof.
  intros Hit. rewrite attr_binding_cols.
  apply present_cols_nodup; [assumption|].
  cbn. repeat constructor; cbn; intuition discriminate.
Qed.

Lemma user_key_defined (self : MysqlUsers.ProxySQLUser) :
  defined (user_key_binding self).
Proof.
  unfold defined, user_key_binding. cbn.
  repeat constructor; cbn; try discriminate.
Qed.

Lemma user_full_inserted
    (it : list (string * pyval) -> list (string * pyval))
    (p : MysqlUsers.params) :
  arrangement it ->
  let full := user_full_binding it (MysqlUsers.init p) in
  matches full full = true.
Proof.
  intros Hit full. apply matches_inserted.
  - unfold full, user_full_binding. rewrite map_app.
    apply NoDup_app.
    + cbn. repeat constructor; cbn; intuition discriminate.
    + now apply user_attrs_nodup.
    + intros c Hin. now apply user_keys_fresh.
  - unfold full, user_full_binding, defined. apply Forall_app. split.
    + apply user_key_defined.
    + apply attr_binding_defined.
Qed.

Lemma user_full_stored
    (it : list (string * pyval) -> list (string * pyval))
    (p : MysqlUsers.params) (s : store) :
  arrangement it ->
  matches (user_full_binding it (MysqlUsers.init p))
    (user_stored it (MysqlUsers.init p) s) = true.
Proof.
  intros Hit. unfold user_stored.
  rewrite matches_stored by apply incl_refl.
  now apply user_full_inserted.
Qed.

Lemma users_twice (it : list (string * pyval) -> list (string * pyval))
    (p : MysqlUsers.params) (w : world) :
  arrangement it ->
  users_ready p w = true ->
  MysqlUsers.param_state p = present ->
  MysqlUsers.check_mode p = false ->
  let self := MysqlUsers.init p in
  (count_of (matching (user_full_binding it self) (mysql_users (tables w)))
   >? 0) = false ->
  let r1 := MysqlUsers.run it p w in
  let r2 := MysqlUsers.run it p (snd r1) in
  changed_of (fst r1) = Some py_True
  /\ changed_of (fst r2) = Some py_False
  /\ tables (snd r2) = tables (snd r1)
  /\ field_of "user" (fst r2) = field_of "user" (fst r1)
  /\ reported_action (fst r2) = Some noop.
Proof.
  intros Hit Hr Hst Hlive self Hfull r1 r2.
  set (key := user_key_binding self).
  set (full := user_full_binding it self) in *.
  set (rows := mysql_users (tables w)) in *.
  set (rows1 :=
         if count_of (matching key rows) >? 0
         then map (fun r => if matches key r
                            then assign (attr_binding (user_attrs it self)) r
                            else r) rows
         else rows ++ [user_stored it self (tables w)]).
  assert (H1 : exists o1 w1,
             r1 = (o1, w1)
             /\ changed_of o1 = Some py_True
             /\ field_of "user" o1
                = Some (fetchone {| rowcount := count_of (matching key rows1);
                                    resultset := matching key rows1 |})
             /\ tables w1 = table_put "mysql_users" rows1 (tables w)
             /\ mysqldb_found w1 = mysqldb_found w
             /\ admin_up w1 = admin_up w).
  { unfold r1. rewrite (users_run_ready it p w Hit Hr). cbv zeta.
    fold self. fold key. fold full. fold rows.
    rewrite Hst, Hfull, Hlive. unfold rows1.
    destruct (count_of (matching key rows) >? 0);
      eexists; eexists; (split; [reflexivity|]);
      (split; [changed_tac; reflexivity|]);
      (split; [changed_tac; reflexivity|]);
      rewrite tables_propagate;
      (split; [reflexivity|]);
      (split;
       [rewrite (proj1 (propagate_env _ _ _ _ _))
       |rewrite (proj2 (propagate_env _ _ _ _ _))]; reflexivity). }
  destruct H1 as (o1 & w1 & E1 & Hc1 & Hu1 & Ht1 & Hm1 & Ha1).
  assert (Hr1 : users_ready p w1 = true).
  { unfold users_ready in *. now rewrite Hm1, Ha1. }
  assert (Hrows1 : mysql_users (tables w1) = rows1) by now rewrite Ht1.
  assert (Hfull1 : (count_of (matching full rows1) >? 0) = true).
  { unfold rows1. destruct (count_of (matching key rows) >? 0) eqn:Hkey.
    - apply matching_updated; try assumption.
      + now apply user_attrs_nodup.
      + apply attr_binding_defined.
      + intros c. now apply user_keys_fresh.
    - apply matching_snoc. now apply user_full_stored. }
  unfold r2. rewrite E1. cbn [fst snd].
  rewrite (users_run_ready it p w1 Hit Hr1). cbv zeta.
  fold self. fold key. fold full. rewrite Hrows1, Hst, Hfull1.
  repeat split; try assumption.
  all: try (changed_tac; reflexivity).
  all: try (rewrite Hu1; changed_tac; reflexivity).
  all: reported_tac.
Qed.

Lemma sched_keys_fresh (it : list (string * pyval) -> list (string * pyval))
    (p : Scheduler.params) (c : string) :
  arrangement it ->
  In c (map fst (sched_key_binding (Scheduler.init p))) ->
  ~ In c (map fst (attr_binding (sched_attrs it (Scheduler.init p)))).
Proof.
  intros Hit Hin Hc. rewrite attr_binding_cols in Hc.
  apply (present_cols_subset it _ c Hit) in Hc.
  cbn in Hin, Hc.
  repeat match goal with
    | H : _ \/ _ |- _ => destruct H as [H|H]
    | H : False |- _ => destruct H
    end; subst; discriminate.
Qed.

Lemma sched_full_inserted
    (it : list (string * pyval) -> list (string * pyval))
    (p : Scheduler.params) :
  arrangement it ->
  let full := sched_full_binding it (Scheduler.init p) in
  matches full full = true.
Proof.
  intros Hit full. apply matches_inserted.
  - unfold full, sched_full_binding. rewrite map_app.
    apply NoDup_app.
    + cbn. repeat constructor; cbn; intuition discriminate.
    + rewrite attr_binding_cols. apply present_cols_nodup; [assumption|].
      cbn. repeat constructor; cbn; intuition discriminate.
    + intros c Hin. now apply sched_keys_fresh.
  - unfold full, sched_full_binding, defined. apply Forall_app. split.
    + unfold sched_key_binding. cbn.
      repeat constructor; cbn; discriminate.
    + apply attr_binding_defined.
Qed.

Lemma sched_full_stored
    (it : list (string * pyval) -> list (string * pyval))
    (p : Scheduler.params) (s : store) :
  arrangement it ->
  matches (sched_full_binding it (Scheduler.init p))
    (sched_stored it (Scheduler.init p) s) = true.
Proof.
  intros Hit. unfold sched_stored.
  rewrite matches_stored by apply incl_refl.
  now apply sched_full_inserted.
Qed.

Lemma sched_twice (it : list (string * pyval) -> list (string * pyval))
    (p : Scheduler.params) (w : world) :
  arrangement it ->
  sched_ready p w = true ->
  Scheduler.param_state p = present ->
  Scheduler.check_mode p = false ->
  let self := Scheduler.init p in
  (count_of (matching (sched_full_binding it self) (scheduler (tables w)))
   >? 0) = false ->
  let r1 := Scheduler.run it p w in
  let r2 := Scheduler.run it p (snd r1) in
  changed_of (fst r1) = Some py_True
  /\ changed_of (fst r2) = Some py_False
  /\ tables (snd r2) = tables (snd r1)
  /\ field_of "schedules" (fst r2) = field_of "schedules" (fst r1)
  /\ reported_action (fst r2) = Some noop.
Proof.
  intros Hit Hr Hst Hlive self Hfull r1 r2.
  set (full := sched_full_binding it self) in *.
  set (rows := scheduler (tables w)) in *.
  set (stored := sched_stored it self (tables w)).
  assert (H1 : exists o1 w1,
             r1 = (o1, w1)
             /\ changed_of o1 = Some py_True
             /\ field_of "schedules" o1
                = Some (Rows (matching full (rows ++ [stored])))
             /\ tables w1
                = table_put "scheduler" (rows ++ [stored]) (tables w)
             /\ mysqldb_found w1 = mysqldb_found w
             /\ admin_up w1 = admin_up w).
  { unfold r1. rewrite (sched_run_ready it p w Hit Hr). cbv zeta.
    fold self. fold full. fold rows. rewrite Hst, Hfull, Hlive.
    eexists; eexists; (split; [reflexivity|]);
      (split; [changed_tac; reflexivity|]);
      (split; [changed_tac; reflexivity|]);
      rewrite tables_propagate;
      (split; [reflexivity|]);
      (split;
       [rewrite (proj1 (propagate_env _ _ _ _ _))
       |rewrite (proj2 (propagate_env _ _ _ _ _))]; reflexivity). }
  destruct H1 as (o1 & w1 & E1 & Hc1 & Hu1 & Ht1 & Hm1 & Ha1).
  assert (Hr1 : sched_ready p w1 = true).
  { unfold sched_ready in *. now rewrite Hm1, Ha1. }
  assert (Hrows1 : scheduler (tables w1) = rows ++ [stored])
    by now rewrite Ht1.
  assert (Hfull1 : (count_of (matching full (rows ++ [stored])) >? 0) = true).
  { apply matching_snoc. now apply sched_full_stored. }
  unfold r2. rewrite E1. cbn [fst snd].
  rewrite (sched_run_ready it p w1 Hit Hr1). cbv zeta.
  fold self. fold full. rewrite Hrows1, Hst, Hfull1.
  repeat split; try assumption.
  all: try (changed_tac; reflexivity).
  all: try (rewrite Hu1; changed_tac; reflexivity).
  all: reported_tac.
Qed.

Lemma truthy_not_None (v : pyval) : truthy v = true -> is_not_None v = true.
Proof. destruct v; cbn; intros H; congruence. Qed.

Lemma updated_rows_cell (key attrs : binding) (rows : list row)
    (c : string) (v : sqlval) :
  NoDup (map fst attrs) ->
  In (c, v) attrs ->
  (forall k, In k (map fst key) -> ~ In k (map fst attrs)) ->
  Forall (fun r => cell c r = v)
    (matching key
       (map (fun r => if matches key r then assign attrs r else r) rows)).
Proof.
  intros Hn Hin Hdis. unfold matching.
  induction rows as [|r rows IH]; cbn [map filter]; [constructor|].
  destruct (matches key r) eqn:Hk.
  - replace (matches key (assign attrs r)) with true.
    + constructor; [now apply cell_assign_in | assumption].
    + symmetry. rewrite <- Hk. apply matches_same_cells.
      intros k Hkin. apply cell_assign_other. now apply Hdis.
  - now rewrite Hk.
Qed.

Lemma gv_twice (p : GlobalVariables.params) (w : world) :
  gv_ready p w = true ->
  truthy (GlobalVariables.value p) = true ->
  GlobalVariables.check_mode p = false ->
  let variable := GlobalVariables.variable p in
  let value := GlobalVariables.value p in
  let rows := global_variables (tables w) in
  is_nil (matching (gv_key_binding variable) rows) = false ->
  (count_of (matching (gv_full_binding variable value) rows) >? 0) = false ->
  let r1 := GlobalVariables.run p w in
  let r2 := GlobalVariables.run p (snd r1) in
  changed_of (fst r1) = Some py_True
  /\ reported_action (fst r1) = Some update
  /\ (exists r, field_of "var" (fst r1) = Some (Dict r)
                /\ cell "variable_name" r = SqlText variable
                /\ cell "variable_value" r = literal value)
  /\ changed_of (fst r2) = Some py_False
  /\ reported_action (fst r2) = Some noop
  /\ tables (snd r2) = tables (snd r1)
  /\ field_of "var" (fst r2) = field_of "var" (fst r1).
Proof.
  intros Hr Hv Hlive variable value rows Hkey Hfull r1 r2.
  set (key := gv_key_binding variable) in *.
  set (attrs := [("variable_value", literal value)]).
  set (rows1 :=
         map (fun r => if matches key r then assign attrs r else r) rows).
  set (s1 := table_put "global_variables" rows1 (tables w)).
  assert (Hdis : forall k, In k (map fst key) -> ~ In k (map fst attrs)).
  { intros k [<-|[]] [E|[]]. discriminate. }
  assert (Hnd : NoDup (map fst attrs)) by (repeat constructor; intros []).
  assert (Hdef : defined attrs).
  { repeat constructor. cbn. now apply literal_not_null, truthy_not_None. }
  assert (Hfull1 : (count_of (matching (gv_full_binding variable value) rows1)
                    >? 0) = true).
  { apply (matching_updated key attrs rows Hnd Hdef Hdis).
    now rewrite count_pos_iff, Hkey. }
  assert (Hkey1 : is_nil (matching key rows1) = false).
  { apply (matching_weaken key attrs) in Hfull1.
    rewrite count_pos_iff in Hfull1. now apply negb_true_iff in Hfull1. }
  assert (H1 : exists w1,
             r1 = (Exit_json
                     (dict_set "var" (gv_found variable s1)
                        (dict_set "msg"
                           (Val (PyStr "Set the variable to the supplied value"))
                           (dict_set "changed" py_True []))), w1)
             /\ tables w1 = s1
             /\ mysqldb_found w1 = mysqldb_found w
             /\ admin_up w1 = admin_up w).
  { unfold r1. rewrite (gv_run_ready p w Hr). cbv zeta. rewrite Hv.
    fold variable. fold value. fold rows. fold key.
    rewrite Hkey, Hfull, Hlive. cbn [negb].
    eexists. split; [reflexivity|].
    rewrite tables_propagate. split; [reflexivity|].
    split;
      [rewrite (proj1 (propagate_env _ _ _ _ _))
      |rewrite (proj2 (propagate_env _ _ _ _ _))]; reflexivity. }
  destruct H1 as (w1 & E1 & Ht1 & Hm1 & Ha1).
  assert (Hr1 : gv_ready p w1 = true).
  { unfold gv_ready in *. now rewrite Hm1, Ha1. }
  assert (Hrows1 : global_variables (tables w1) = rows1) by now rewrite Ht1.
  assert (Hvar : exists r, gv_found variable s1 = Dict r
                           /\ cell "variable_name" r = SqlText variable
                           /\ cell "variable_value" r = literal value).
  { unfold gv_found, s1.
    change (global_variables (table_put "global_variables" rows1 (tables w)))
      with rows1.
    fold key.
    pose proof (updated_rows_cell key attrs rows "variable_value"
                  (literal value) Hnd (or_introl eq_refl) Hdis) as Hall.
    fold rows1 in Hall.
    destruct (matching key rows1) as [|r rest] eqn:Em; [discriminate|].
    exists r. split; [reflexivity|]. split.
    - apply matching_head in Em. unfold key, gv_key_binding, matches in Em.
      cbn in Em. rewrite andb_true_r in Em.
      destruct (cell "variable_name" r); cbn in Em; try discriminate.
      apply String.eqb_eq in Em. now subst.
    - now inversion Hall. }
  unfold r2. rewrite E1. cbn [fst snd].
  rewrite (gv_run_ready p w1 Hr1). cbv zeta. rewrite Hv.
  fold variable. fold value. rewrite Hrows1. fold key.
  rewrite Hkey1, Hfull1. cbn [negb]. rewrite Ht1.
  split; [changed_tac; reflexivity|].
  split; [reported_tac|].
  split.
  { destruct Hvar as (r & Er & Hn & Hval). exists r.
    changed_tac. rewrite Er. auto. }
  split; [changed_tac; reflexivity|].
  split; [reported_tac|].
  split; [exact Ht1|].
  changed_tac. reflexivity.
Qed.

Lemma gv_unknown_twice (p : GlobalVariables.params) (w : world) :
  gv_ready p w = true ->
  let variable := GlobalVariables.variable p in
  is_nil (matching (gv_key_binding variable) (global_variables (tables w)))
  = true ->
  let r1 := GlobalVariables.run p w in
  let r2 := GlobalVariables.run p (snd r1) in
  fst r1 = Failed (GlobalVariables.not_found variable)
  /\ fst r2 = Failed (GlobalVariables.not_found variable)
  /\ changed_of (fst r1) = None
  /\ tables (snd r1) = tables w
  /\ tables (snd r2) = tables w.
Proof.
  intros Hr variable Hnil r1 r2.
  assert (E1 : r1 = (Failed (GlobalVariables.not_found variable),
                     asked (GlobalVariables.get_config_query variable)
                       (record Connect w))).
  { unfold r1. rewrite (gv_run_ready p w Hr). cbv zeta.
    fold variable. now rewrite Hnil. }
  assert (Hr1 : gv_ready p (snd r1) = true) by (rewrite E1; exact Hr).
  assert (E2 : fst r2 = Failed (GlobalVariables.not_found variable)
               /\ tables (snd r2) = tables w).
  { unfold r2. rewrite (gv_run_ready p (snd r1) Hr1). cbv zeta.
    fold variable. rewrite E1. cbn [snd tables asked sent with_tables record].
    rewrite Hnil. split; reflexivity. }
  rewrite E1. cbn [fst snd]. destruct E2 as [E2 T2].
  repeat split; assumption || reflexivity.
Qed.

(** C3, as the code has it.  A live "ensure present" run on a store that
    does not yet match the request, followed by the same run on the store
    it left: for a user, a schedule and a global variable that is stored,
    the first reports [changed = True], the second [changed = False] and
    the noop message, the second leaves the tables as the first left
    them, and both return the same record; for the stored variable the
    first run is an update and returns the row with the new value.  For
    a global variable that is not stored, both runs fail with the
    not-found message, report no [changed] and leave the tables as they
    were. *)
Theorem present_twice
    (it : list (string * pyval) -> list (string * pyval)) :
  arrangement it ->
  (forall p w,
      users_ready p w = true ->
      MysqlUsers.param_state p = present ->
      MysqlUsers.check_mode p = false ->
      (count_of (matching (user_full_binding it (MysqlUsers.init p))
                   (mysql_users (tables w))) >? 0) = false ->
      let r1 := MysqlUsers.run it p w in
      let r2 := MysqlUsers.run it p (snd r1) in
      changed_of (fst r1) = Some py_True
      /\ changed_of (fst r2) = Some py_False
      /\ tables (snd r2) = tables (snd r1)
      /\ field_of "user" (fst r2) = field_of "user" (fst r1)
      /\ reported_action (fst r2) = Some noop)
  /\ (forall p w,
         sched_ready p w = true ->
         Scheduler.param_state p = present ->
         Scheduler.check_mode p = false ->
         (count_of (matching (sched_full_binding it (Scheduler.init p))
                      (scheduler (tables w))) >? 0) = false ->
         let r1 := Scheduler.run it p w in
         let r2 := Scheduler.run it p (snd r1) in
         changed_of (fst r1) = Some py_True
         /\ changed_of (fst r2) = Some py_False
         /\ tables (snd r2) = tables (snd r1)
         /\ field_of "schedules" (fst r2) = field_of "schedules" (fst r1)
         /\ reported_action (fst r2) = Some noop)
  /\ (forall p w,
         gv_ready p w = true ->
         truthy (GlobalVariables.value p) = true ->
         GlobalVariables.check_mode p = false ->
         let variable := GlobalVariables.variable p in
         let value := GlobalVariables.value p in
         let rows := global_variables (tables w) in
         is_nil (matching (gv_key_binding variable) rows) = false ->
         (count_of (matching (gv_full_binding variable value) rows) >? 0)
         = false ->
         let r1 := GlobalVariables.run p w in
         let r2 := GlobalVariables.run p (snd r1) in
         changed_of (fst r1) = Some py_True
         /\ reported_action (fst r1) = Some update
         /\ (exists r, field_of "var" (fst r1) = Some (Dict r)
                       /\ cell "variable_name" r = SqlText variable
                       /\ cell "variable_value" r = literal value)
         /\ changed_of (fst r2) = Some py_False
         /\ reported_action (fst r2) = Some noop
         /\ tables (snd r2) = tables (snd r1)
         /\ field_of "var" (fst r2) = field_of "var" (fst r1))
  /\ (forall p w,
         gv_ready p w = true ->
         let variable := GlobalVariables.variable p in
         is_nil (matching (gv_key_binding variable)
                   (global_variables (tables w))) = true ->
         let r1 := GlobalVariables.run p w in
         let r2 := GlobalVariables.run p (snd r1) in
         fst r1 = Failed (GlobalVariables.not_found variable)
         /\ fst r2 = Failed (GlobalVariables.not_found variable)
         /\ changed_of (fst r1) = None
         /\ tables (snd r1) = tables w
         /\ tables (snd r2) = tables w).
Proof.
  intros Hit. split; [|split; [|split]].
  - intros p w. now apply users_twice.
  - intros p w. now apply sched_twice.
  - intros p w. apply gv_twice.
  - intros p w Hr. now apply gv_unknown_twice.
Qed.

(** C3, counterexample.  [mysql-max_connections] is wanted as 4096 and is
    not stored: the first run does not report [changed = True], it fails
    with the not-found message, and so does the second; nothing is
    stored by either. *)
Lemma unknown_variable_fails_twice :
  fst (GlobalVariables.run set_max_connections no_variables)
  = Failed (GlobalVariables.not_found max_connections)
  /\ changed_of (fst (GlobalVariables.run set_max_connections no_variables))
     <> Some py_True
  /\ fst (GlobalVariables.run set_max_connections
            (snd (GlobalVariables.run set_max_connections no_variables)))
     = Failed (GlobalVariables.not_found max_connections)
  /\ global_variables
       (tables (snd (GlobalVariables.run set_max_connections
                       (snd (GlobalVariables.run set_max_connections
                               no_variables)))))
     = [].
Proof.
  split; [vm_compute; reflexivity|].
  split; [vm_compute; discriminate|].
  split; vm_compute; reflexivity.
Qed.

(** * Further properties of the four modules *)

(** ** The checks and the connection *)

Lemma port_ok_true (port : Z) : port_ok port = true <-> 0 <= port <= 65535.
Proof.
  unfold port_ok. rewrite negb_true_iff, orb_false_iff.
  rewrite Z.ltb_ge, Z.gtb_ltb, Z.ltb_ge. reflexivity.
Qed.

Lemma port_ok_false (port : Z) :
  port_ok port = false <-> port < 0 \/ 65535 < port.
Proof.
  unfold port_ok. rewrite negb_false_iff, orb_true_iff.
  rewrite Z.ltb_lt, Z.gtb_ltb, Z.ltb_lt. reflexivity.
Qed.

(** Every way a run of the bulk transfer module can end. *)
Lemma transfer_run_cases (p : ManageConfig.params) (w : world) :
  port_ok (ManageConfig.login_port p) = true ->
  ManageConfig.run p w
  = match ManageConfig.param_config_layer p with
    | Some ManageConfig.CONFIG =>
        match ManageConfig.param_action p, ManageConfig.param_direction p with
        | ManageConfig.LOAD, ManageConfig.FROM =>
            if negb (mysqldb_found w) then (Failed driver_message, w)
            else if negb (admin_up w)
                 then (Failed connect_failure, record Connect w)
                 else
                   match ManageConfig.param_config_settings p with
                   | Some s =>
                       (Exit_json [("changed", py_True)],
                        asked (transfer_command ManageConfig.LOAD s
                                 ManageConfig.FROM ManageConfig.CONFIG, [])
                          (record Connect w))
                   | None => (Traceback "TypeError", record Connect w)
                   end
        | a, d => (Failed (config_layer_message a d), w)
        end
    | l =>
        if negb (mysqldb_found w) then (Failed driver_message, w)
        else if negb (admin_up w)
             then (Failed connect_failure, record Connect w)
             else
               match ManageConfig.param_config_settings p, l with
               | Some s, Some l =>
                   (Exit_json [("changed", py_True)],
                    asked (transfer_command (ManageConfig.param_action p) s
                             (ManageConfig.param_direction p) l, [])
                      (record Connect w))
               | _, _ => (Traceback "TypeError", record Connect w)
               end
    end.
Proof.
  intros Hport. unfold port_ok in Hport. apply negb_true_iff in Hport.
  unfold ManageConfig.run, ManageConfig.main, ManageConfig.perform_checks,
    mysql_connect, ManageConfig.config_layer, ManageConfig.config_settings,
    ManageConfig.action, ManageConfig.direction.
  rewrite Hport. destruct w as [found up tbl jr].
  destruct (ManageConfig.param_config_layer p) as [[]|],
    (ManageConfig.param_action p), (ManageConfig.param_direction p),
    found, up, (ManageConfig.param_config_settings p) as [[]|];
    reflexivity.
Qed.

(** Settles that an outcome is not a given failure. *)
Ltac other_outcome :=
  cbn [fst];
  unfold port_message, driver_message, interval_message, connect_failure,
    cardinality_error, GlobalVariables.not_found, config_layer_message;
  cbn [String.append];
  let H := fresh in intros H; discriminate H.

(** X1.  The port check comes first in every module.  A [login_port]
    below 0 or above 65535 ends the run with the port message whatever
    the rest of the request and the state of the driver are, and nothing
    is sent: the world is what it was.  With a port from 0 to 65535, both
    ends included, no run ends with that message. *)
Theorem port_out_of_range
    (it : list (string * pyval) -> list (string * pyval)) :
  arrangement it ->
  (forall p w,
      (MysqlUsers.login_port p < 0 \/ 65535 < MysqlUsers.login_port p ->
       MysqlUsers.run it p w = (Failed port_message, w))
      /\ (0 <= MysqlUsers.login_port p <= 65535 ->
          fst (MysqlUsers.run it p w) <> Failed port_message))
  /\ (forall p w,
         (Scheduler.login_port p < 0 \/ 65535 < Scheduler.login_port p ->
          Scheduler.run it p w = (Failed port_message, w))
         /\ (0 <= Scheduler.login_port p <= 65535 ->
             fst (Scheduler.run it p w) <> Failed port_message))
  /\ (forall p w,
         (GlobalVariables.login_port p < 0
          \/ 65535 < GlobalVariables.login_port p ->
          GlobalVariables.run p w = (Failed port_message, w))
         /\ (0 <= GlobalVariables.login_port p <= 65535 ->
             fst (GlobalVariables.run p w) <> Failed port_message))
  /\ (forall p w,
         (ManageConfig.login_port p < 0
          \/ 65535 < ManageConfig.login_port p ->
          ManageConfig.run p w = (Failed port_message, w))
         /\ (0 <= ManageConfig.login_port p <= 65535 ->
             fst (ManageConfig.run p w) <> Failed port_message)).
Proof.
  intros Hit. split; [|split; [|split]]; intros p w; split; intros Hport.
  - apply port_ok_false in Hport.
    rewrite users_run_sem by assumption. unfold users_sem.
    now rewrite Hport.
  - apply port_ok_true in Hport.
    rewrite users_run_sem by assumption. unfold users_sem.
    rewrite Hport. cbn [negb admin_up record].
    destruct (mysqldb_found w), (admin_up w); cbn [negb];
      try other_outcome.
    destruct (MysqlUsers.state (MysqlUsers.init p));
      repeat match goal with
        | |- context [if ?c then _ else _] => destruct c
        end; other_outcome.
  - apply port_ok_false in Hport.
    rewrite sched_run_sem by assumption. unfold sched_sem.
    now rewrite Hport.
  - apply port_ok_true in Hport.
    rewrite sched_run_sem by assumption. unfold sched_sem.
    rewrite Hport. cbn [negb admin_up record].
    destruct ((Scheduler.param_interval_ms p <? 100)
              || (Scheduler.param_interval_ms p >? 100000000));
      [other_outcome|].
    destruct (mysqldb_found w), (admin_up w); cbn [negb];
      try other_outcome.
    destruct (Scheduler.state (Scheduler.init p));
      repeat match goal with
        | |- context [if ?c then _ else _] => destruct c
        end; other_outcome.
  - apply port_ok_false in Hport.
    rewrite gv_run_sem. unfold gv_sem. now rewrite Hport.
  - apply port_ok_true in Hport.
    rewrite gv_run_sem. unfold gv_sem.
    rewrite Hport. cbn [negb admin_up record].
    destruct (mysqldb_found w), (admin_up w); cbn [negb];
      try other_outcome.
    repeat match goal with
      | |- context [if ?c then _ else _] => destruct c
      end; other_outcome.
  - apply port_ok_false in Hport. unfold port_ok in Hport.
    apply negb_false_iff in Hport.
    unfold ManageConfig.run, ManageConfig.main, ManageConfig.perform_checks.
    rewrite Hport. reflexivity.
  - apply port_ok_true in Hport.
    rewrite transfer_run_cases by assumption.
    destruct (ManageConfig.param_config_layer p) as [[]|],
      (ManageConfig.param_action p), (ManageConfig.param_direction p),
      (mysqldb_found w), (admin_up w),
      (ManageConfig.param_config_settings p) as [[]|];
      other_outcome.
Qed.

Lemma interval_bad (ms : Z) :
  (ms <? 100) || (ms >? 100000000) = true <-> ms < 100 \/ 100000000 < ms.
Proof.
  rewrite orb_true_iff, Z.ltb_lt, Z.gtb_ltb, Z.ltb_lt. reflexivity.
Qed.

Lemma interval_good (ms : Z) :
  (ms <? 100) || (ms >? 100000000) = false <-> 100 <= ms <= 100000000.
Proof.
  rewrite orb_false_iff, Z.ltb_ge, Z.gtb_ltb, Z.ltb_ge. reflexivity.
Qed.

(** X2.  The scheduler's interval check.  With a valid port, an
    [interval_ms] below 100 or above 100000000 ends the run with the
    interval message before the driver is looked at and before anything
    is sent.  With an interval from 100 to 100000000, both ends included,
    no run ends with that message. *)
Theorem interval_out_of_range
    (it : list (string * pyval) -> list (string * pyval))
    (p : Scheduler.params) (w : world) :
  arrangement it ->
  (0 <= Scheduler.login_port p <= 65535 ->
   Scheduler.param_interval_ms p < 100
   \/ 100000000 < Scheduler.param_interval_ms p ->
   Scheduler.run it p w = (Failed interval_message, w))
  /\ (100 <= Scheduler.param_interval_ms p <= 100000000 ->
      fst (Scheduler.run it p w) <> Failed interval_message).
Proof.
  intros Hit. rewrite sched_run_sem by assumption. unfold sched_sem.
  split.
  - intros Hport Hms. apply port_ok_true in Hport.
    apply interval_bad in Hms. rewrite Hport, Hms. reflexivity.
  - intros Hms. apply interval_good in Hms. rewrite Hms.
    destruct (port_ok (Scheduler.login_port p)); cbn [negb];
      [|other_outcome].
    cbn [admin_up record].
    destruct (mysqldb_found w), (admin_up w); cbn [negb];
      try other_outcome.
    destruct (Scheduler.state (Scheduler.init p));
      repeat match goal with
        | |- context [if ?c then _ else _] => destruct c
        end; other_outcome.
Qed.

(** X3.  The driver check.  When the MySQLdb driver could not be
    imported and the checks before it pass (the port, the scheduler's
    interval, the CONFIG layer rule of the bulk transfer), every module
    ends with the driver message and sends nothing, not even a
    connection attempt.  When the driver is there, no run ends with that
    message. *)
Theorem driver_missing
    (it : list (string * pyval) -> list (string * pyval)) :
  arrangement it ->
  (forall p w,
      (0 <= MysqlUsers.login_port p <= 65535 ->
       mysqldb_found w = false ->
       MysqlUsers.run it p w = (Failed driver_message, w))
      /\ (mysqldb_found w = true ->
          fst (MysqlUsers.run it p w) <> Failed driver_message))
  /\ (forall p w,
         (0 <= Scheduler.login_port p <= 65535 ->
          100 <= Scheduler.param_interval_ms p <= 100000000 ->
          mysqldb_found w = false ->
          Scheduler.run it p w = (Failed driver_message, w))
         /\ (mysqldb_found w = true ->
             fst (Scheduler.run it p w) <> Failed driver_message))
  /\ (forall p w,
         (0 <= GlobalVariables.login_port p <= 65535 ->
          mysqldb_found w = false ->
          GlobalVariables.run p w = (Failed driver_message, w))
         /\ (mysqldb_found w = true ->
             fst (GlobalVariables.run p w) <> Failed driver_message))
  /\ (forall p w,
         (0 <= ManageConfig.login_port p <= 65535 ->
          (forall l, ManageConfig.param_config_layer p = Some l ->
                     legal (ManageConfig.param_action p)
                       (ManageConfig.param_direction p) l = true) ->
          mysqldb_found w = false ->
          ManageConfig.run p w = (Failed driver_message, w))
         /\ (mysqldb_found w = true ->
             fst (ManageConfig.run p w) <> Failed driver_message)).
Proof.
  intros Hit. split; [|split; [|split]]; intros p w; split.
  - intros Hport Hm. apply port_ok_true in Hport.
    rewrite users_run_sem by assumption. unfold users_sem.
    now rewrite Hport, Hm.
  - intros Hm. rewrite users_run_sem by assumption. unfold users_sem.
    rewrite Hm. cbn [negb admin_up record].
    destruct (port_ok (MysqlUsers.login_port p)), (admin_up w);
      cbn [negb]; try other_outcome.
    destruct (MysqlUsers.state (MysqlUsers.init p));
      repeat match goal with
        | |- context [if ?c then _ else _] => destruct c
        end; other_outcome.
  - intros Hport Hms Hm. apply port_ok_true in Hport.
    apply interval_good in Hms.
    rewrite sched_run_sem by assumption. unfold sched_sem.
    now rewrite Hport, Hms, Hm.
  - intros Hm. rewrite sched_run_sem by assumption. unfold sched_sem.
    rewrite Hm. cbn [negb admin_up record].
    destruct (port_ok (Scheduler.login_port p)),
      ((Scheduler.param_interval_ms p <? 100)
       || (Scheduler.param_interval_ms p >? 100000000)),
      (admin_up w); cbn [negb]; try other_outcome.
    destruct (Scheduler.state (Scheduler.init p));
      repeat match goal with
        | |- context [if ?c then _ else _] => destruct c
        end; other_outcome.
  - intros Hport Hm. apply port_ok_true in Hport.
    rewrite gv_run_sem. unfold gv_sem. now rewrite Hport, Hm.
  - intros Hm. rewrite gv_run_sem. unfold gv_sem.
    rewrite Hm. cbn [negb admin_up record].
    destruct (port_ok (GlobalVariables.login_port p)), (admin_up w);
      cbn [negb]; try other_outcome.
    repeat match goal with
      | |- context [if ?c then _ else _] => destruct c
      end; other_outcome.
  - intros Hport Hlegal Hm. apply port_ok_true in Hport.
    rewrite transfer_run_cases by assumption. rewrite Hm.
    destruct (ManageConfig.param_config_layer p) as [l|]; [|reflexivity].
    specialize (Hlegal l eq_refl).
    destruct l, (ManageConfig.param_action p),
      (ManageConfig.param_direction p);
      try discriminate Hlegal; reflexivity.
  - intros Hm.
    destruct (port_ok (ManageConfig.login_port p)) eqn:Hport.
    + rewrite transfer_run_cases by assumption. rewrite Hm.
      destruct (ManageConfig.param_config_layer p) as [[]|],
        (ManageConfig.param_action p), (ManageConfig.param_direction p),
        (admin_up w), (ManageConfig.param_config_settings p) as [[]|];
        other_outcome.
    + unfold port_ok in Hport. apply negb_false_iff in Hport.
      unfold ManageConfig.run, ManageConfig.main,
        ManageConfig.perform_checks.
      rewrite Hport. other_outcome.
Qed.

(** X4.  The connection.  When the checks pass and the admin interface
    refuses the login, every module ends with the message "unable to
    connect to ProxySQL Admin Module.. " followed by the driver's error;
    the connection attempt is all that was sent and the tables are
    untouched.  When the interface takes the login, no run ends with
    that message. *)
Theorem connection_refused
    (it : list (string * pyval) -> list (string * pyval)) :
  arrangement it ->
  (forall p w,
      (0 <= MysqlUsers.login_port p <= 65535 ->
       mysqldb_found w = true ->
       admin_up w = false ->
       MysqlUsers.run it p w = (Failed connect_failure, record Connect w))
      /\ (admin_up w = true ->
          fst (MysqlUsers.run it p w) <> Failed connect_failure))
  /\ (forall p w,
         (0 <= Scheduler.login_port p <= 65535 ->
          100 <= Scheduler.param_interval_ms p <= 100000000 ->
          mysqldb_found w = true ->
          admin_up w = false ->
          Scheduler.run it p w = (Failed connect_failure, record Connect w))
         /\ (admin_up w = true ->
             fst (Scheduler.run it p w) <> Failed connect_failure))
  /\ (forall p w,
         (0 <= GlobalVariables.login_port p <= 65535 ->
          mysqldb_found w = true ->
          admin_up w = false ->
          GlobalVariables.run p w
          = (Failed connect_failure, record Connect w))
         /\ (admin_up w = true ->
             fst (GlobalVariables.run p w) <> Failed connect_failure))
  /\ (forall p w,
         (0 <= ManageConfig.login_port p <= 65535 ->
          (forall l, ManageConfig.param_config_layer p = Some l ->
                     legal (ManageConfig.param_action p)
                       (ManageConfig.param_direction p) l = true) ->
          mysqldb_found w = true ->
          admin_up w = false ->
          ManageConfig.run p w = (Failed connect_failure, record Connect w))
         /\ (admin_up w = true ->
             fst (ManageConfig.run p w) <> Failed connect_failure)).
Proof.
  intros Hit. split; [|split; [|split]]; intros p w; split.
  - intros Hport Hm Hu. apply port_ok_true in Hport.
    rewrite users_run_sem by assumption. unfold users_sem.
    rewrite Hport, Hm. cbn [negb admin_up record]. now rewrite Hu.
  - intros Hu. rewrite users_run_sem by assumption. unfold users_sem.
    cbn [negb admin_up record]. rewrite Hu.
    destruct (port_ok (MysqlUsers.login_port p)), (mysqldb_found w);
      cbn [negb]; try other_outcome.
    destruct (MysqlUsers.state (MysqlUsers.init p));
      repeat match goal with
        | |- context [if ?c then _ else _] => destruct c
        end; other_outcome.
  - intros Hport Hms Hm Hu. apply port_ok_true in Hport.
    apply interval_good in Hms.
    rewrite sched_run_sem by assumption. unfold sched_sem.
    rewrite Hport, Hms, Hm. cbn [negb admin_up record]. now rewrite Hu.
  - intros Hu. rewrite sched_run_sem by assumption. unfold sched_sem.
    cbn [negb admin_up record]. rewrite Hu.
    destruct (port_ok (Scheduler.login_port p)),
      ((Scheduler.param_interval_ms p <? 100)
       || (Scheduler.param_interval_ms p >? 100000000)),
      (mysqldb_found w); cbn [negb]; try other_outcome.
    destruct (Scheduler.state (Scheduler.init p));
      repeat match goal with
        | |- context [if ?c then _ else _] => destruct c
        end; other_outcome.
  - intros Hport Hm Hu. apply port_ok_true in Hport.
    rewrite gv_run_sem. unfold gv_sem.
    rewrite Hport, Hm. cbn [negb admin_up record]. now rewrite Hu.
  - intros Hu. rewrite gv_run_sem. unfold gv_sem.
    cbn [negb admin_up record]. rewrite Hu.
    destruct (port_ok (GlobalVariables.login_port p)), (mysqldb_found w);
      cbn [negb]; try other_outcome.
    repeat match goal with
      | |- context [if ?c then _ else _] => destruct c
      end; other_outcome.
  - intros Hport Hlegal Hm Hu. apply port_ok_true in Hport.
    rewrite transfer_run_cases by assumption. rewrite Hm, Hu.
    destruct (ManageConfig.param_config_layer p) as [l|]; [|reflexivity].
    specialize (Hlegal l eq_refl).
    destruct l, (ManageConfig.param_action p),
      (ManageConfig.param_direction p);
      try discriminate Hlegal; reflexivity.
  - intros Hu.
    destruct (port_ok (ManageConfig.login_port p)) eqn:Hport.
    + rewrite transfer_run_cases by assumption. rewrite Hu.
      destruct (ManageConfig.param_config_layer p) as [[]|],
        (ManageConfig.param_action p), (ManageConfig.param_direction p),
        (mysqldb_found w), (ManageConfig.param_config_settings p) as [[]|];
        other_outcome.
    + unfold port_ok in Hport. apply negb_false_iff in Hport.
      unfold ManageConfig.run, ManageConfig.main,
        ManageConfig.perform_checks.
      rewrite Hport. other_outcome.
Qed.

(** X5.  A bulk transfer with a word left out.  [config_settings] and
    [config_layer] are not required by the argument spec; when one of
    them is [None] and the checks pass, joining the four words raises a
    [TypeError] that the handler for the driver's errors does not catch:
    the run ends in a traceback after the connection was opened, and no
    statement is sent. *)
Theorem transfer_missing_word (p : ManageConfig.params) (w : world) :
  0 <= ManageConfig.login_port p <= 65535 ->
  mysqldb_found w = true ->
  admin_up w = true ->
  (ManageConfig.param_config_layer p = Some ManageConfig.CONFIG ->
   ManageConfig.param_action p = ManageConfig.LOAD
   /\ ManageConfig.param_direction p = ManageConfig.FROM) ->
  ManageConfig.param_config_settings p = None
  \/ ManageConfig.param_config_layer p = None ->
  ManageConfig.run p w = (Traceback "TypeError", record Connect w).
Proof.
  intros Hport Hm Hu Hlegal Hnone. apply port_ok_true in Hport.
  rewrite transfer_run_cases by assumption. rewrite Hm, Hu. cbn [negb].
  destruct (ManageConfig.param_config_layer p) as [l|].
  - destruct Hnone as [Hs|Hl]; [|discriminate Hl]. rewrite Hs.
    destruct l; try reflexivity.
    destruct (Hlegal eq_refl) as [-> ->]. reflexivity.
  - destruct (ManageConfig.param_config_settings p); reflexivity.
Qed.

(** ** What a run leaves alone *)

(** Reads the tables of a world written with [record], [asked], [sent]
    and [propagate]. *)
Ltac tables_tac :=
  cbn [snd fst];
  rewrite ?tables_propagate;
  cbn [tables asked sent with_tables record table_put String.eqb Ascii.eqb
       Bool.eqb global_variables mysql_users scheduler].

(** X6.  Each record module writes to its own table only.  Whatever the
    request and the world, a run of the user module leaves the
    [global_variables] and [scheduler] tables as they were, a run of the
    scheduler module leaves [global_variables] and [mysql_users], and a
    run of the global variables module leaves [mysql_users] and
    [scheduler]. *)
Theorem other_tables_untouched
    (it : list (string * pyval) -> list (string * pyval)) :
  arrangement it ->
  (forall p w,
      global_variables (tables (snd (MysqlUsers.run it p w)))
      = global_variables (tables w)
      /\ scheduler (tables (snd (MysqlUsers.run it p w)))
         = scheduler (tables w))
  /\ (forall p w,
         global_variables (tables (snd (Scheduler.run it p w)))
         = global_variables (tables w)
         /\ mysql_users (tables (snd (Scheduler.run it p w)))
            = mysql_users (tables w))
  /\ (forall p w,
         mysql_users (tables (snd (GlobalVariables.run p w)))
         = mysql_users (tables w)
         /\ scheduler (tables (snd (GlobalVariables.run p w)))
            = scheduler (tables w)).
Proof.
  intros Hit. split; [|split]; intros p w.
  - rewrite users_run_sem by assumption. unfold users_sem.
    cbn [negb admin_up record].
    destruct (port_ok (MysqlUsers.login_port p)), (mysqldb_found w),
      (admin_up w); cbn [negb]; try (split; reflexivity).
    destruct (MysqlUsers.state (MysqlUsers.init p));
      repeat match goal with
        | |- context [if ?c then _ else _] => destruct c
        end; tables_tac; split; reflexivity.
  - rewrite sched_run_sem by assumption. unfold sched_sem.
    cbn [negb admin_up record].
    destruct (port_ok (Scheduler.login_port p)),
      ((Scheduler.param_interval_ms p <? 100)
       || (Scheduler.param_interval_ms p >? 100000000)),
      (mysqldb_found w), (admin_up w); cbn [negb];
      try (split; reflexivity).
    destruct (Scheduler.state (Scheduler.init p));
      repeat match goal with
        | |- context [if ?c then _ else _] => destruct c
        end; tables_tac; split; reflexivity.
  - rewrite gv_run_sem. unfold gv_sem.
    cbn [negb admin_up record].
    destruct (port_ok (GlobalVariables.login_port p)), (mysqldb_found w),
      (admin_up w); cbn [negb]; try (split; reflexivity).
    repeat match goal with
      | |- context [if ?c then _ else _] => destruct c
      end; tables_tac; split; reflexivity.
Qed.

(** ** Updates *)

Lemma rewritten_rows (key attrs attrs' : binding) (rows : list row) :
  NoDup (map fst attrs) ->
  Permutation attrs attrs' ->
  Forall2 (rewritten key attrs') rows
    (map (fun r => if matches key r then assign attrs r else r) rows).
Proof.
  intros Hnd Hperm. induction rows as [|r rows IH]; cbn; constructor;
    [|exact IH].
  unfold rewritten. destruct (matches key r); split; intros H;
    try discriminate H; try reflexivity.
  split.
  - intros c v Hin. apply cell_assign_in; [assumption|].
    apply Permutation_sym in Hperm. now apply (Permutation_in _ Hperm).
  - intros c Hc. apply cell_assign_other. intros Hin. apply Hc.
    apply (Permutation_in c (Permutation_map fst Hperm)). exact Hin.
Qed.

Lemma config_data_nodup (p : MysqlUsers.params) :
  NoDup (map fst (MysqlUsers.config_data (MysqlUsers.init p))).
Proof.
  cbn. repeat constructor; cbn; intuition discriminate.
Qed.

(** X7.  What an update of a user touches.  On a live "ensure present"
    run that finds rows with the key and none matching the whole
    request, the table keeps its rows one for one and in order: a row
    with another key is what it was; in every row with the key, each
    attribute that is set holds the requested value and every other cell
    is what it was.  All the rows with the key are rewritten, not one of
    them only. *)
Theorem update_confined
    (it : list (string * pyval) -> list (string * pyval))
    (p : MysqlUsers.params) (w : world) :
  arrangement it ->
  users_ready p w = true ->
  MysqlUsers.param_state p = present ->
  MysqlUsers.check_mode p = false ->
  let self := MysqlUsers.init p in
  let key := user_key_binding self in
  let rows := mysql_users (tables w) in
  (count_of (matching key rows) >? 0) = true ->
  (count_of (matching (user_full_binding it self) rows) >? 0) = false ->
  reported_action (fst (MysqlUsers.run it p w)) = Some update
  /\ Forall2 (rewritten key (attr_binding (MysqlUsers.config_data self)))
       rows (mysql_users (tables (snd (MysqlUsers.run it p w)))).
Proof.
  intros Hit Hr Hst Hlive self key rows Hkey Hfull.
  rewrite (users_run_ready it p w Hit Hr). cbv zeta.
  fold self. fold key. fold rows. rewrite Hst, Hfull, Hkey, Hlive.
  split; [reported_tac|]. tables_tac.
  apply rewritten_rows.
  - now apply user_attrs_nodup.
  - apply attr_binding_perm. apply Hit.
Qed.

(** X8.  What setting a variable touches.  On a live run with a value
    that is not the stored one, the table keeps its rows one for one and
    in order: a row of another variable is what it was; in every row of
    the variable, [variable_value] holds the requested value and every
    other cell is what it was. *)
Theorem set_confined (p : GlobalVariables.params) (w : world) :
  gv_ready p w = true ->
  truthy (GlobalVariables.value p) = true ->
  GlobalVariables.check_mode p = false ->
  let variable := GlobalVariables.variable p in
  let value := GlobalVariables.value p in
  let rows := global_variables (tables w) in
  is_nil (matching (gv_key_binding variable) rows) = false ->
  (count_of (matching (gv_full_binding variable value) rows) >? 0) = false ->
  reported_action (fst (GlobalVariables.run p w)) = Some update
  /\ Forall2
       (rewritten (gv_key_binding variable)
          [("variable_value", literal value)])
       rows (global_variables (tables (snd (GlobalVariables.run p w)))).
Proof.
  intros Hr Hv Hlive variable value rows Hkey Hfull.
  rewrite (gv_run_ready p w Hr). cbv zeta. rewrite Hv, Hlive.
  fold variable. fold value. fold rows.
  rewrite Hkey, Hfull. cbn [negb].
  split; [reported_tac|]. tables_tac.
  apply rewritten_rows.
  - cbn. repeat constructor. intros [].
  - apply Permutation_refl.
Qed.

(** ** Inserts *)

(** The cell an attribute has in the binding of an insert: its literal
    where the attribute is set, none (read as NULL) where it is not. *)
Lemma cell_attr_binding (items : list (string * pyval)) (c : string)
    (v : pyval) :
  NoDup (map fst items) ->
  In (c, v) items ->
  cell c (attr_binding items) = literal v.
Proof.
  intros Hnd Hin. destruct (is_not_None v) eqn:Hv.
  - apply cell_in.
    + rewrite attr_binding_cols. unfold present_cols, present_items.
      now apply NoDup_map_filter.
    + rewrite attr_binding_map. unfold present_items.
      apply (in_map (fun kv => (fst kv, literal (snd kv))) _ (c, v)).
      apply filter_In. split; assumption.
  - assert (v = PyNone) by (destruct v; cbn in Hv; congruence). subst v.
    cbn [literal]. apply cell_absent. rewrite attr_binding_cols.
    unfold present_cols, present_items. intros Hc.
    apply in_map_iff in Hc as [[c' v'] [Ec Hc]]. cbn in Ec. subst c'.
    apply filter_In in Hc as [Hc Hv']. cbn in Hv'.
    assert (v' = PyNone); [|subst v'; discriminate Hv'].
    clear Hv'. induction items as [|[k x] items IH]; [destruct Hin|].
    cbn in Hnd. inversion Hnd as [|? ? Hk Hnd']; subst.
    destruct Hin as [Hin|Hin], Hc as [Hc|Hc].
    + congruence.
    + injection Hin as -> ->. exfalso. apply Hk.
      apply (in_map fst _ (c, v')). exact Hc.
    + injection Hc as -> ->. exfalso. apply Hk.
      apply (in_map fst _ (c, PyNone)). exact Hin.
    + now apply IH.
Qed.

Lemma cell_attrs_arranged
    (it : list (string * pyval) -> list (string * pyval))
    (items : list (string * pyval)) (c : string) (v : pyval) :
  arrangement it ->
  NoDup (map fst items) ->
  In (c, v) items ->
  cell c (attr_binding (it items)) = literal v.
Proof.
  intros Hit Hnd Hin. apply cell_attr_binding.
  - apply (Permutation_NoDup
             (Permutation_map fst (Permutation_sym (Hit items)))).
    exact Hnd.
  - apply (Permutation_in _ (Permutation_sym (Hit items))). exact Hin.
Qed.

Lemma attrs_arranged_cols
    (it : list (string * pyval) -> list (string * pyval))
    (items : list (string * pyval)) (c : string) :
  arrangement it ->
  In c (map fst (attr_binding (it items))) -> In c (map fst items).
Proof.
  intros Hit. rewrite attr_binding_cols. now apply present_cols_subset.
Qed.

Lemma matching_none (b : binding) (rows : list row) :
  (count_of (matching b rows) >? 0) = false -> matching b rows = [].
Proof.
  rewrite count_pos_iff. destruct (matching b rows); [reflexivity|].
  discriminate.
Qed.

Lemma matching_app (b : binding) (rows rows' : list row) :
  matching b (rows ++ rows') = matching b rows ++ matching b rows'.
Proof. apply filter_app. Qed.

Lemma user_key_matches_full
    (it : list (string * pyval) -> list (string * pyval))
    (p : MysqlUsers.params) :
  arrangement it ->
  matches (user_key_binding (MysqlUsers.init p))
    (user_full_binding it (MysqlUsers.init p)) = true.
Proof.
  intros Hit. pose proof (user_full_inserted it p Hit) as H. cbv zeta in H.
  unfold user_full_binding in H at 1. rewrite matches_app in H.
  now apply andb_prop in H.
Qed.

Lemma user_key_stored
    (it : list (string * pyval) -> list (string * pyval))
    (p : MysqlUsers.params) (s : store) :
  arrangement it ->
  matches (user_key_binding (MysqlUsers.init p))
    (user_stored it (MysqlUsers.init p) s) = true.
Proof.
  intros Hit. unfold user_stored. rewrite matches_stored.
  - now apply user_key_matches_full.
  - unfold user_full_binding. rewrite map_app. now apply incl_appl.
Qed.

Lemma user_full_defined
    (it : list (string * pyval) -> list (string * pyval))
    (self : MysqlUsers.ProxySQLUser) :
  defined (user_full_binding it self).
Proof.
  unfold user_full_binding, defined. apply Forall_app. split.
  - apply user_key_defined.
  - apply attr_binding_defined.
Qed.

Lemma sched_full_defined
    (it : list (string * pyval) -> list (string * pyval))
    (self : Scheduler.ProxySQLSchedule) :
  defined (sched_full_binding it self).
Proof.
  unfold sched_full_binding, defined. apply Forall_app. split.
  - unfold sched_key_binding. cbn. repeat constructor; cbn; discriminate.
  - apply attr_binding_defined.
Qed.

(** X9.  What a create adds.  A live "ensure present" run of the user
    module on a table with no row of the key, and one of the scheduler
    module on a table with no row matching the request, keep every
    stored row in place and add one row at the end, which the run
    returns.  The new row holds the key fields and, for every attribute
    that is set, the literal of its value; an attribute that is not set,
    as any column the module does not know, is left to the store and
    holds the store's default. *)
Theorem create_appends
    (it : list (string * pyval) -> list (string * pyval)) :
  arrangement it ->
  (forall p w,
      users_ready p w = true ->
      MysqlUsers.param_state p = present ->
      MysqlUsers.check_mode p = false ->
      let self := MysqlUsers.init p in
      let rows := mysql_users (tables w) in
      let defaults := column_defaults (tables w) "mysql_users" rows in
      (count_of (matching (user_key_binding self) rows) >? 0) = false ->
      exists r,
        mysql_users (tables (snd (MysqlUsers.run it p w))) = rows ++ [r]
        /\ field_of "user" (fst (MysqlUsers.run it p w)) = Some (Dict r)
        /\ reported_action (fst (MysqlUsers.run it p w)) = Some create
        /\ cell "username" r = SqlText (MysqlUsers.param_username p)
        /\ cell "backend" r = literal (PyBool (MysqlUsers.param_backend p))
        /\ cell "frontend" r = literal (PyBool (MysqlUsers.param_frontend p))
        /\ (forall c v, In (c, v) (MysqlUsers.config_data self) ->
                        cell c r
                        = if is_not_None v then literal v
                          else cell c defaults)
        /\ (forall c, ~ In c (user_keys ++ MysqlUsers.config_data_keys) ->
                      cell c r = cell c defaults))
  /\ (forall p w,
         sched_ready p w = true ->
         Scheduler.param_state p = present ->
         Scheduler.check_mode p = false ->
         let self := Scheduler.init p in
         let rows := scheduler (tables w) in
         let defaults := column_defaults (tables w) "scheduler" rows in
         (count_of (matching (sched_full_binding it self) rows) >? 0)
         = false ->
         exists r,
           scheduler (tables (snd (Scheduler.run it p w))) = rows ++ [r]
           /\ field_of "schedules" (fst (Scheduler.run it p w))
              = Some (Rows [r])
           /\ reported_action (fst (Scheduler.run it p w)) = Some create
           /\ cell "active" r = literal (PyBool (Scheduler.param_active p))
           /\ cell "interval_ms" r = SqlInt (Scheduler.param_interval_ms p)
           /\ cell "filename" r = SqlText (Scheduler.param_filename p)
           /\ (forall c v, In (c, v) (Scheduler.config_data self) ->
                           cell c r
                           = if is_not_None v then literal v
                             else cell c defaults)
           /\ (forall c, ~ In c (sched_keys ++ Scheduler.config_data_keys) ->
                         cell c r = cell c defaults)).
Proof.
  intros Hit. split.
  - intros p w Hr Hst Hlive self rows defaults Hkey.
    set (key := user_key_binding self) in *.
    set (full := user_full_binding it self).
    set (stored := user_stored it self (tables w)).
    assert (Hfull : (count_of (matching full rows) >? 0) = false).
    { destruct (count_of (matching full rows) >? 0) eqn:E; [|reflexivity].
      unfold full, user_full_binding in E. apply matching_weaken in E.
      fold key in E. congruence. }
    assert (Hcells : forall c,
               (cell c full <> SqlNull -> cell c stored = cell c full)
               /\ (cell c full = SqlNull -> cell c stored = cell c defaults)).
    { intros c. apply stored_cells, user_full_defined. }
    exists stored. rewrite (users_run_ready it p w Hit Hr). cbv zeta.
    fold self. fold key. fold full. fold rows. fold stored.
    rewrite Hst, Hfull, Hkey, Hlive.
    split; [tables_tac; reflexivity|].
    split.
    { changed_tac. rewrite matching_app, (matching_none _ _ Hkey).
      unfold matching. cbn [filter app].
      unfold key, stored, self. rewrite (user_key_stored it p _ Hit).
      reflexivity. }
    split; [reported_tac|].
    assert (Hattr : forall c v,
               In (c, v) (MysqlUsers.config_data self) ->
               cell c full = literal v).
    { intros c v Hin. unfold full, user_full_binding.
      rewrite cell_app_r.
      - apply cell_attrs_arranged; [assumption| |assumption].
        apply config_data_nodup.
      - intros Hc. apply (in_map fst) in Hin. cbn [fst] in Hin.
        cbn in Hc, Hin. intuition (subst; discriminate). }
    split; [|split; [|split; [|split]]].
    + rewrite (proj1 (Hcells "username")); [reflexivity|discriminate].
    + rewrite (proj1 (Hcells "backend")); [reflexivity|].
      cbn. destruct (MysqlUsers.param_backend p); discriminate.
    + rewrite (proj1 (Hcells "frontend")); [reflexivity|].
      cbn. destruct (MysqlUsers.param_frontend p); discriminate.
    + intros c v Hin. pose proof (Hattr c v Hin) as Hc.
      destruct (is_not_None v) eqn:Hv.
      * rewrite (proj1 (Hcells c)); [exact Hc|].
        rewrite Hc. now apply literal_not_null.
      * apply (proj2 (Hcells c)). rewrite Hc.
        destruct v; cbn in Hv; try discriminate. reflexivity.
    + intros c Hc. apply (proj2 (Hcells c)). apply cell_absent.
      unfold full, user_full_binding.
      rewrite map_app. intros Hin. apply Hc.
      apply in_app_or in Hin as [Hin|Hin]; apply in_or_app.
      * left. exact Hin.
      * right. apply (attrs_arranged_cols it _ c Hit) in Hin. exact Hin.
  - intros p w Hr Hst Hlive self rows defaults Hfull.
    set (full := sched_full_binding it self) in *.
    set (stored := sched_stored it self (tables w)).
    assert (Hcells : forall c,
               (cell c full <> SqlNull -> cell c stored = cell c full)
               /\ (cell c full = SqlNull -> cell c stored = cell c defaults)).
    { intros c. apply stored_cells, sched_full_defined. }
    exists stored. rewrite (sched_run_ready it p w Hit Hr). cbv zeta.
    fold self. fold full. fold rows. fold stored.
    rewrite Hst, Hfull, Hlive.
    split; [tables_tac; reflexivity|].
    split.
    { changed_tac. rewrite matching_app, (matching_none _ _ Hfull).
      unfold matching. cbn [filter app].
      unfold full, stored, self. rewrite (sched_full_stored it p _ Hit).
      reflexivity. }
    split; [reported_tac|].
    assert (Hattr : forall c v,
               In (c, v) (Scheduler.config_data self) ->
               cell c full = literal v).
    { intros c v Hin. unfold full, sched_full_binding.
      rewrite cell_app_r.
      - apply cell_attrs_arranged; [assumption| |assumption].
        cbn. repeat constructor; cbn; intuition discriminate.
      - intros Hc. apply (in_map fst) in Hin. cbn [fst] in Hin.
        cbn in Hc, Hin. intuition (subst; discriminate). }
    split; [|split; [|split; [|split]]].
    + rewrite (proj1 (Hcells "active")); [reflexivity|].
      cbn. destruct (Scheduler.param_active p); discriminate.
    + rewrite (proj1 (Hcells "interval_ms")); [reflexivity|discriminate].
    + rewrite (proj1 (Hcells "filename")); [reflexivity|discriminate].
    + intros c v Hin. pose proof (Hattr c v Hin) as Hc.
      destruct (is_not_None v) eqn:Hv.
      * rewrite (proj1 (Hcells c)); [exact Hc|].
        rewrite Hc. now apply literal_not_null.
      * apply (proj2 (Hcells c)). rewrite Hc.
        destruct v; cbn in Hv; try discriminate. reflexivity.
    + intros c Hc. apply (proj2 (Hcells c)). apply cell_absent.
      unfold full, sched_full_binding.
      rewrite map_app. intros Hin. apply Hc.
      apply in_app_or in Hin as [Hin|Hin]; apply in_or_app.
      * left. exact Hin.
      * right. apply (attrs_arranged_cols it _ c Hit) in Hin. exact Hin.
Qed.

(** ** Runs in sequence *)

Lemma propagate_found (save load : bool) (save_cmd load_cmd : string)
    (w : world) :
  mysqldb_found (propagate save load save_cmd load_cmd w) = mysqldb_found w.
Proof. apply propagate_env. Qed.

Lemma propagate_up (save load : bool) (save_cmd load_cmd : string)
    (w : world) :
  admin_up (propagate save load save_cmd load_cmd w) = admin_up w.
Proof. apply propagate_env. Qed.

Ltac env_tac :=
  cbn [snd fst];
  rewrite ?propagate_found, ?propagate_up;
  cbn [mysqldb_found admin_up asked sent with_tables record].

(** A run leaves the driver and the admin interface as they were. *)
Lemma users_run_env (it : list (string * pyval) -> list (string * pyval))
    (p : MysqlUsers.params) (w : world) :
  arrangement it ->
  mysqldb_found (snd (MysqlUsers.run it p w)) = mysqldb_found w
  /\ admin_up (snd (MysqlUsers.run it p w)) = admin_up w.
Proof.
  intros Hit. rewrite users_run_sem by assumption. unfold users_sem.
  cbn [negb admin_up record].
  destruct (port_ok (MysqlUsers.login_port p)), (mysqldb_found w) eqn:Hm,
    (admin_up w) eqn:Hu; cbn [negb]; try (split; assumption).
  destruct (MysqlUsers.state (MysqlUsers.init p));
    repeat match goal with
      | |- context [if ?c then _ else _] => destruct c
      end; env_tac; split; assumption.
Qed.

Lemma sched_run_env (it : list (string * pyval) -> list (string * pyval))
    (p : Scheduler.params) (w : world) :
  arrangement it ->
  mysqldb_found (snd (Scheduler.run it p w)) = mysqldb_found w
  /\ admin_up (snd (Scheduler.run it p w)) = admin_up w.
Proof.
  intros Hit. rewrite sched_run_sem by assumption. unfold sched_sem.
  cbn [negb admin_up record].
  destruct (port_ok (Scheduler.login_port p)),
    ((Scheduler.param_interval_ms p <? 100)
     || (Scheduler.param_interval_ms p >? 100000000)),
    (mysqldb_found w) eqn:Hm, (admin_up w) eqn:Hu; cbn [negb];
    try (split; assumption).
  destruct (Scheduler.state (Scheduler.init p));
    repeat match goal with
      | |- context [if ?c then _ else _] => destruct c
      end; env_tac; split; assumption.
Qed.

Lemma users_ready_after
    (it : list (string * pyval) -> list (string * pyval))
    (p q : MysqlUsers.params) (w : world) :
  arrangement it ->
  users_ready q (snd (MysqlUsers.run it p w)) = users_ready q w.
Proof.
  intros Hit. unfold users_ready.
  destruct (users_run_env it p w Hit) as [-> ->]. reflexivity.
Qed.

Lemma sched_ready_after
    (it : list (string * pyval) -> list (string * pyval))
    (p q : Scheduler.params) (w : world) :
  arrangement it ->
  sched_ready q (snd (Scheduler.run it p w)) = sched_ready q w.
Proof.
  intros Hit. unfold sched_ready.
  destruct (sched_run_env it p w Hit) as [-> ->]. reflexivity.
Qed.

Lemma unmatched_kept (b : binding) (rows : list row) :
  matching b rows = [] ->
  filter (fun r => negb (matches b r)) rows = rows.
Proof.
  unfold matching. induction rows as [|r rows IH]; cbn; [reflexivity|].
  destruct (matches b r); cbn; [discriminate|].
  intros H. now rewrite IH.
Qed.

Lemma table_put_users_back (rows : list row) (s : store) :
  table_put "mysql_users" (mysql_users s) (table_put "mysql_users" rows s)
  = s.
Proof. destruct s; reflexivity. Qed.

Lemma table_put_scheduler_back (rows : list row) (s : store) :
  table_put "scheduler" (scheduler s) (table_put "scheduler" rows s) = s.
Proof. destruct s; reflexivity. Qed.

Lemma table_put_users_twice (rows rows' : list row) (s : store) :
  table_put "mysql_users" rows' (table_put "mysql_users" rows s)
  = table_put "mysql_users" rows' s.
Proof. reflexivity. Qed.

Lemma table_put_scheduler_twice (rows rows' : list row) (s : store) :
  table_put "scheduler" rows' (table_put "scheduler" rows s)
  = table_put "scheduler" rows' s.
Proof. reflexivity. Qed.

Lemma user_key_same (p q : MysqlUsers.params) :
  MysqlUsers.param_username q = MysqlUsers.param_username p ->
  MysqlUsers.param_backend q = MysqlUsers.param_backend p ->
  MysqlUsers.param_frontend q = MysqlUsers.param_frontend p ->
  user_key_binding (MysqlUsers.init q) = user_key_binding (MysqlUsers.init p).
Proof.
  intros Hu Hb Hf. unfold user_key_binding, MysqlUsers.key_data.
  cbn [MysqlUsers.init MysqlUsers.username MysqlUsers.backend
       MysqlUsers.frontend].
  now rewrite Hu, Hb, Hf.
Qed.

(** The facts of a live create by the user module. *)
Lemma users_created (it : list (string * pyval) -> list (string * pyval))
    (p : MysqlUsers.params) (w : world) :
  arrangement it ->
  users_ready p w = true ->
  MysqlUsers.param_state p = present ->
  MysqlUsers.check_mode p = false ->
  let self := MysqlUsers.init p in
  let rows := mysql_users (tables w) in
  (count_of (matching (user_key_binding self) rows) >? 0) = false ->
  reported_action (fst (MysqlUsers.run it p w)) = Some create
  /\ field_of "user" (fst (MysqlUsers.run it p w))
     = Some (Dict (user_stored it self (tables w)))
  /\ tables (snd (MysqlUsers.run it p w))
     = table_put "mysql_users" (rows ++ [user_stored it self (tables w)])
         (tables w).
Proof.
  intros Hit Hr Hst Hlive self rows Hkey.
  set (key := user_key_binding self) in *.
  set (full := user_full_binding it self).
  set (stored := user_stored it self (tables w)).
  assert (Hfull : (count_of (matching full rows) >? 0) = false).
  { destruct (count_of (matching full rows) >? 0) eqn:E; [|reflexivity].
    unfold full, user_full_binding in E. apply matching_weaken in E.
    fold key in E. congruence. }
  rewrite (users_run_ready it p w Hit Hr). cbv zeta.
  fold self. fold key. fold full. fold rows. fold stored.
  rewrite Hst, Hfull, Hkey, Hlive.
  split; [reported_tac|]. split; [|tables_tac; reflexivity].
  changed_tac. rewrite matching_app, (matching_none _ _ Hkey).
  unfold matching. cbn [filter app].
  unfold key, stored, self. rewrite (user_key_stored it p _ Hit).
  reflexivity.
Qed.

(** The facts of a live "ensure absent" run of the user module. *)
Lemma users_deleted (it : list (string * pyval) -> list (string * pyval))
    (p : MysqlUsers.params) (w : world) :
  arrangement it ->
  users_ready p w = true ->
  MysqlUsers.param_state p = absent ->
  MysqlUsers.check_mode p = false ->
  let key := user_key_binding (MysqlUsers.init p) in
  let rows := mysql_users (tables w) in
  let fetched rs :=
    fetchone {| rowcount := count_of rs; resultset := rs |} in
  if count_of (matching key rows) >? 0 then
    reported_action (fst (MysqlUsers.run it p w)) = Some delete
    /\ changed_of (fst (MysqlUsers.run it p w)) = Some py_True
    /\ field_of "user" (fst (MysqlUsers.run it p w))
       = Some (fetched (matching key rows))
    /\ tables (snd (MysqlUsers.run it p w))
       = table_put "mysql_users"
           (filter (fun r => negb (matches key r)) rows) (tables w)
  else
    reported_action (fst (MysqlUsers.run it p w)) = Some noop
    /\ changed_of (fst (MysqlUsers.run it p w)) = Some py_False
    /\ field_of "user" (fst (MysqlUsers.run it p w)) = None
    /\ tables (snd (MysqlUsers.run it p w)) = tables w.
Proof.
  intros Hit Hr Hst Hlive key rows fetched.
  rewrite (users_run_ready it p w Hit Hr). cbv zeta.
  fold key. fold rows. rewrite Hst, Hlive.
  destruct (count_of (matching key rows) >? 0).
  - split; [reported_tac|]. split; [changed_tac; reflexivity|].
    split; [changed_tac; reflexivity|]. tables_tac. reflexivity.
  - split; [reported_tac|]. split; [changed_tac; reflexivity|].
    split; [|reflexivity].
    destruct (truthy (PyStr (MysqlUsers.param_username p))); reflexivity.
Qed.

Lemma sched_created (it : list (string * pyval) -> list (string * pyval))
    (p : Scheduler.params) (w : world) :
  arrangement it ->
  sched_ready p w = true ->
  Scheduler.param_state p = present ->
  Scheduler.check_mode p = false ->
  let full := sched_full_binding it (Scheduler.init p) in
  let rows := scheduler (tables w) in
  (count_of (matching full rows) >? 0) = false ->
  reported_action (fst (Scheduler.run it p w)) = Some create
  /\ changed_of (fst (Scheduler.run it p w)) = Some py_True
  /\ field_of "schedules" (fst (Scheduler.run it p w))
     = Some (Rows [sched_stored it (Scheduler.init p) (tables w)])
  /\ tables (snd (Scheduler.run it p w))
     = table_put "scheduler"
         (rows ++ [sched_stored it (Scheduler.init p) (tables w)])
         (tables w).
Proof.
  intros Hit Hr Hst Hlive full rows Hfull.
  rewrite (sched_run_ready it p w Hit Hr). cbv zeta.
  fold full. fold rows. rewrite Hst, Hfull, Hlive.
  split; [reported_tac|]. split; [changed_tac; reflexivity|].
  split; [|tables_tac; reflexivity].
  changed_tac. rewrite matching_app, (matching_none _ _ Hfull).
  unfold matching. cbn [filter app].
  unfold full. rewrite (sched_full_stored it p _ Hit). reflexivity.
Qed.

Lemma sched_deleted (it : list (string * pyval) -> list (string * pyval))
    (p : Scheduler.params) (w : world) :
  arrangement it ->
  sched_ready p w = true ->
  Scheduler.param_state p = absent ->
  Scheduler.check_mode p = false ->
  let full := sched_full_binding it (Scheduler.init p) in
  let rows := scheduler (tables w) in
  let n := count_of (matching full rows) in
  if n >? 0 then
    if (n =? 1) || Scheduler.param_force_delete p then
      reported_action (fst (Scheduler.run it p w)) = Some delete
      /\ changed_of (fst (Scheduler.run it p w))
         = Some (Tuple [PyBool true; PyInt n])
      /\ field_of "schedules" (fst (Scheduler.run it p w))
         = Some (Rows (matching full rows))
      /\ tables (snd (Scheduler.run it p w))
         = table_put "scheduler"
             (filter (fun r => negb (matches full r)) rows) (tables w)
    else
      fst (Scheduler.run it p w) = Failed cardinality_error
      /\ tables (snd (Scheduler.run it p w)) = tables w
  else
    reported_action (fst (Scheduler.run it p w)) = Some noop
    /\ changed_of (fst (Scheduler.run it p w)) = Some py_False
    /\ field_of "schedules" (fst (Scheduler.run it p w)) = None
    /\ tables (snd (Scheduler.run it p w)) = tables w.
Proof.
  intros Hit Hr Hst Hlive full rows n.
  rewrite (sched_run_ready it p w Hit Hr). cbv zeta.
  fold full. fold rows. fold n. rewrite Hst, Hlive.
  destruct (n >? 0).
  - destruct ((n =? 1) || Scheduler.param_force_delete p).
    + split; [reported_tac|]. split; [changed_tac; reflexivity|].
      split; [changed_tac; reflexivity|]. tables_tac. reflexivity.
    + split; reflexivity.
  - split; [reported_tac|]. split; [changed_tac; reflexivity|].
    split; reflexivity.
Qed.

(** X10.  Create, then delete.  A live "ensure present" run of the user
    module on a table with no row of the key, followed by a live "ensure
    absent" run for the same key (whatever attributes the second request
    carries), leaves every table as it was before the first run; the
    second run returns the row the first one added.  The same holds for
    the scheduler module with the same request in both runs, on a table
    with no row matching it; there the second run reports [changed] as
    the pair of [True] and 1. *)
Theorem create_then_delete
    (it : list (string * pyval) -> list (string * pyval)) :
  arrangement it ->
  (forall p q w,
      users_ready p w = true ->
      MysqlUsers.param_state p = present ->
      MysqlUsers.check_mode p = false ->
      0 <= MysqlUsers.login_port q <= 65535 ->
      MysqlUsers.param_state q = absent ->
      MysqlUsers.check_mode q = false ->
      MysqlUsers.param_username q = MysqlUsers.param_username p ->
      MysqlUsers.param_backend q = MysqlUsers.param_backend p ->
      MysqlUsers.param_frontend q = MysqlUsers.param_frontend p ->
      (count_of (matching (user_key_binding (MysqlUsers.init p))
                   (mysql_users (tables w))) >? 0) = false ->
      let r1 := MysqlUsers.run it p w in
      let r2 := MysqlUsers.run it q (snd r1) in
      reported_action (fst r1) = Some create
      /\ reported_action (fst r2) = Some delete
      /\ changed_of (fst r2) = Some py_True
      /\ field_of "user" (fst r2) = field_of "user" (fst r1)
      /\ tables (snd r2) = tables w)
  /\ (forall p w,
         sched_ready p w = true ->
         (count_of (matching (sched_full_binding it (Scheduler.init p))
                      (scheduler (tables w))) >? 0) = false ->
         let r1 :=
           Scheduler.run it (sched_request_with present false false p) w in
         let r2 :=
           Scheduler.run it (sched_request_with absent false false p)
             (snd r1) in
         reported_action (fst r1) = Some create
         /\ reported_action (fst r2) = Some delete
         /\ changed_of (fst r2) = Some (Tuple [PyBool true; PyInt 1])
         /\ field_of "schedules" (fst r2) = field_of "schedules" (fst r1)
         /\ tables (snd r2) = tables w).
Proof.
  intros Hit. split.
  - intros p q w Hr Hst Hlive Hport Hstq Hliveq Hu Hb Hf Hkey r1 r2.
    destruct (users_created it p w Hit Hr Hst Hlive Hkey)
      as (Ha1 & Hf1 & Ht1).
    fold r1 in Ha1, Hf1, Ht1.
    assert (Hrq : users_ready q (snd r1) = true).
    { unfold r1. rewrite users_ready_after by assumption.
      unfold users_ready in *. apply port_ok_true in Hport. rewrite Hport.
      apply andb_prop in Hr as [Hr Hup]. apply andb_prop in Hr as [_ Hm].
      now rewrite Hm, Hup. }
    pose proof (users_deleted it q (snd r1) Hit Hrq Hstq Hliveq) as Hd.
    cbv zeta in Hd. fold r2 in Hd.
    rewrite (user_key_same p q Hu Hb Hf) in Hd.
    set (key := user_key_binding (MysqlUsers.init p)) in *.
    set (full := user_stored it (MysqlUsers.init p) (tables w)) in *.
    rewrite Ht1 in Hd. cbn [table_put String.eqb Ascii.eqb Bool.eqb
                            mysql_users] in Hd.
    rewrite matching_app, (matching_none _ _ Hkey) in Hd.
    assert (Hmf : matches key full = true)
      by apply (user_key_stored it p _ Hit).
    unfold matching in Hd. cbn [filter app] in Hd. rewrite Hmf in Hd.
    cbn [count_of length Z.of_nat Z.gtb Z.compare Pos.of_succ_nat] in Hd.
    destruct Hd as (Ha2 & Hc2 & Hf2 & Ht2).
    repeat split; try assumption.
    + rewrite Hf2, Hf1. reflexivity.
    + rewrite Ht2. rewrite filter_app. cbn [filter]. rewrite Hmf.
      cbn [negb]. rewrite app_nil_r.
      rewrite (unmatched_kept key _ (matching_none _ _ Hkey)).
      apply table_put_users_back.
  - intros p w Hr Hfull r1 r2.
    set (p1 := sched_request_with present false false p) in *.
    set (p2 := sched_request_with absent false false p) in *.
    set (full := sched_full_binding it (Scheduler.init p)) in *.
    set (stored := sched_stored it (Scheduler.init p) (tables w)).
    assert (Hr1 : sched_ready p1 w = true) by exact Hr.
    pose proof (sched_created it p1 w Hit Hr1 eq_refl eq_refl) as Hc.
    cbv zeta in Hc. change (sched_full_binding it (Scheduler.init p1))
      with full in Hc.
    change (sched_stored it (Scheduler.init p1) (tables w))
      with stored in Hc.
    destruct (Hc Hfull) as (Ha1 & _ & Hf1 & Ht1). clear Hc.
    fold r1 in Ha1, Hf1, Ht1.
    assert (Hr2 : sched_ready p2 (snd r1) = true).
    { unfold r1. rewrite sched_ready_after by assumption. exact Hr. }
    pose proof (sched_deleted it p2 (snd r1) Hit Hr2 eq_refl eq_refl) as Hd.
    cbv zeta in Hd. fold r2 in Hd.
    change (sched_full_binding it (Scheduler.init p2)) with full in Hd.
    rewrite Ht1 in Hd. cbn [table_put String.eqb Ascii.eqb Bool.eqb
                            scheduler] in Hd.
    rewrite matching_app, (matching_none _ _ Hfull) in Hd.
    assert (Hmf : matches full stored = true)
      by apply (sched_full_stored it p _ Hit).
    unfold matching in Hd. cbn [filter app] in Hd. rewrite Hmf in Hd.
    change (count_of [stored]) with 1 in Hd.
    cbn [Z.gtb Z.compare Z.eqb Pos.eqb orb] in Hd.
    destruct Hd as (Ha2 & Hc2 & Hf2 & Ht2).
    repeat split; try assumption.
    + rewrite Hf2, Hf1. reflexivity.
    + rewrite Ht2. rewrite filter_app. cbn [filter]. rewrite Hmf.
      cbn [negb]. rewrite app_nil_r.
      rewrite (unmatched_kept full _ (matching_none _ _ Hfull)).
      apply table_put_scheduler_back.
Qed.

(** X11.  "Ensure absent" twice.  After a live "ensure absent" run of the
    user module no row has the key, and the same run again changes
    nothing: it reports [changed = False] with the already-absent
    message and leaves the tables as the first run left them.  The same
    holds for the scheduler module whenever the first run is not
    rejected, that is when at most one row matches or [force_delete] is
    set. *)
Theorem absent_twice
    (it : list (string * pyval) -> list (string * pyval)) :
  arrangement it ->
  (forall p w,
      users_ready p w = true ->
      MysqlUsers.param_state p = absent ->
      MysqlUsers.check_mode p = false ->
      let r1 := MysqlUsers.run it p w in
      let r2 := MysqlUsers.run it p (snd r1) in
      matching (user_key_binding (MysqlUsers.init p))
        (mysql_users (tables (snd r1))) = []
      /\ changed_of (fst r2) = Some py_False
      /\ reported_action (fst r2) = Some noop
      /\ tables (snd r2) = tables (snd r1))
  /\ (forall p w,
         sched_ready p w = true ->
         Scheduler.param_state p = absent ->
         Scheduler.check_mode p = false ->
         count_of (matching (sched_full_binding it (Scheduler.init p))
                     (scheduler (tables w))) <= 1
         \/ Scheduler.param_force_delete p = true ->
         let r1 := Scheduler.run it p w in
         let r2 := Scheduler.run it p (snd r1) in
         matching (sched_full_binding it (Scheduler.init p))
           (scheduler (tables (snd r1))) = []
         /\ changed_of (fst r2) = Some py_False
         /\ reported_action (fst r2) = Some noop
         /\ tables (snd r2) = tables (snd r1)).
Proof.
  intros Hit. split.
  - intros p w Hr Hst Hlive r1 r2.
    set (key := user_key_binding (MysqlUsers.init p)).
    assert (Hgone : matching key (mysql_users (tables (snd r1))) = []).
    { pose proof (users_deleted it p w Hit Hr Hst Hlive) as Hd.
      cbv zeta in Hd. fold r1 in Hd. fold key in Hd.
      destruct (count_of (matching key (mysql_users (tables w))) >? 0)
        eqn:Hkey; destruct Hd as (_ & _ & _ & Ht); rewrite Ht.
      - cbn [table_put String.eqb Ascii.eqb Bool.eqb mysql_users].
        apply filter_none_left.
      - now apply matching_none. }
    split; [exact Hgone|].
    assert (Hr1 : users_ready p (snd r1) = true).
    { unfold r1. now rewrite users_ready_after. }
    pose proof (users_deleted it p (snd r1) Hit Hr1 Hst Hlive) as Hd.
    cbv zeta in Hd. fold r2 in Hd. fold key in Hd.
    rewrite Hgone in Hd. cbn in Hd.
    destruct Hd as (Ha & Hc & _ & Ht). repeat split; assumption.
  - intros p w Hr Hst Hlive Hsafe r1 r2.
    set (full := sched_full_binding it (Scheduler.init p)) in *.
    assert (Hgone : matching full (scheduler (tables (snd r1))) = []).
    { pose proof (sched_deleted it p w Hit Hr Hst Hlive) as Hd.
      cbv zeta in Hd. fold r1 in Hd. fold full in Hd.
      destruct (count_of (matching full (scheduler (tables w))) >? 0)
        eqn:Hpos.
      - assert (Hgo : (count_of (matching full (scheduler (tables w))) =? 1)
                      || Scheduler.param_force_delete p = true).
        { destruct Hsafe as [Hle|Hforce].
          - apply Z.gtb_lt in Hpos.
            replace (count_of (matching full (scheduler (tables w))))
              with 1 by lia.
            reflexivity.
          - rewrite Hforce. apply orb_true_r. }
        rewrite Hgo in Hd. destruct Hd as (_ & _ & _ & Ht). rewrite Ht.
        cbn [table_put String.eqb Ascii.eqb Bool.eqb scheduler].
        apply filter_none_left.
      - destruct Hd as (_ & _ & _ & Ht). rewrite Ht.
        now apply matching_none. }
    split; [exact Hgone|].
    assert (Hr1 : sched_ready p (snd r1) = true).
    { unfold r1. now rewrite sched_ready_after. }
    pose proof (sched_deleted it p (snd r1) Hit Hr1 Hst Hlive) as Hd.
    cbv zeta in Hd. fold r2 in Hd. fold full in Hd.
    rewrite Hgone in Hd. cbn in Hd.
    destruct Hd as (Ha & Hc & _ & Ht). repeat split; assumption.
Qed.

(** ** Check mode, the toggles and the override *)

Ltac same_report :=
  cbn [fst snd];
  first
    [ split; [changed_tac; reflexivity|reported_tac]
    | split; [unfold changed_truth; changed_tac; reflexivity|];
      split; [reported_tac|];
      first [ intros _; changed_tac; reflexivity
            | intros H; discriminate H ] ].

(** X12.  Check mode predicts the live run.  For the same request on the
    same world, the check-mode run of the user module and of the global
    variables module reports the [changed] value and the action that the
    live run reports.  The scheduler module reports the same action, and
    a [changed] value with the same truth; the value itself is the same
    on "ensure present". *)
Theorem check_mode_predicts
    (it : list (string * pyval) -> list (string * pyval)) :
  arrangement it ->
  (forall p s w,
      let dry := MysqlUsers.run it (users_request_with s true p) w in
      let live := MysqlUsers.run it (users_request_with s false p) w in
      changed_of (fst dry) = changed_of (fst live)
      /\ reported_action (fst dry) = reported_action (fst live))
  /\ (forall p w,
         let dry := GlobalVariables.run (gv_request_with true p) w in
         let live := GlobalVariables.run (gv_request_with false p) w in
         changed_of (fst dry) = changed_of (fst live)
         /\ reported_action (fst dry) = reported_action (fst live))
  /\ (forall p s force w,
         let dry := Scheduler.run it (sched_request_with s force true p) w in
         let live :=
           Scheduler.run it (sched_request_with s force false p) w in
         changed_truth (fst dry) = changed_truth (fst live)
         /\ reported_action (fst dry) = reported_action (fst live)
         /\ (s = present -> changed_of (fst dry) = changed_of (fst live))).
Proof.
  intros Hit. split; [|split].
  - intros p s w dry live. unfold dry, live.
    rewrite !users_run_sem by assumption. unfold users_sem.
    change (MysqlUsers.init (users_request_with s true p))
      with (MysqlUsers.init (users_request_with s false p)).
    remember (MysqlUsers.init (users_request_with s false p)) as self
      eqn:Eself.
    cbn [users_request_with MysqlUsers.login_port MysqlUsers.check_mode
         negb admin_up record].
    destruct (port_ok (MysqlUsers.login_port p)), (mysqldb_found w),
      (admin_up w); cbn [negb]; try (split; reflexivity).
    destruct (MysqlUsers.state self);
      repeat match goal with
        | |- context [if ?c >? 0 then _ else _] => destruct (c >? 0)
        end; same_report.
  - intros p w dry live. unfold dry, live.
    rewrite !gv_run_sem. unfold gv_sem.
    cbn [gv_request_with GlobalVariables.login_port
         GlobalVariables.check_mode GlobalVariables.variable
         GlobalVariables.value negb admin_up record].
    destruct (port_ok (GlobalVariables.login_port p)), (mysqldb_found w),
      (admin_up w); cbn [negb]; try (split; reflexivity).
    destruct (truthy (GlobalVariables.value p)); cbn [negb];
      repeat match goal with
        | |- context [if negb (?c >? 0) then _ else _] =>
            destruct (c >? 0); cbn [negb]
        | |- context [if truth ?c then _ else _] => destruct (truth c)
        end; same_report.
  - intros p s force w dry live. unfold dry, live.
    rewrite !sched_run_sem by assumption. unfold sched_sem.
    change (Scheduler.init (sched_request_with s force true p))
      with (Scheduler.init (sched_request_with s force false p)).
    remember (Scheduler.init (sched_request_with s force false p)) as self
      eqn:Eself.
    assert (Est : Scheduler.state self = s) by now subst self.
    cbn [sched_request_with Scheduler.login_port Scheduler.check_mode
         Scheduler.param_interval_ms negb admin_up record].
    destruct (port_ok (Scheduler.login_port p)),
      ((Scheduler.param_interval_ms p <? 100)
       || (Scheduler.param_interval_ms p >? 100000000)),
      (mysqldb_found w), (admin_up w); cbn [negb];
      try (repeat split; reflexivity).
    rewrite Est. destruct s;
      destruct (sched_full_count it self
                  (tables (record Connect w)) >? 0); cbn [negb];
      try destruct ((sched_full_count it self
                       (tables (record Connect w)) =? 1)
                    || Scheduler.force_delete self);
      try (repeat split; reflexivity); same_report.
Qed.

(** X16.  What [force_delete] changes.  On "ensure present", and on
    "ensure absent" when at most one row matches the request, a run with
    [force_delete] set is the run without it: the same outcome, the same
    statements sent, the same tables. *)
Theorem force_delete_only_for_many
    (it : list (string * pyval) -> list (string * pyval))
    (p : Scheduler.params) (s : state_choice) (check_mode : bool)
    (w : world) :
  arrangement it ->
  s = present
  \/ count_of (matching (sched_full_binding it (Scheduler.init p))
                 (scheduler (tables w))) <= 1 ->
  Scheduler.run it (sched_request_with s true check_mode p) w
  = Scheduler.run it (sched_request_with s false check_mode p) w.
Proof.
  intros Hit Hone. rewrite !sched_run_sem by assumption. unfold sched_sem.
  cbn [sched_request_with Scheduler.login_port Scheduler.param_interval_ms
       Scheduler.check_mode Scheduler.init Scheduler.state
       Scheduler.force_delete negb admin_up record].
  destruct (port_ok (Scheduler.login_port p)),
    ((Scheduler.param_interval_ms p <? 100)
     || (Scheduler.param_interval_ms p >? 100000000)),
    (mysqldb_found w), (admin_up w); cbn [negb]; try reflexivity.
  set (n := count_of (matching (sched_full_binding it (Scheduler.init p))
                        (scheduler (tables w)))) in *.
  match goal with
  | |- context [sched_full_count it ?self ?s] =>
      change (sched_full_count it self s) with n
  end.
  match goal with
  | |- context [sched_full_count it ?self ?s] =>
      change (sched_full_count it self s) with n
  end.
  destruct s; [reflexivity|].
  destruct Hone as [Hs|Hone]; [discriminate Hs|].
  destruct (n >? 0) eqn:Hpos; [|reflexivity].
  apply Z.gtb_lt in Hpos. replace n with 1 by lia. reflexivity.
Qed.

(** X17.  What the propagation toggles change.  Whatever [save_to_disk]
    and [load_to_runtime] are, a run of a record module ends with the
    same outcome and leaves the same tables; the toggles decide only
    which propagation commands follow a change. *)
Theorem toggles_only_propagate
    (it : list (string * pyval) -> list (string * pyval)) :
  arrangement it ->
  (forall p save load w,
      fst (MysqlUsers.run it (users_request_pushing save load p) w)
      = fst (MysqlUsers.run it p w)
      /\ tables (snd (MysqlUsers.run it (users_request_pushing save load p)
                        w))
         = tables (snd (MysqlUsers.run it p w)))
  /\ (forall p save load w,
         fst (Scheduler.run it (sched_request_pushing save load p) w)
         = fst (Scheduler.run it p w)
         /\ tables (snd (Scheduler.run it (sched_request_pushing save load p)
                           w))
            = tables (snd (Scheduler.run it p w)))
  /\ (forall p save load w,
         fst (GlobalVariables.run (gv_request_pushing save load p) w)
         = fst (GlobalVariables.run p w)
         /\ tables (snd (GlobalVariables.run (gv_request_pushing save load p)
                           w))
            = tables (snd (GlobalVariables.run p w))).
Proof.
  intros Hit. split; [|split]; intros p save load w.
  - rewrite !users_run_sem by assumption. unfold users_sem.
    cbn [users_request_pushing MysqlUsers.login_port MysqlUsers.check_mode
         MysqlUsers.init MysqlUsers.state MysqlUsers.username
         MysqlUsers.param_state MysqlUsers.param_username
         negb admin_up record].
    destruct (port_ok (MysqlUsers.login_port p)), (mysqldb_found w),
      (admin_up w); cbn [negb]; try (split; reflexivity).
    set (full := count_of (matching
                             (user_full_binding it (MysqlUsers.init p))
                             (mysql_users (tables w)))).
    set (key := count_of (matching (user_key_binding (MysqlUsers.init p))
                            (mysql_users (tables w)))).
    repeat match goal with
      | |- context [user_full_count it ?self ?s] =>
          change (user_full_count it self s) with full
      | |- context [user_key_count ?self ?s] =>
          change (user_key_count self s) with key
      end.
    destruct (MysqlUsers.param_state p), (full >? 0), (key >? 0),
      (MysqlUsers.check_mode p);
      (split; [reflexivity|tables_tac; reflexivity]).
  - rewrite !sched_run_sem by assumption. unfold sched_sem.
    cbn [sched_request_pushing Scheduler.login_port
         Scheduler.param_interval_ms Scheduler.check_mode Scheduler.init
         Scheduler.state Scheduler.force_delete Scheduler.filename
         Scheduler.param_state Scheduler.param_force_delete
         Scheduler.param_filename negb admin_up record].
    destruct (port_ok (Scheduler.login_port p)),
      ((Scheduler.param_interval_ms p <? 100)
       || (Scheduler.param_interval_ms p >? 100000000)),
      (mysqldb_found w), (admin_up w); cbn [negb];
      try (split; reflexivity).
    set (n := count_of (matching (sched_full_binding it (Scheduler.init p))
                          (scheduler (tables w)))).
    repeat match goal with
      | |- context [sched_full_count it ?self ?s] =>
          change (sched_full_count it self s) with n
      end.
    destruct (Scheduler.param_state p), (n >? 0), (n =? 1),
      (Scheduler.param_force_delete p), (Scheduler.check_mode p);
      cbn [negb orb]; (split; [reflexivity|tables_tac; reflexivity]).
  - rewrite !gv_run_sem. unfold gv_sem.
    cbn [gv_request_pushing GlobalVariables.login_port
         GlobalVariables.check_mode GlobalVariables.variable
         GlobalVariables.value negb admin_up record].
    destruct (port_ok (GlobalVariables.login_port p)), (mysqldb_found w),
      (admin_up w); cbn [negb]; try (split; reflexivity).
    destruct (truthy (GlobalVariables.value p)); cbn [negb];
      repeat match goal with
        | |- context [if negb (?c >? 0) then _ else _] =>
            destruct (c >? 0); cbn [negb]
        | |- context [if truth ?c then _ else _] => destruct (truth c)
        | |- context [if negb ?c then _ else _] => destruct c; cbn [negb]
        end; (split; [reflexivity|tables_tac; reflexivity]).
Qed.

(** ** Placeholders and parameters *)

Lemma column_not_placeholder (c : string) :
  is_column c = true -> is_placeholder c = false.
Proof.
  intros H. apply column_name in H. unfold is_name in H.
  apply andb_prop in H as [_ H]. apply negb_true_iff in H.
  unfold is_placeholder. unfold reserved in H. cbn [existsb] in H.
  repeat (apply orb_false_iff in H as [? H]). assumption.
Qed.

Lemma placeholders_conj (cols : list string) :
  columns cols ->
  length (filter is_placeholder (conj_tokens cols)) = length cols.
Proof.
  induction 1 as [|c cols Hc _ IH]; [reflexivity|].
  cbn [conj_tokens flat_map app]. fold (conj_tokens cols).
  cbn [filter]. rewrite (column_not_placeholder c Hc).
  change (is_placeholder "AND") with false.
  change (is_placeholder "=") with false.
  change (is_placeholder "%s") with true.
  cbn [length]. now rewrite IH.
Qed.

Lemma placeholders_names (cols : list string) :
  columns cols -> filter is_placeholder (name_tokens cols) = [].
Proof.
  induction 1 as [|c cols Hc _ IH]; [reflexivity|].
  cbn [name_tokens flat_map app]. fold (name_tokens cols).
  cbn [filter]. rewrite (column_not_placeholder c Hc).
  change (is_placeholder ",") with false. exact IH.
Qed.

Lemma placeholders_sets (cols : list string) :
  columns cols ->
  length (filter is_placeholder (set_tokens cols)) = length cols.
Proof.
  induction 1 as [|c cols Hc _ IH]; [reflexivity|].
  cbn [set_tokens flat_map app]. fold (set_tokens cols).
  cbn [filter]. rewrite (column_not_placeholder c Hc).
  change (is_placeholder ",") with false.
  change (is_placeholder "=") with false.
  change (is_placeholder "%s") with true.
  cbn [length]. now rewrite IH.
Qed.

Lemma placeholders_list (n : nat) :
  length (filter is_placeholder (ph_tokens n)) = S n.
Proof.
  induction n as [|n IH]; [reflexivity|].
  cbn [ph_tokens filter].
  change (is_placeholder "%s") with true.
  change (is_placeholder ",") with false.
  cbn [length]. now rewrite IH.
Qed.

Ltac count_placeholders :=
  cbn [filter is_placeholder String.eqb Ascii.eqb Bool.eqb];
  rewrite ?filter_app, ?length_app;
  cbn [filter is_placeholder String.eqb Ascii.eqb Bool.eqb length].

Lemma users_privs_bound
    (it : list (string * pyval) -> list (string * pyval))
    (self : MysqlUsers.ProxySQLUser) :
  columns (present_cols (user_attrs it self)) ->
  well_bound (MysqlUsers.check_user_privs_query it self).
Proof.
  intros Hcols. unfold well_bound. rewrite check_user_privs_query_eq.
  cbn [fst snd]. set (cols := present_cols (user_attrs it self)) in *.
  unfold placeholders, tokens. cbn -[filter length is_placeholder].
  rewrite tokens_conj by assumption.
  count_placeholders. rewrite placeholders_conj by assumption.
  unfold cols. now rewrite attr_binding_length.
Qed.

Lemma users_create_bound
    (it : list (string * pyval) -> list (string * pyval))
    (self : MysqlUsers.ProxySQLUser) :
  columns (present_cols (user_attrs it self)) ->
  well_bound (MysqlUsers.create_user_config_query it self).
Proof.
  intros Hcols. unfold well_bound. rewrite create_user_config_query_eq.
  cbn [fst snd]. set (cols := present_cols (user_attrs it self)) in *.
  remember (str_repeat "%s ," (2 + length cols) +++ "%s" +++ ")")
    as ph eqn:Eph.
  unfold placeholders, tokens. cbn -[filter length is_placeholder].
  rewrite tokens_names by (reflexivity || assumption).
  cbn -[filter length is_placeholder]. subst ph.
  rewrite tokens_placeholders_users.
  count_placeholders. rewrite placeholders_names by assumption.
  count_placeholders. rewrite placeholders_list.
  unfold cols. rewrite attr_binding_length. cbn [Nat.add]. lia.
Qed.

Lemma users_update_bound
    (it : list (string * pyval) -> list (string * pyval))
    (self : MysqlUsers.ProxySQLUser) :
  columns (present_cols (user_attrs it self)) ->
  well_bound (MysqlUsers.update_user_config_query it self).
Proof.
  intros Hcols. unfold well_bound.
  case_eq (present_cols (user_attrs it self)).
  - intros E. unfold MysqlUsers.update_user_config_query.
    change (fold_left _ ?a ?b) with (fold_left update_body a b).
    rewrite fold_update_first. cbv beta iota zeta.
    fold (user_attrs it self). rewrite E.
    assert (Ev : present_vals (user_attrs it self) = []).
    { apply length_zero_iff_nil. rewrite <- attr_binding_length.
      now rewrite E. }
    rewrite Ev. reflexivity.
  - intros c cs E. rewrite (update_user_config_query_eq it self c cs E).
    cbn [fst snd]. rewrite E in Hcols.
    inversion Hcols as [|? ? Hc Hcs]; subst.
    unfold placeholders, tokens. cbn -[filter length is_placeholder].
    rewrite tokens_from_column by assumption.
    cbn -[filter length is_placeholder].
    rewrite flush_column by assumption.
    cbn -[filter length is_placeholder].
    rewrite tokens_sets by assumption.
    cbn -[filter length is_placeholder].
    count_placeholders. rewrite (column_not_placeholder c Hc).
    count_placeholders. rewrite length_app.
    rewrite placeholders_sets by assumption.
    rewrite <- attr_binding_length, E. unfold MysqlUsers.key_data.
    cbn [length]. lia.
Qed.

Lemma sched_conjuncts_bound
    (it : list (string * pyval) -> list (string * pyval))
    (self : Scheduler.ProxySQLSchedule) :
  columns (present_cols (sched_attrs it self)) ->
  well_bound (Scheduler.check_schedule_config_query it self)
  /\ well_bound (Scheduler.get_schedule_config_query it self)
  /\ well_bound (Scheduler.delete_schedule_config_query it self).
Proof.
  intros Hcols.
  unfold well_bound, Scheduler.check_schedule_config_query,
    Scheduler.get_schedule_config_query,
    Scheduler.delete_schedule_config_query.
  rewrite !add_conjuncts_eq. cbn [fst snd].
  set (cols := present_cols (sched_attrs it self)) in *.
  unfold placeholders, tokens.
  repeat split;
    cbn -[filter length is_placeholder];
    rewrite tokens_conj by assumption;
    count_placeholders; rewrite placeholders_conj by assumption;
    unfold cols; now rewrite attr_binding_length.
Qed.

Lemma sched_create_bound
    (it : list (string * pyval) -> list (string * pyval))
    (self : Scheduler.ProxySQLSchedule) :
  columns (present_cols (sched_attrs it self)) ->
  well_bound (Scheduler.create_schedule_config_query it self).
Proof.
  intros Hcols. unfold well_bound. rewrite create_schedule_config_query_eq.
  cbn [fst snd]. set (cols := present_cols (sched_attrs it self)) in *.
  remember (str_repeat ", %s" (length cols) +++ ")") as ph eqn:Eph.
  unfold placeholders, tokens. cbn -[filter length is_placeholder].
  rewrite tokens_names by (reflexivity || assumption).
  cbn -[filter length is_placeholder]. subst ph.
  rewrite tokens_placeholders_scheduler.
  count_placeholders. rewrite placeholders_names by assumption.
  count_placeholders. rewrite placeholders_list.
  unfold cols. rewrite attr_binding_length. lia.
Qed.

(** X13.  Parameters and placeholders.  Every statement the three record
    modules build carries exactly as many parameters as its text has
    [%s] placeholders, whatever attributes are set and in whatever order
    the dict yields them: the counts, the selects, the inserts with their
    generated [VALUES] list, the update and the deletes. *)
Theorem parameters_fill_placeholders
    (it : list (string * pyval) -> list (string * pyval)) :
  arrangement it ->
  (forall p,
      let self := MysqlUsers.init p in
      well_bound (MysqlUsers.check_user_config_exists_query self)
      /\ well_bound (MysqlUsers.check_user_privs_query it self)
      /\ well_bound (MysqlUsers.get_user_config_query self)
      /\ well_bound (MysqlUsers.create_user_config_query it self)
      /\ well_bound (MysqlUsers.update_user_config_query it self)
      /\ well_bound (MysqlUsers.delete_user_config_query self))
  /\ (forall p,
         let self := Scheduler.init p in
         well_bound (Scheduler.check_schedule_config_query it self)
         /\ well_bound (Scheduler.get_schedule_config_query it self)
         /\ well_bound (Scheduler.create_schedule_config_query it self)
         /\ well_bound (Scheduler.delete_schedule_config_query it self))
  /\ (forall variable value,
         well_bound (GlobalVariables.check_config_query variable value)
         /\ well_bound (GlobalVariables.get_config_query variable)
         /\ well_bound (GlobalVariables.set_config_query variable value)).
Proof.
  intros Hit. split; [|split].
  - intros p self. pose proof (user_columns it p Hit) as Hcols.
    fold self in Hcols.
    split; [reflexivity|]. split; [now apply users_privs_bound|].
    split; [reflexivity|]. split; [now apply users_create_bound|].
    split; [now apply users_update_bound|reflexivity].
  - intros p self. pose proof (sched_columns it p Hit) as Hcols.
    fold self in Hcols.
    destruct (sched_conjuncts_bound it self Hcols) as (Hc & Hg & Hd).
    split; [exact Hc|]. split; [exact Hg|].
    split; [now apply sched_create_bound|exact Hd].
  - intros variable value. repeat split.
Qed.

(** ** The update without attributes *)

Lemma nothing_present
    (it : list (string * pyval) -> list (string * pyval))
    (items : list (string * pyval)) :
  arrangement it ->
  Forall (fun kv => snd kv = PyNone) items ->
  present_items (it items) = [].
Proof.
  intros Hit Hall.
  assert (H : Forall (fun kv => snd kv = PyNone) (it items)).
  { apply (Permutation_Forall (Permutation_sym (Hit items))). exact Hall. }
  unfold present_items. induction H as [|[k v] l Hv _ IH]; [reflexivity|].
  cbn in *. subst v. exact IH.
Qed.

(** X14.  The update that is never sent.  When no attribute of the user
    is set, [update_user_config] would build a text whose table name has
    lost its last letter and no [SET] clause; the store refuses it with
    a syntax error and changes nothing.  A run never gets there: with
    "ensure present" and no attribute set it reports that nothing needs
    to change when a row has the key, and creates the user otherwise. *)
Theorem update_without_attributes
    (it : list (string * pyval) -> list (string * pyval))
    (p : MysqlUsers.params) (w : world) :
  arrangement it ->
  let self := MysqlUsers.init p in
  Forall (fun kv => snd kv = PyNone) (MysqlUsers.config_data self) ->
  MysqlUsers.update_user_config_query it self
  = ("UPDATE mysql_user" +++ nl +++ "WHERE username = %s" +++ nl +++
     "  AND backend = %s" +++ nl +++ "  AND frontend = %s",
     MysqlUsers.key_data self)
  /\ MysqlUsers.update_user_config it self w
     = (Raise (MySQLdb_Error "You have an error in your SQL syntax"),
        asked (MysqlUsers.update_user_config_query it self) w)
  /\ (users_ready p w = true ->
      MysqlUsers.param_state p = present ->
      reported_action (fst (MysqlUsers.run it p w))
      = Some (if count_of (matching (user_key_binding self)
                             (mysql_users (tables w))) >? 0
              then noop else create)).
Proof.
  intros Hit self Hnone.
  assert (Hcols : present_cols (user_attrs it self) = []).
  { unfold present_cols, user_attrs. now rewrite nothing_present. }
  assert (Hvals : present_vals (user_attrs it self) = []).
  { unfold present_vals, user_attrs. now rewrite nothing_present. }
  assert (Hq : MysqlUsers.update_user_config_query it self
               = ("UPDATE mysql_user" +++ nl +++ "WHERE username = %s" +++
                  nl +++ "  AND backend = %s" +++ nl +++
                  "  AND frontend = %s",
                  MysqlUsers.key_data self)).
  { unfold MysqlUsers.update_user_config_query.
    change (fold_left _ ?a ?b) with (fold_left update_body a b).
    rewrite fold_update_first. cbv beta iota zeta.
    fold (user_attrs it self). rewrite Hcols, Hvals. reflexivity. }
  split; [exact Hq|]. split.
  - unfold MysqlUsers.update_user_config. rewrite Hq. reflexivity.
  - intros Hr Hst. rewrite (users_run_ready it p w Hit Hr). cbv zeta.
    fold self. rewrite Hst.
    assert (Hsame : user_full_binding it self = user_key_binding self).
    { unfold user_full_binding, attr_binding. rewrite Hcols.
      cbn [combine]. apply app_nil_r. }
    rewrite Hsame.
    destruct (count_of (matching (user_key_binding self)
                          (mysql_users (tables w))) >? 0);
      [reported_tac|].
    destruct (MysqlUsers.check_mode p); reported_tac.
Qed.

(** ** What a run reports *)

(** Reads an entry of a result built with [dict_set]. *)
Ltac entry_tac :=
  cbn [changed_of field_of fst snd];
  repeat first
    [ rewrite dict_get_set_same
    | rewrite dict_get_set_other by reflexivity ];
  try reflexivity.

(** X15.  The shape of a result.  Every run that ends with [exit_json]
    reports a [changed] entry and a [msg] that names one of the four
    actions.  The user module echoes [state] and, unless it is empty,
    [username]; the scheduler module echoes [state] and [filename].  In
    the user and the global variables modules [changed] is [True] or
    [False]; in the scheduler module it is [True], [False], or on a live
    delete the pair of [True] and the number of rows removed. *)
Theorem result_shape
    (it : list (string * pyval) -> list (string * pyval)) :
  arrangement it ->
  (forall p w d,
      fst (MysqlUsers.run it p w) = Exit_json d ->
      dict_get "state" d
      = Some (Val (PyStr (state_str (MysqlUsers.param_state p))))
      /\ dict_get "username" d
         = (if String.eqb (MysqlUsers.param_username p) "" then None
            else Some (Val (PyStr (MysqlUsers.param_username p))))
      /\ (dict_get "changed" d = Some py_True
          \/ dict_get "changed" d = Some py_False)
      /\ exists a, reported_action (Exit_json d) = Some a)
  /\ (forall p w d,
         fst (Scheduler.run it p w) = Exit_json d ->
         dict_get "state" d
         = Some (Val (PyStr (state_str (Scheduler.param_state p))))
         /\ dict_get "filename" d
            = Some (Val (PyStr (Scheduler.param_filename p)))
         /\ (dict_get "changed" d = Some py_True
             \/ dict_get "changed" d = Some py_False
             \/ exists n, 0 < n
                          /\ dict_get "changed" d
                             = Some (Tuple [PyBool true; PyInt n]))
         /\ exists a, reported_action (Exit_json d) = Some a)
  /\ (forall p w d,
         fst (GlobalVariables.run p w) = Exit_json d ->
         (dict_get "changed" d = Some py_True
          \/ dict_get "changed" d = Some py_False)
         /\ exists a, reported_action (Exit_json d) = Some a).
Proof.
  intros Hit. split; [|split]; intros p w d.
  - rewrite users_run_sem by assumption. unfold users_sem.
    cbn [negb admin_up record MysqlUsers.init MysqlUsers.state
         MysqlUsers.username truthy].
    destruct (port_ok (MysqlUsers.login_port p)), (mysqldb_found w),
      (admin_up w); cbn [negb fst]; try discriminate.
    destruct (String.eqb (MysqlUsers.param_username p) "");
      cbn [negb];
      destruct (MysqlUsers.param_state p);
      repeat match goal with
        | |- context [if ?c >? 0 then _ else _] => destruct (c >? 0)
        | |- context [if MysqlUsers.check_mode p then _ else _] =>
            destruct (MysqlUsers.check_mode p)
        end;
      cbn [fst]; intros E; injection E as <-;
      (split; [entry_tac|]); (split; [entry_tac|]);
      (split; [first [left; entry_tac; fail | right; entry_tac]|]);
      eexists; reported_tac.
  - rewrite sched_run_sem by assumption. unfold sched_sem.
    cbn [negb admin_up record Scheduler.init Scheduler.state
         Scheduler.filename Scheduler.force_delete].
    destruct (port_ok (Scheduler.login_port p)),
      ((Scheduler.param_interval_ms p <? 100)
       || (Scheduler.param_interval_ms p >? 100000000)),
      (mysqldb_found w), (admin_up w); cbn [negb fst]; try discriminate.
    match goal with
    | |- context [sched_full_count it ?self ?s] =>
        set (n := sched_full_count it self s)
    end.
    destruct (n >? 0) eqn:Hpos; cbn [negb];
      destruct (Scheduler.param_state p);
      try destruct ((n =? 1) || Scheduler.param_force_delete p);
      try destruct (Scheduler.check_mode p);
      cbn [fst]; try discriminate; intros E; injection E as <-;
      (split; [entry_tac|]); (split; [entry_tac|]);
      (split;
       [first [ left; entry_tac; fail
              | right; left; entry_tac; fail
              | right; right; exists n; split;
                [now apply Z.gtb_lt|entry_tac] ]|]);
      eexists; reported_tac.
  - rewrite gv_run_sem. unfold gv_sem.
    cbn [negb admin_up record].
    destruct (port_ok (GlobalVariables.login_port p)), (mysqldb_found w),
      (admin_up w); cbn [negb fst]; try discriminate.
    destruct (truthy (GlobalVariables.value p)); cbn [negb];
      repeat match goal with
        | |- context [if negb (?c >? 0) then _ else _] =>
            destruct (c >? 0); cbn [negb]
        | |- context [if truth ?c then _ else _] => destruct (truth c)
        | |- context [if negb ?c then _ else _] => destruct c; cbn [negb]
        end;
      cbn [fst]; try discriminate; intros E; injection E as <-;
      (split; [first [left; entry_tac; fail | right; entry_tac]|]);
      eexists; reported_tac.
Qed.

Lemma gv_found_first (variable : string) (s : store) :
  negb (is_nil (matching (gv_key_binding variable) (global_variables s)))
  = true ->
  gv_found variable s
  = first_of (matching (gv_key_binding variable) (global_variables s)).
Proof.
  unfold gv_found.
  destruct (matching (gv_key_binding variable) (global_variables s));
    [discriminate|reflexivity].
Qed.

(** X18.  The record a live run returns.  On "ensure present" the user
    module returns under [user] the first row with the key fields in the
    table as the run leaves it, whether it created, rewrote or left the
    rows; the scheduler module returns under [schedules] every row that
    matches the request in the table as the run leaves it; the global
    variables module returns under [var] the first row of the variable
    as the run leaves it.  On "ensure absent" the two modules return what
    the same select gave before the delete, and nothing when there was
    nothing to delete. *)
Theorem returned_record
    (it : list (string * pyval) -> list (string * pyval)) :
  arrangement it ->
  (forall p w,
      users_ready p w = true ->
      MysqlUsers.check_mode p = false ->
      let key := user_key_binding (MysqlUsers.init p) in
      let r := MysqlUsers.run it p w in
      match MysqlUsers.param_state p with
      | present =>
          field_of "user" (fst r)
          = Some (first_of (matching key (mysql_users (tables (snd r)))))
      | absent =>
          field_of "user" (fst r)
          = match matching key (mysql_users (tables w)) with
            | [] => None
            | rows => Some (first_of rows)
            end
      end)
  /\ (forall p w,
         sched_ready p w = true ->
         Scheduler.check_mode p = false ->
         let full := sched_full_binding it (Scheduler.init p) in
         let r := Scheduler.run it p w in
         match Scheduler.param_state p with
         | present =>
             field_of "schedules" (fst r)
             = Some (Rows (matching full (scheduler (tables (snd r)))))
         | absent =>
             forall d, fst r = Exit_json d ->
             dict_get "schedules" d
             = match matching full (scheduler (tables w)) with
               | [] => None
               | rows => Some (Rows rows)
               end
         end)
  /\ (forall p w d,
         gv_ready p w = true ->
         GlobalVariables.check_mode p = false ->
         fst (GlobalVariables.run p w) = Exit_json d ->
         dict_get "var" d
         = Some (first_of
                   (matching (gv_key_binding (GlobalVariables.variable p))
                      (global_variables
                         (tables (snd (GlobalVariables.run p w))))))).
Proof.
  intros Hit. split; [|split].
  - intros p w Hr Hlive key r. unfold r.
    rewrite (users_run_ready it p w Hit Hr). cbv zeta.
    fold key. rewrite Hlive.
    destruct (MysqlUsers.param_state p).
    + repeat match goal with
        | |- context [if ?c >? 0 then _ else _] => destruct (c >? 0)
        end; tables_tac; entry_tac.
    + rewrite count_pos_iff.
      destruct (matching key (mysql_users (tables w))) as [|r0 rows];
        cbn [is_nil negb]; entry_tac.
      destruct (truthy (PyStr (MysqlUsers.param_username p))); reflexivity.
  - intros p w Hr Hlive full r. unfold r.
    rewrite (sched_run_ready it p w Hit Hr). cbv zeta.
    fold full. rewrite Hlive.
    destruct (Scheduler.param_state p).
    + destruct (count_of (matching full (scheduler (tables w))) >? 0);
        tables_tac; entry_tac.
    + intros d. rewrite count_pos_iff.
      destruct (matching full (scheduler (tables w))) as [|r0 rows];
        cbn [is_nil negb].
      * intros E. injection E as <-. entry_tac.
      * destruct ((count_of (r0 :: rows) =? 1)
                  || Scheduler.param_force_delete p);
          [|discriminate].
        intros E. injection E as <-. entry_tac.
  - intros p w d Hr Hlive. rewrite (gv_run_ready p w Hr). cbv zeta.
    rewrite Hlive.
    set (key := gv_key_binding (GlobalVariables.variable p)).
    destruct (is_nil (matching key (global_variables (tables w))))
      eqn:Hnil; [discriminate|].
    destruct (truthy (GlobalVariables.value p)) eqn:Hv; cbn [negb].
    + destruct (count_of
                  (matching
                     (gv_full_binding (GlobalVariables.variable p)
                        (GlobalVariables.value p))
                     (global_variables (tables w))) >? 0);
        intros E; injection E as <-.
      * tables_tac. cbn [dict_get dict_set String.eqb Ascii.eqb Bool.eqb].
        f_equal. apply gv_found_first. fold key. now rewrite Hnil.
      * cbn [dict_get dict_set String.eqb Ascii.eqb Bool.eqb].
        cbn [snd]. rewrite tables_propagate.
        cbn [tables asked sent with_tables record].
        f_equal. apply gv_found_first.
        change (global_variables
                  (table_put "global_variables" ?rows (tables w)))
          with rows.
        rewrite <- count_pos_iff.
        apply (matching_weaken key
                 [("variable_value", literal (GlobalVariables.value p))]).
        apply matching_updated.
        -- cbn. repeat constructor. intros [].
        -- repeat constructor. cbn [snd]. apply literal_not_null.
           now apply truthy_not_None.
        -- intros c [<-|[]] [E|[]]. discriminate E.
        -- now rewrite count_pos_iff, Hnil.
    + intros E; injection E as <-. tables_tac.
      cbn [dict_get dict_set String.eqb Ascii.eqb Bool.eqb]. f_equal.
      apply gv_found_first. fold key. now rewrite Hnil.
Qed.

(** ** The theorems at concrete inputs *)

(** The end-to-end example: [mysql-max_connections] stored as 2000 and
    wanted as 4096. *)
Example max_connections_example :
  fst (GlobalVariables.run set_max_connections max_connections_2000)
  = Exit_json
      [("changed", py_True);
       ("msg", Val (PyStr "Set the variable to the supplied value"));
       ("var", Dict (variable_row max_connections "4096"))]
  /\ fst (GlobalVariables.run set_max_connections
            (snd (GlobalVariables.run set_max_connections
                    max_connections_2000)))
     = Exit_json
         [("changed", py_False);
          ("msg",
           Val (PyStr "The variable is already been set to the supplied value"));
          ("var", Dict (variable_row max_connections "4096"))].
Proof. split; vm_compute; reflexivity. Qed.

Lemma present_decision_witness :
  arrangement in_order
  /\ (users_ready set_bob_new bob_old = true
      /\ MysqlUsers.param_state set_bob_new = present
      /\ reported_action (fst (MysqlUsers.run in_order set_bob_new bob_old))
         = Some update
      /\ exists evs,
          since bob_old (snd (MysqlUsers.run in_order set_bob_new bob_old))
            evs
          /\ written evs = [update])
  /\ (sched_ready add_new_schedule old_schedule = true
      /\ Scheduler.param_state add_new_schedule = present
      /\ reported_action (fst (Scheduler.run in_order add_new_schedule
                                 old_schedule))
         = Some create
      /\ exists evs,
          since old_schedule
            (snd (Scheduler.run in_order add_new_schedule old_schedule)) evs
          /\ written evs = [create])
  /\ (gv_ready set_max_connections max_connections_2000 = true
      /\ truthy (GlobalVariables.value set_max_connections) = true
      /\ reported_action (fst (GlobalVariables.run set_max_connections
                                 max_connections_2000))
         = Some update
      /\ exists evs,
          since max_connections_2000
            (snd (GlobalVariables.run set_max_connections
                    max_connections_2000)) evs
          /\ written evs = [update]).
Proof.
  destruct (present_decision in_order in_order_arrangement)
    as (Hu & Hs & Hg).
  split; [apply in_order_arrangement|].
  split; [|split].
  - split; [reflexivity|]. split; [reflexivity|].
    exact (Hu set_bob_new bob_old eq_refl eq_refl).
  - split; [reflexivity|]. split; [reflexivity|].
    exact (Hs add_new_schedule old_schedule eq_refl eq_refl).
  - split; [reflexivity|]. split; [reflexivity|].
    exact (Hg set_max_connections max_connections_2000 eq_refl eq_refl).
Defined.

Lemma ambiguous_delete_witness :
  arrangement in_order
  /\ sched_ready (remove_schedule false) two_schedules = true
  /\ Scheduler.param_state (remove_schedule false) = absent
  /\ 1 < count_of
           (matching
              (sched_full_binding in_order
                 (Scheduler.init (remove_schedule false)))
              (scheduler (tables two_schedules)))
  /\ Scheduler.param_force_delete (remove_schedule false) = false
  /\ Scheduler.run in_order (remove_schedule false) two_schedules
     = (Failed cardinality_error,
        asked (Scheduler.check_schedule_config_query in_order
                 (Scheduler.init (remove_schedule false)))
          (record Connect two_schedules))
  /\ Scheduler.param_force_delete (force_remove_schedules false) = true
  /\ Scheduler.check_mode (force_remove_schedules false) = false
  /\ scheduler
       (tables (snd (Scheduler.run in_order (force_remove_schedules false)
                       two_schedules)))
     = []
  /\ changed_of (fst (Scheduler.run in_order (force_remove_schedules false)
                        two_schedules))
     = Some (Tuple [PyBool true; PyInt 2]).
Proof.
  destruct (ambiguous_delete in_order in_order_arrangement) as (Hs & _).
  split; [apply in_order_arrangement|].
  do 4 (split; [reflexivity|]).
  split.
  - exact (proj1 (Hs (remove_schedule false) two_schedules eq_refl eq_refl
                    eq_refl) eq_refl).
  - do 2 (split; [reflexivity|]).
    destruct (proj2 (Hs (force_remove_schedules false) two_schedules eq_refl
                       eq_refl eq_refl) eq_refl eq_refl)
      as (Ht & _ & Hc & _).
    split; [rewrite Ht; reflexivity|exact Hc].
Defined.

Lemma present_twice_witness :
  arrangement in_order
  /\ gv_ready set_max_connections max_connections_2000 = true
  /\ truthy (GlobalVariables.value set_max_connections) = true
  /\ GlobalVariables.check_mode set_max_connections = false
  /\ is_nil (matching (gv_key_binding max_connections)
               (global_variables (tables max_connections_2000))) = false
  /\ (count_of (matching (gv_full_binding max_connections (PyStr "4096"))
                  (global_variables (tables max_connections_2000))) >? 0)
     = false
  /\ changed_of (fst (GlobalVariables.run set_max_connections
                        max_connections_2000))
     = Some py_True
  /\ reported_action (fst (GlobalVariables.run set_max_connections
                             max_connections_2000))
     = Some update
  /\ (exists r,
         field_of "var" (fst (GlobalVariables.run set_max_connections
                                max_connections_2000))
         = Some (Dict r)
         /\ cell "variable_name" r = SqlText max_connections
         /\ cell "variable_value" r = SqlText "4096")
  /\ changed_of
       (fst (GlobalVariables.run set_max_connections
               (snd (GlobalVariables.run set_max_connections
                       max_connections_2000))))
     = Some py_False
  /\ reported_action
       (fst (GlobalVariables.run set_max_connections
               (snd (GlobalVariables.run set_max_connections
                       max_connections_2000))))
     = Some noop
  /\ tables
       (snd (GlobalVariables.run set_max_connections
               (snd (GlobalVariables.run set_max_connections
                       max_connections_2000))))
     = tables (snd (GlobalVariables.run set_max_connections
                      max_connections_2000))
  /\ field_of "var"
       (fst (GlobalVariables.run set_max_connections
               (snd (GlobalVariables.run set_max_connections
                       max_connections_2000))))
     = field_of "var"
         (fst (GlobalVariables.run set_max_connections max_connections_2000)).
Proof.
  destruct (present_twice in_order in_order_arrangement)
    as (_ & _ & Hg & _).
  split; [apply in_order_arrangement|].
  do 5 (split; [reflexivity|]).
  exact (Hg set_max_connections max_connections_2000 eq_refl eq_refl eq_refl
           eq_refl eq_refl).
Defined.


Lemma delete_predicates_witness :
  arrangement in_order
  /\ Scheduler.delete_schedule_config in_order
       (Scheduler.init (force_remove_schedules false)) two_schedules
     = (Ok (Tuple [PyBool true; PyInt 2]),
        sent (Scheduler.delete_schedule_config_query in_order
                (Scheduler.init (force_remove_schedules false)))
          (table_put "scheduler" [] (tables two_schedules)) two_schedules)
  /\ MysqlUsers.delete_user_config (MysqlUsers.init remove_bob_new) bob_old
     = (Ok py_True,
        sent (MysqlUsers.delete_user_config_query
                (MysqlUsers.init remove_bob_new))
          (table_put "mysql_users" [] (tables bob_old)) bob_old).
Proof.
  destruct (delete_predicates in_order in_order_arrangement) as (Hs & Hu).
  split; [apply in_order_arrangement|]. split.
  - exact (proj1 (Hs (force_remove_schedules false) two_schedules)).
  - exact (proj1 (Hu (MysqlUsers.init remove_bob_new) bob_old)).
Defined.

Lemma config_layer_legality_witness :
  port_ok 6032 = true
  /\ ManageConfig.run (config_request ManageConfig.SAVE ManageConfig.FROM)
       no_variables
     = (Failed (config_layer_message ManageConfig.SAVE ManageConfig.FROM),
        no_variables)
  /\ ManageConfig.run (config_request ManageConfig.LOAD ManageConfig.TO)
       no_variables
     = (Failed (config_layer_message ManageConfig.LOAD ManageConfig.TO),
        no_variables)
  /\ ManageConfig.run (config_request ManageConfig.SAVE ManageConfig.TO)
       no_variables
     = (Failed (config_layer_message ManageConfig.SAVE ManageConfig.TO),
        no_variables)
  /\ ManageConfig.run (config_request ManageConfig.LOAD ManageConfig.FROM)
       no_variables
     = (Exit_json [("changed", py_True)],
        asked ("LOAD MYSQL USERS FROM CONFIG", [])
          (record Connect no_variables)).
Proof.
  destruct (config_layer_legality 6032 (Some ManageConfig.MYSQL_USERS)
              no_variables eq_refl) as (_ & Hok & Hsf & Hlt & Hst).
  split; [reflexivity|].
  split; [exact Hsf|]. split; [exact Hlt|]. split; [exact Hst|].
  exact (Hok ManageConfig.MYSQL_USERS eq_refl eq_refl eq_refl).
Defined.

Lemma bulk_transfer_changed_witness :
  port_ok (ManageConfig.login_port save_users_to_disk) = true
  /\ mysqldb_found no_variables = true
  /\ admin_up no_variables = true
  /\ ManageConfig.param_config_settings save_users_to_disk
     = Some ManageConfig.MYSQL_USERS
  /\ ManageConfig.param_config_layer save_users_to_disk
     = Some ManageConfig.DISK
  /\ legal ManageConfig.SAVE ManageConfig.TO ManageConfig.DISK = true
  /\ ManageConfig.run save_users_to_disk no_variables
     = (Exit_json [("changed", py_True)],
        asked ("SAVE MYSQL USERS TO DISK", []) (record Connect no_variables)).
Proof.
  do 6 (split; [reflexivity|]).
  exact (bulk_transfer_changed save_users_to_disk ManageConfig.MYSQL_USERS
           ManageConfig.DISK no_variables eq_refl eq_refl eq_refl eq_refl
           eq_refl eq_refl).
Defined.

Lemma predicate_order_witness :
  arrangement in_order
  /\ arrangement reversed
  /\ Permutation
       (attr_binding
          (user_attrs in_order (MysqlUsers.init bob_with_password_and_flag)))
       (attr_binding
          (user_attrs reversed (MysqlUsers.init bob_with_password_and_flag)))
  /\ forall s,
      user_full_count in_order (MysqlUsers.init bob_with_password_and_flag) s
      = user_full_count reversed
          (MysqlUsers.init bob_with_password_and_flag) s.
Proof.
  destruct (predicate_order in_order reversed in_order_arrangement
              reversed_arrangement) as (Hu & _).
  split; [apply in_order_arrangement|].
  split; [apply reversed_arrangement|].
  exact (proj2 (Hu bob_with_password_and_flag)).
Defined.

Lemma falsy_value_only_reads_witness :
  truthy (GlobalVariables.value get_max_connections) = false
  /\ tables (snd (GlobalVariables.run get_max_connections
                    max_connections_2000))
     = tables max_connections_2000
  /\ fst (GlobalVariables.run get_max_connections max_connections_2000)
     = Exit_json
         [("changed", py_False);
          ("msg", Val (PyStr "Returned the variable and it's current value"));
          ("var", Dict (variable_row max_connections "2000"))].
Proof.
  split; [reflexivity|].
  pose proof (falsy_value_only_reads get_max_connections
                max_connections_2000 eq_refl) as H.
  destruct (GlobalVariables.run get_max_connections max_connections_2000)
    as [o w'] eqn:E.
  destruct H as (Ht & _ & Ho).
  split; [exact Ht|].
  exact (Ho eq_refl eq_refl eq_refl).
Defined.

(** ** The further properties at concrete inputs *)

Lemma port_out_of_range_witness :
  arrangement in_order
  /\ (Scheduler.login_port bad_port_schedule < 0
      \/ 65535 < Scheduler.login_port bad_port_schedule)
  /\ Scheduler.run in_order bad_port_schedule one_schedule
     = (Failed port_message, one_schedule)
  /\ 0 <= MysqlUsers.login_port set_bob_new <= 65535
  /\ fst (MysqlUsers.run in_order set_bob_new bob_old) <> Failed port_message.
Proof.
  destruct (port_out_of_range in_order in_order_arrangement)
    as (Hu & Hs & _).
  split; [apply in_order_arrangement|].
  assert (Hbad : Scheduler.login_port bad_port_schedule < 0
                 \/ 65535 < Scheduler.login_port bad_port_schedule)
    by (right; reflexivity).
  assert (Hgood : 0 <= MysqlUsers.login_port set_bob_new <= 65535)
    by (cbn; lia).
  split; [exact Hbad|].
  split; [exact (proj1 (Hs bad_port_schedule one_schedule) Hbad)|].
  split; [exact Hgood|].
  exact (proj2 (Hu set_bob_new bob_old) Hgood).
Defined.

Lemma interval_out_of_range_witness :
  arrangement in_order
  /\ 0 <= Scheduler.login_port (schedule_every 99) <= 65535
  /\ (Scheduler.param_interval_ms (schedule_every 99) < 100
      \/ 100000000 < Scheduler.param_interval_ms (schedule_every 99))
  /\ Scheduler.run in_order (schedule_every 99) one_schedule
     = (Failed interval_message, one_schedule)
  /\ 100 <= Scheduler.param_interval_ms (schedule_every 100) <= 100000000
  /\ fst (Scheduler.run in_order (schedule_every 100) one_schedule)
     <> Failed interval_message.
Proof.
  split; [apply in_order_arrangement|].
  assert (Hport : 0 <= Scheduler.login_port (schedule_every 99) <= 65535)
    by (cbn; lia).
  assert (Hbad : Scheduler.param_interval_ms (schedule_every 99) < 100
                 \/ 100000000 < Scheduler.param_interval_ms (schedule_every 99))
    by (left; reflexivity).
  assert (Hgood : 100 <= Scheduler.param_interval_ms (schedule_every 100)
                  <= 100000000) by (cbn; lia).
  split; [exact Hport|]. split; [exact Hbad|].
  split.
  - exact (proj1 (interval_out_of_range in_order (schedule_every 99)
                    one_schedule in_order_arrangement) Hport Hbad).
  - split; [exact Hgood|].
    exact (proj2 (interval_out_of_range in_order (schedule_every 100)
                    one_schedule in_order_arrangement) Hgood).
Defined.

Lemma driver_missing_witness :
  arrangement in_order
  /\ 0 <= MysqlUsers.login_port set_bob_new <= 65535
  /\ mysqldb_found (without_driver (users [user_row "old"])) = false
  /\ MysqlUsers.run in_order set_bob_new
       (without_driver (users [user_row "old"]))
     = (Failed driver_message, without_driver (users [user_row "old"]))
  /\ mysqldb_found bob_old = true
  /\ fst (MysqlUsers.run in_order set_bob_new bob_old)
     <> Failed driver_message.
Proof.
  destruct (driver_missing in_order in_order_arrangement) as (Hu & _).
  split; [apply in_order_arrangement|].
  assert (Hport : 0 <= MysqlUsers.login_port set_bob_new <= 65535)
    by (cbn; lia).
  split; [exact Hport|]. split; [reflexivity|].
  split.
  - exact (proj1 (Hu set_bob_new (without_driver (users [user_row "old"])))
             Hport eq_refl).
  - split; [reflexivity|].
    exact (proj2 (Hu set_bob_new bob_old) eq_refl).
Defined.

Lemma connection_refused_witness :
  arrangement in_order
  /\ 0 <= GlobalVariables.login_port set_max_connections <= 65535
  /\ mysqldb_found (admin_down (variables [])) = true
  /\ admin_up (admin_down (variables [])) = false
  /\ GlobalVariables.run set_max_connections (admin_down (variables []))
     = (Failed connect_failure, record Connect (admin_down (variables [])))
  /\ admin_up max_connections_2000 = true
  /\ fst (GlobalVariables.run set_max_connections max_connections_2000)
     <> Failed connect_failure.
Proof.
  destruct (connection_refused in_order in_order_arrangement)
    as (_ & _ & Hg & _).
  split; [apply in_order_arrangement|].
  assert (Hport : 0 <= GlobalVariables.login_port set_max_connections
                  <= 65535) by (cbn; lia).
  split; [exact Hport|]. split; [reflexivity|]. split; [reflexivity|].
  split.
  - exact (proj1 (Hg set_max_connections (admin_down (variables [])))
             Hport eq_refl eq_refl).
  - split; [reflexivity|].
    exact (proj2 (Hg set_max_connections max_connections_2000) eq_refl).
Defined.

Lemma transfer_missing_word_witness :
  0 <= ManageConfig.login_port transfer_without_layer <= 65535
  /\ mysqldb_found no_variables = true
  /\ admin_up no_variables = true
  /\ ManageConfig.param_config_layer transfer_without_layer = None
  /\ ManageConfig.run transfer_without_layer no_variables
     = (Traceback "TypeError", record Connect no_variables).
Proof.
  assert (Hport : 0 <= ManageConfig.login_port transfer_without_layer
                  <= 65535) by (cbn; lia).
  split; [exact Hport|]. split; [reflexivity|]. split; [reflexivity|].
  split; [reflexivity|].
  apply (transfer_missing_word transfer_without_layer no_variables Hport
           eq_refl eq_refl).
  - intros H. discriminate H.
  - right. reflexivity.
Defined.

Lemma other_tables_untouched_witness :
  arrangement in_order
  /\ global_variables
       (tables (snd (MysqlUsers.run in_order set_bob_new bob_old)))
     = global_variables (tables bob_old)
  /\ scheduler (tables (snd (MysqlUsers.run in_order set_bob_new bob_old)))
     = scheduler (tables bob_old).
Proof.
  destruct (other_tables_untouched in_order in_order_arrangement)
    as (Hu & _).
  split; [apply in_order_arrangement|].
  exact (Hu set_bob_new bob_old).
Defined.

Lemma update_confined_witness :
  arrangement in_order
  /\ users_ready set_bob_new bob_old = true
  /\ MysqlUsers.param_state set_bob_new = present
  /\ MysqlUsers.check_mode set_bob_new = false
  /\ (count_of (matching (user_key_binding (MysqlUsers.init set_bob_new))
                  (mysql_users (tables bob_old))) >? 0) = true
  /\ (count_of (matching
                  (user_full_binding in_order (MysqlUsers.init set_bob_new))
                  (mysql_users (tables bob_old))) >? 0) = false
  /\ reported_action (fst (MysqlUsers.run in_order set_bob_new bob_old))
     = Some update
  /\ Forall2
       (rewritten (user_key_binding (MysqlUsers.init set_bob_new))
          (attr_binding
             (MysqlUsers.config_data (MysqlUsers.init set_bob_new))))
       (mysql_users (tables bob_old))
       (mysql_users
          (tables (snd (MysqlUsers.run in_order set_bob_new bob_old)))).
Proof.
  split; [apply in_order_arrangement|].
  do 5 (split; [reflexivity|]).
  exact (update_confined in_order set_bob_new bob_old in_order_arrangement
           eq_refl eq_refl eq_refl eq_refl eq_refl).
Defined.

Lemma set_confined_witness :
  gv_ready set_max_connections max_connections_2000 = true
  /\ truthy (GlobalVariables.value set_max_connections) = true
  /\ GlobalVariables.check_mode set_max_connections = false
  /\ is_nil (matching (gv_key_binding max_connections)
               (global_variables (tables max_connections_2000))) = false
  /\ (count_of (matching (gv_full_binding max_connections (PyStr "4096"))
                  (global_variables (tables max_connections_2000))) >? 0)
     = false
  /\ reported_action
       (fst (GlobalVariables.run set_max_connections max_connections_2000))
     = Some update
  /\ Forall2
       (rewritten (gv_key_binding max_connections)
          [("variable_value", SqlText "4096")])
       (global_variables (tables max_connections_2000))
       (global_variables
          (tables (snd (GlobalVariables.run set_max_connections
                          max_connections_2000)))).
Proof.
  do 5 (split; [reflexivity|]).
  exact (set_confined set_max_connections max_connections_2000 eq_refl
           eq_refl eq_refl eq_refl eq_refl).
Defined.

Lemma create_appends_witness :
  arrangement in_order
  /\ users_ready set_bob_new sample_store = true
  /\ MysqlUsers.param_state set_bob_new = present
  /\ MysqlUsers.check_mode set_bob_new = false
  /\ (count_of (matching (user_key_binding (MysqlUsers.init set_bob_new))
                  (mysql_users (tables sample_store))) >? 0) = false
  /\ exists r,
      mysql_users (tables (snd (MysqlUsers.run in_order set_bob_new
                                  sample_store)))
      = mysql_users (tables sample_store) ++ [r]
      /\ cell "username" r = SqlText "bob"
      /\ cell "password" r = SqlText "new"
      /\ cell "active" r = SqlInt 1
      /\ cell "schema_locked" r = SqlInt 0.
Proof.
  destruct (create_appends in_order in_order_arrangement) as (Hu & _).
  split; [apply in_order_arrangement|].
  do 4 (split; [reflexivity|]).
  destruct (Hu set_bob_new sample_store eq_refl eq_refl eq_refl eq_refl)
    as (r & Ht & _ & _ & Hn & _ & _ & Ha & Ho).
  exists r. split; [exact Ht|]. split; [exact Hn|]. split; [|split].
  - apply (Ha "password" (PyStr "new")). cbn. tauto.
  - apply (Ha "active" PyNone). cbn. tauto.
  - apply (Ho "schema_locked"). cbn. intuition discriminate.
Defined.

Lemma create_then_delete_witness :
  arrangement in_order
  /\ users_ready set_bob_new no_variables = true
  /\ MysqlUsers.param_state set_bob_new = present
  /\ MysqlUsers.check_mode set_bob_new = false
  /\ 0 <= MysqlUsers.login_port remove_bob <= 65535
  /\ MysqlUsers.param_state remove_bob = absent
  /\ MysqlUsers.check_mode remove_bob = false
  /\ MysqlUsers.param_username remove_bob
     = MysqlUsers.param_username set_bob_new
  /\ MysqlUsers.param_backend remove_bob
     = MysqlUsers.param_backend set_bob_new
  /\ MysqlUsers.param_frontend remove_bob
     = MysqlUsers.param_frontend set_bob_new
  /\ (count_of (matching (user_key_binding (MysqlUsers.init set_bob_new))
                  (mysql_users (tables no_variables))) >? 0) = false
  /\ tables
       (snd (MysqlUsers.run in_order remove_bob
               (snd (MysqlUsers.run in_order set_bob_new no_variables))))
     = tables no_variables.
Proof.
  destruct (create_then_delete in_order in_order_arrangement) as (Hu & _).
  split; [apply in_order_arrangement|].
  assert (Hport : 0 <= MysqlUsers.login_port remove_bob <= 65535)
    by (cbn; lia).
  do 3 (split; [reflexivity|]). split; [exact Hport|].
  do 6 (split; [reflexivity|]).
  exact (proj2 (proj2 (proj2 (proj2
           (Hu set_bob_new remove_bob no_variables eq_refl eq_refl eq_refl
              Hport eq_refl eq_refl eq_refl eq_refl eq_refl eq_refl))))).
Defined.

Lemma absent_twice_witness :
  arrangement in_order
  /\ users_ready remove_bob bob_old = true
  /\ MysqlUsers.param_state remove_bob = absent
  /\ MysqlUsers.check_mode remove_bob = false
  /\ changed_of
       (fst (MysqlUsers.run in_order remove_bob
               (snd (MysqlUsers.run in_order remove_bob bob_old))))
     = Some py_False
  /\ tables
       (snd (MysqlUsers.run in_order remove_bob
               (snd (MysqlUsers.run in_order remove_bob bob_old))))
     = tables (snd (MysqlUsers.run in_order remove_bob bob_old)).
Proof.
  destruct (absent_twice in_order in_order_arrangement) as (Hu & _).
  split; [apply in_order_arrangement|].
  do 3 (split; [reflexivity|]).
  destruct (Hu remove_bob bob_old eq_refl eq_refl eq_refl)
    as (_ & Hc & _ & Ht).
  split; [exact Hc|exact Ht].
Defined.

Lemma check_mode_predicts_witness :
  arrangement in_order
  /\ changed_of
       (fst (MysqlUsers.run in_order
               (users_request_with present true set_bob_new) bob_old))
     = changed_of
         (fst (MysqlUsers.run in_order
                 (users_request_with present false set_bob_new) bob_old))
  /\ reported_action
       (fst (MysqlUsers.run in_order
               (users_request_with present true set_bob_new) bob_old))
     = reported_action
         (fst (MysqlUsers.run in_order
                 (users_request_with present false set_bob_new) bob_old)).
Proof.
  destruct (check_mode_predicts in_order in_order_arrangement) as (Hu & _).
  split; [apply in_order_arrangement|].
  exact (Hu set_bob_new present bob_old).
Defined.

Lemma force_delete_only_for_many_witness :
  arrangement in_order
  /\ count_of (matching
                 (sched_full_binding in_order
                    (Scheduler.init (remove_schedule false)))
                 (scheduler (tables one_schedule))) <= 1
  /\ Scheduler.run in_order
       (sched_request_with absent true false (remove_schedule false))
       one_schedule
     = Scheduler.run in_order
         (sched_request_with absent false false (remove_schedule false))
         one_schedule.
Proof.
  split; [apply in_order_arrangement|].
  assert (Hone : count_of (matching
                             (sched_full_binding in_order
                                (Scheduler.init (remove_schedule false)))
                             (scheduler (tables one_schedule))) <= 1)
    by (vm_compute; discriminate).
  split; [exact Hone|].
  exact (force_delete_only_for_many in_order (remove_schedule false) absent
           false one_schedule in_order_arrangement (or_intror Hone)).
Defined.

Lemma toggles_only_propagate_witness :
  arrangement in_order
  /\ fst (MysqlUsers.run in_order
            (users_request_pushing false false set_bob_new) bob_old)
     = fst (MysqlUsers.run in_order set_bob_new bob_old)
  /\ tables (snd (MysqlUsers.run in_order
                    (users_request_pushing false false set_bob_new) bob_old))
     = tables (snd (MysqlUsers.run in_order set_bob_new bob_old)).
Proof.
  destruct (toggles_only_propagate in_order in_order_arrangement)
    as (Hu & _).
  split; [apply in_order_arrangement|].
  exact (Hu set_bob_new false false bob_old).
Defined.

Lemma parameters_fill_placeholders_witness :
  arrangement in_order
  /\ well_bound
       (MysqlUsers.create_user_config_query in_order
          (MysqlUsers.init bob_with_password_and_flag))
  /\ well_bound
       (MysqlUsers.update_user_config_query in_order
          (MysqlUsers.init bob_with_password_and_flag)).
Proof.
  destruct (parameters_fill_placeholders in_order in_order_arrangement)
    as (Hu & _).
  split; [apply in_order_arrangement|].
  destruct (Hu bob_with_password_and_flag) as (_ & _ & _ & Hc & Hup & _).
  split; [exact Hc|exact Hup].
Defined.

Lemma update_without_attributes_witness :
  arrangement in_order
  /\ Forall (fun kv => snd kv = PyNone)
       (MysqlUsers.config_data
          (MysqlUsers.init (user_request present None None false)))
  /\ users_ready (user_request present None None false) bob_old = true
  /\ MysqlUsers.param_state (user_request present None None false) = present
  /\ fst (MysqlUsers.update_user_config in_order
            (MysqlUsers.init (user_request present None None false)) bob_old)
     = Raise (MySQLdb_Error "You have an error in your SQL syntax")
  /\ reported_action
       (fst (MysqlUsers.run in_order (user_request present None None false)
               bob_old))
     = Some noop.
Proof.
  split; [apply in_order_arrangement|].
  assert (Hnone : Forall (fun kv => snd kv = PyNone)
                    (MysqlUsers.config_data
                       (MysqlUsers.init
                          (user_request present None None false))))
    by (repeat constructor).
  split; [exact Hnone|]. split; [reflexivity|]. split; [reflexivity|].
  destruct (update_without_attributes in_order
              (user_request present None None false) bob_old
              in_order_arrangement Hnone) as (_ & Hraise & Hrun).
  split.
  - rewrite Hraise. reflexivity.
  - exact (Hrun eq_refl eq_refl).
Defined.

Lemma result_shape_witness :
  arrangement in_order
  /\ fst (Scheduler.run in_order (remove_schedule false) one_schedule)
     = Exit_json
         [("state", Val (PyStr "absent"));
          ("filename", Val (PyStr old_script));
          ("schedules", Rows [schedule_row ""]);
          ("changed", Tuple [PyBool true; PyInt 1]);
          ("msg", Val (PyStr "Deleted schedule from scheduler"))]
  /\ dict_get "state"
       [("state", Val (PyStr "absent"));
        ("filename", Val (PyStr old_script));
        ("schedules", Rows [schedule_row ""]);
        ("changed", Tuple [PyBool true; PyInt 1]);
        ("msg", Val (PyStr "Deleted schedule from scheduler"))]
     = Some (Val (PyStr "absent"))
  /\ dict_get "filename"
       [("state", Val (PyStr "absent"));
        ("filename", Val (PyStr old_script));
        ("schedules", Rows [schedule_row ""]);
        ("changed", Tuple [PyBool true; PyInt 1]);
        ("msg", Val (PyStr "Deleted schedule from scheduler"))]
     = Some (Val (PyStr old_script)).
Proof.
  destruct (result_shape in_order in_order_arrangement) as (_ & Hs & _).
  split; [apply in_order_arrangement|].
  assert (E : fst (Scheduler.run in_order (remove_schedule false)
                     one_schedule)
              = Exit_json
                  [("state", Val (PyStr "absent"));
                   ("filename", Val (PyStr old_script));
                   ("schedules", Rows [schedule_row ""]);
                   ("changed", Tuple [PyBool true; PyInt 1]);
                   ("msg", Val (PyStr "Deleted schedule from scheduler"))])
    by (vm_compute; reflexivity).
  split; [exact E|].
  destruct (Hs (remove_schedule false) one_schedule _ E)
    as (Hstate & Hfile & _).
  split; [exact Hstate|exact Hfile].
Defined.

Lemma returned_record_witness :
  arrangement in_order
  /\ users_ready set_bob_new bob_old = true
  /\ MysqlUsers.check_mode set_bob_new = false
  /\ field_of "user" (fst (MysqlUsers.run in_order set_bob_new bob_old))
     = Some (first_of
               (matching (user_key_binding (MysqlUsers.init set_bob_new))
                  (mysql_users
                     (tables (snd (MysqlUsers.run in_order set_bob_new
                                     bob_old)))))).
Proof.
  destruct (returned_record in_order in_order_arrangement) as (Hu & _).
  split; [apply in_order_arrangement|].
  do 2 (split; [reflexivity|]).
  exact (Hu set_bob_new bob_old eq_refl eq_refl).
Defined.
